(** * Multi-platform deployer: deployment orchestration and snapshot store

    A shallow embedding of the orchestration core of the deployer
    ([main.py], class [Deployer]), of the snapshot-based rollback store
    ([scripts/rollback.py], class [RollbackManager]) and of the
    configuration validator ([config/validator.py]), followed by the
    properties of the specification stated over that embedding.

    Embedded besides: [Deployer.rollback] and [Deployer.prepare_deployment]
    of [main.py], the four platform deployers ([deployers/]),
    [validate_config] of [utils/validators.py],
    [HealthChecker.check_server_up] ([scripts/health_check.py]) and the
    migrator ([scripts/migrator.py]), with further properties read off
    the code.

    Conventions of the embedding
    - Python values are the inductive type [pyval]; dictionaries are
      association lists in insertion order with Python's update rule.
    - The project directory is the record [FS]: the live project tree and
      the hidden history directory [.deployment] with its sidecar records
      and its [artifacts] sub-directory.
    - The listings of [.deployment] and of its [artifacts] directory are
      by file stem: a deployment id stands for one file name
      ([file_name_id]).
    - Everything the code asks of the outside world (clock, git, outcome of
      a write) is an explicit input, the record [ckpt_io].
    - The checkers, the platform deployers and the migrator are capabilities
      (class [Capabilities]); they answer from the current [Deployer] state.
    - Code without a [try] is in the state-and-exception monad [M]. *)

From stdpp Require Import gmap strings list pretty sorting.

Set Warnings "-register-all".

(* ================================================================== *)
(** * Part I: definitions *)
(* ================================================================== *)

(** ** Python values *)

(** Hashable values used as dictionary keys. [KOther] is any other hashable
    object, given by what [str()] returns for it. *)
Inductive pykey :=
  | KStr (s : string)
  | KInt (z : Z)
  | KBool (b : bool)
  | KNone
  | KOther (repr : string).

(** Python values. A float is its IEEE-754 binary64 bit pattern; [VOther] is
    an object of any other class, given by what [str()] returns for it. *)
Inductive pyval :=
  | VNone
  | VBool (b : bool)
  | VInt (z : Z)
  | VFloat (bits : Z)
  | VStr (s : string)
  | VDict (items : list (pykey * pyval))
  | VList (xs : list pyval)
  | VTuple (xs : list pyval)
  | VSet (xs : list pyval)
  | VOther (repr : string).

Abbreviation pydict := (list (pykey * pyval)).

Global Instance pykey_eq_dec : EqDecision pykey.
Proof. solve_decision. Defined.

(** [True == 1] and [False == 0] in Python, with equal hashes: as dictionary
    keys they are the same key. *)
Definition key_norm (k : pykey) : pykey :=
  match k with
  | KBool b => KInt (if b then 1 else 0)
  | _ => k
  end.

Definition key_eqb (a b : pykey) : bool :=
  bool_decide (key_norm a = key_norm b).

(** [d[k] = v]: an existing key keeps its place (and its key object), a new
    key goes last. *)
Fixpoint dict_set (k : pykey) (v : pyval) (d : pydict) : pydict :=
  match d with
  | [] => [(k, v)]
  | (k', v') :: d' =>
      if key_eqb k' k then (k', v) :: d' else (k', v') :: dict_set k v d'
  end.

(** [d.get(k)]: [None] when the key is missing. *)
Fixpoint dict_get (k : pykey) (d : pydict) : pyval :=
  match d with
  | [] => VNone
  | (k', v') :: d' => if key_eqb k' k then v' else dict_get k d'
  end.

(** [k in d] *)
Definition dict_mem (k : pykey) (d : pydict) : bool :=
  existsb (λ kv, key_eqb kv.1 k) d.

(** [d.update(other)] *)
Definition dict_update (d other : pydict) : pydict :=
  foldl (λ acc kv, dict_set kv.1 kv.2 acc) d other.

(** [str(k)] for a key. *)
Definition py_str_key (k : pykey) : string :=
  match k with
  | KStr s => s
  | KInt z => pretty z
  | KBool true => "True"
  | KBool false => "False"
  | KNone => "None"
  | KOther r => r
  end.

(** Truth value of an object in a condition ([if x:], [not x]). *)
Definition py_truthy (v : pyval) : bool :=
  match v with
  | VNone => false
  | VBool b => b
  | VInt z => negb (z =? 0)%Z
  | VFloat bits => negb (Z.land bits (Z.ones 63) =? 0)%Z
  | VStr s => negb (bool_decide (s = ""))
  | VDict items => negb (bool_decide (items = []))
  | VList xs | VTuple xs | VSet xs =>
      match xs with [] => false | _ :: _ => true end
  | VOther _ => true
  end.

(** The string methods the code calls. Python's [str.lower] and [str.strip]
    follow Unicode tables; the development is parametric in them. *)
Class PyStr := {
  str_lower : string → string;
  str_strip : string → string;
}.

(** The ASCII instance, used to run the model on concrete inputs. *)
Definition ascii_lower_char (c : Ascii.ascii) : Ascii.ascii :=
  let n := Ascii.nat_of_ascii c in
  if (65 <=? n)%nat && (n <=? 90)%nat then Ascii.ascii_of_nat (n + 32) else c.

Fixpoint ascii_lower (s : string) : string :=
  match s with
  | EmptyString => EmptyString
  | String c s' => String (ascii_lower_char c) (ascii_lower s')
  end.

Definition ascii_is_space (c : Ascii.ascii) : bool :=
  let n := Ascii.nat_of_ascii c in
  ((9 <=? n)%nat && (n <=? 13)%nat) || ((28 <=? n)%nat && (n <=? 32)%nat).

Fixpoint ascii_lstrip (s : string) : string :=
  match s with
  | EmptyString => EmptyString
  | String c s' => if ascii_is_space c then ascii_lstrip s' else s
  end.

Definition ascii_strip (s : string) : string :=
  String.rev (ascii_lstrip (String.rev (ascii_lstrip s))).

Definition ascii_ops : PyStr :=
  {| str_lower := ascii_lower; str_strip := ascii_strip |}.

(** [s.endswith(suffix)] *)
Definition str_endswith (suffix s : string) : bool :=
  String.prefix (String.rev suffix) (String.rev s).

(** ** Exceptions *)

Inductive exn :=
  | AttributeError
  | TypeError
  | BadZipFile
  | OSError.

Inductive result (A : Type) :=
  | Ok (a : A)
  | Raise (e : exn).
Arguments Ok {A} a.
Arguments Raise {A} e.

(** ** scripts/rollback.py *)

Module Rollback.

(** A path below the project root, as its components. *)
Abbreviation path := (list string).

(** What a sidecar file holds: a JSON document, or bytes [json.load]
    rejects. [json.dump] followed by [json.load] gives back a JSON-safe
    value unchanged (but for a NaN with a sign or a payload, which comes
    back as the default NaN, see [json_stable]), so the document is kept
    as the value itself. *)
Inductive file_body :=
  | JsonDoc (v : pyval)
  | NotJson.

Record sidecar := {
  sc_mtime : Z;          (* st_mtime *)
  sc_body : file_body;
}.

Inductive archive :=
  | ZipArchive (entries : list (path * string))
  | BrokenZip.

(** The directory [.deployment]: its [*.json] files by stem, in the order
    the directory lists them, and its [artifacts] sub-directory (the
    [*.zip] files by stem) when that exists. *)
Record history_dir := {
  sidecars : list (string * sidecar);
  artifacts : option (list (string * archive));
}.

(** The project directory: the live tree (everything outside
    [.deployment]) and the history directory when it exists. *)
Record FS := {
  project : gmap path string;
  history : option history_dir;
}.

Definition EXCLUDED_DIRS : list string :=
  [".deployment"; ".git"; ".venv"; "__pycache__"].

(** *** File-system primitives *)

(** Writing a file: an existing name is overwritten in place, a new name
    is listed last. *)
Definition dir_write {A} (name : string) (x : A) (d : list (string * A))
  : list (string * A) :=
  if bool_decide (name ∈ d.*1)
  then (λ e, if bool_decide (e.1 = name) then (name, x) else e) <$> d
  else d ++ [(name, x)].

(** [unlink(missing_ok=True)] *)
Definition unlink {A} (name : string) (d : list (string * A))
  : list (string * A) :=
  filter (λ e, e.1 ≠ name) d.

(** [(project_root / ".deployment").mkdir(parents=True, exist_ok=True)] *)
Definition mkdir_history (fs : FS) : FS :=
  match history fs with
  | Some _ => fs
  | None =>
      {| project := project fs;
         history := Some {| sidecars := []; artifacts := None |} |}
  end.

(** [(project_root / ".deployment" / "artifacts").mkdir(parents=True,
    exist_ok=True)] *)
Definition mkdir_artifacts (fs : FS) : FS :=
  let h := default {| sidecars := []; artifacts := None |} (history fs) in
  {| project := project fs;
     history := Some {| sidecars := sidecars h;
                        artifacts := Some (default [] (artifacts h)) |} |}.

Definition write_archive (stem : string) (a : archive) (fs : FS) : FS :=
  let h := default {| sidecars := []; artifacts := None |} (history fs) in
  {| project := project fs;
     history := Some {| sidecars := sidecars h;
                        artifacts :=
                          Some (dir_write stem a (default [] (artifacts h))) |} |}.

Definition write_sidecar (stem : string) (f : sidecar) (fs : FS) : FS :=
  let h := default {| sidecars := []; artifacts := None |} (history fs) in
  {| project := project fs;
     history := Some {| sidecars := dir_write stem f (sidecars h);
                        artifacts := artifacts h |} |}.

(** [sorted(deployment_dir.glob("*.json"), key=lambda x: x.stat().st_mtime,
    reverse=True)]: a stable sort, newest first; files with equal times
    keep the order of the listing. *)
Fixpoint insert_by_mtime (f : string * sidecar)
    (sorted : list (string * sidecar)) : list (string * sidecar) :=
  match sorted with
  | [] => [f]
  | g :: rest =>
      if (sc_mtime f.2 <? sc_mtime g.2)%Z
      then g :: insert_by_mtime f rest
      else f :: sorted
  end.

Definition sorted_by_mtime_desc (files : list (string * sidecar))
  : list (string * sidecar) :=
  foldr insert_by_mtime [] files.

(** [xs[:k]] and [xs[k:]] for any integer [k]. *)
Definition slice_to {A} (k : Z) (xs : list A) : list A :=
  if (0 <=? k)%Z then take (Z.to_nat k) xs
  else take (length xs - Z.to_nat (- k)) xs.

Definition slice_from {A} (k : Z) (xs : list A) : list A :=
  if (0 <=? k)%Z then drop (Z.to_nat k) xs
  else drop (length xs - Z.to_nat (- k)) xs.

(** *** What the outside world answers during one [create_checkpoint] *)

Inductive snapshot_outcome :=
  | SnapshotOk
  | SnapshotMkdirFailed               (* artifacts_dir.mkdir raised *)
  | SnapshotOpenFailed                (* zipfile.ZipFile(.., "w") raised *)
  | SnapshotWriteFailed (written : nat). (* the walk raised after [written] entries *)

Record ckpt_io := {
  io_stamp : string;              (* strftime("%Y%m%d%H%M%S") *)
  io_iso : string;                (* now.isoformat() *)
  io_git : option string;         (* git rev-parse HEAD, when it succeeds *)
  io_mkdir_ok : bool;             (* state_file.parent.mkdir *)
  io_snapshot : snapshot_outcome;
  io_write_ok : bool;             (* open(state_file, "w") and json.dump *)
  io_write_left : bool;           (* when they fail: open() had made the file *)
  io_mtime : Z;                   (* st_mtime the sidecar gets *)
}.

Section WithStr.
Context {str_ops : PyStr}.

(** *** [RollbackManager._make_json_safe] *)
Fixpoint _make_json_safe (value : pyval) : pyval :=
  match value with
  | VStr _ | VInt _ | VFloat _ | VBool _ | VNone => value
  | VDict items =>
      VDict (foldl (λ acc kv,
                      dict_set (KStr (py_str_key kv.1))
                               (_make_json_safe kv.2) acc)
                   [] items)
  | VList xs | VTuple xs | VSet xs => VList (map _make_json_safe xs)
  | VOther repr => VStr repr
  end.

(** *** [RollbackManager._generate_deployment_id] *)
Definition _generate_deployment_id (platform : string) (io : ckpt_io)
  : string :=
  str_lower platform +:+ "_" +:+ io_stamp io.

(** *** [RollbackManager._get_current_git_commit] *)
Definition _get_current_git_commit (io : ckpt_io) : pyval :=
  match io_git io with
  | Some commit => VStr commit
  | None => VNone
  end.

(** *** [RollbackManager._create_project_snapshot] *)

(** A file is archived when no directory above it is excluded and its
    name does not end in [.pyc] or [.pyo]. *)
Definition snapshot_includes (p : path) : bool :=
  match reverse p with
  | [] => false
  | file_name :: dirs =>
      forallb (λ d, negb (bool_decide (d ∈ EXCLUDED_DIRS))) dirs
      && negb (str_endswith ".pyc" file_name
               || str_endswith ".pyo" file_name)
  end.

Definition snapshot_entries (fs : FS) : list (path * string) :=
  filter (λ e, snapshot_includes e.1 = true) (map_to_list (project fs)).

(** str(snapshot_path.relative_to(project_root)) *)
Definition artifact_rel_path (deployment_id : string) : string :=
  ".deployment/artifacts/" +:+ deployment_id +:+ ".zip".

Definition _create_project_snapshot (deployment_id : string)
    (io : ckpt_io) (fs : FS) : option string * FS :=
  match io_snapshot io with
  | SnapshotMkdirFailed => (None, fs)
  | SnapshotOpenFailed => (None, mkdir_artifacts fs)
  | SnapshotWriteFailed written =>
      (None,
       write_archive deployment_id
         (ZipArchive (take written (snapshot_entries fs)))
         (mkdir_artifacts fs))
  | SnapshotOk =>
      (Some (artifact_rel_path deployment_id),
       write_archive deployment_id
         (ZipArchive (snapshot_entries fs))
         (mkdir_artifacts fs))
  end.

(** *** [RollbackManager.save_deployment_state]

    The caller's [state] dictionary is updated in place when the archive
    was written; the function therefore also returns the dictionary as
    the caller sees it afterwards. Inside the [try], making the
    directory can fail ([io_mkdir_ok]) and so can opening and writing
    the file ([io_write_ok]). [open(state_file, "w")] creates the file,
    or empties the one that is there, before anything is written: a
    write that fails after it ([io_write_left]) leaves a file cut short,
    which is no JSON document; a write that fails in [open] leaves the
    directory as it was. *)
Definition save_deployment_state (deployment_id : string)
    (state : pydict) (io : ckpt_io) (fs : FS) : bool * pydict * FS :=
  if negb (io_mkdir_ok io) then (false, state, fs)
  else
    let fs1 := mkdir_history fs in
    let '(artifact_path, fs2) :=
      _create_project_snapshot deployment_id io fs1 in
    let state1 :=
      match artifact_path with
      | Some p =>
          if py_truthy (VStr p)
          then dict_set (KStr "artifact_path") (VStr p) state
          else state
      | None => state
      end in
    let payload := _make_json_safe (VDict state1) in
    if negb (io_write_ok io) then
      (false, state1,
       if io_write_left io
       then write_sidecar deployment_id
              {| sc_mtime := io_mtime io; sc_body := NotJson |} fs2
       else fs2)
    else
      (true, state1,
       write_sidecar deployment_id
         {| sc_mtime := io_mtime io; sc_body := JsonDoc payload |} fs2).

(** *** [RollbackManager.clean_old_deployments] *)
Definition clean_old_deployments (keep_count : Z) (fs : FS) : FS :=
  match history fs with
  | None => fs
  | Some h =>
      let files := sorted_by_mtime_desc (sidecars h) in
      let files_to_keep := (slice_to keep_count files).*1 in
      let sidecars' :=
        foldl (λ dir file, unlink file.1 dir)
              (sidecars h) (slice_from keep_count files) in
      let artifacts' :=
        match artifacts h with
        | None => None
        | Some zips =>
            Some (foldl (λ dir artifact,
                           if bool_decide (artifact.1 ∉ files_to_keep)
                           then unlink artifact.1 dir else dir)
                        zips zips)
        end in
      {| project := project fs;
         history := Some {| sidecars := sidecars';
                            artifacts := artifacts' |} |}
  end.

(** *** [RollbackManager.create_checkpoint] *)
Definition create_checkpoint (platform : string)
    (metadata : option pydict) (io : ckpt_io) (fs : FS)
  : option pydict * FS :=
  let deployment_id := _generate_deployment_id platform io in
  let state : pydict :=
    [ (KStr "id", VStr deployment_id);
      (KStr "platform", VStr (str_lower platform));
      (KStr "timestamp", VStr (io_iso io));
      (KStr "git_commit", _get_current_git_commit io) ] in
  let state :=
    match metadata with
    | Some m => if py_truthy (VDict m) then dict_update state m else state
    | None => state
    end in
  let '(saved, state', fs') :=
    save_deployment_state deployment_id state io fs in
  if saved then (Some state', clean_old_deployments 5 fs')
  else (None, fs').

(** *** [RollbackManager.get_previous_deployment]
    [VNone] is Python's [None]. *)
Definition get_previous_deployment (fs : FS) : pyval :=
  match history fs with
  | None => VNone
  | Some h =>
      match sorted_by_mtime_desc (sidecars h) with
      | [] => VNone
      | newest :: _ =>
          match sc_body newest.2 with
          | JsonDoc v => v
          | NotJson => VNone
          end
      end
  end.

(** *** [RollbackManager._restore_snapshot]

    An [artifact_path] that is not the path of a file of the [artifacts]
    directory counts as missing. *)
Definition lookup_artifact (fs : FS) (rel : string) : option archive :=
  h ← history fs;
  zips ← artifacts h;
  found ← list_find (λ z, artifact_rel_path z.1 = rel) zips;
  Some found.2.2.

Definition extractall (entries : list (path * string)) (fs : FS) : FS :=
  {| project := foldl (λ tree e, <[e.1 := e.2]> tree) (project fs) entries;
     history := history fs |}.

(** [ZipFile.extractall] writes the members in the order of the archive.
    For each it creates the directories above the member and opens the
    member for writing, which raises when a file is where a directory is
    needed, or a directory where the file goes. In the tree a directory
    is there when a file lies below it. *)
Definition blocked (tree : gmap path string) (p : path) : bool :=
  existsb (λ e, bool_decide (e.1 ≠ p
                             ∧ (e.1 `prefix_of` p ∨ p `prefix_of` e.1)))
          (map_to_list tree).

(** The member at which the extraction raises for such a reason, if
    any. *)
Fixpoint first_blocked (entries : list (path * string))
    (tree : gmap path string) : option nat :=
  match entries with
  | [] => None
  | e :: rest =>
      if blocked tree e.1 then Some 0
      else S <$> first_blocked rest (<[e.1 := e.2]> tree)
  end.

(** Where [extractall] stops. [extract_stops] is the outside world's
    answer for it: [None] when nothing else goes wrong, [Some n] when it
    raises after [n] members for another reason (an I/O error, an empty
    directory in the way). *)
Definition extraction_stops (extract_stops : option nat)
    (entries : list (path * string)) (tree : gmap path string)
  : option nat :=
  match first_blocked entries tree, extract_stops with
  | Some n, Some m => Some (n `min` m)
  | Some n, None => Some n
  | None, stop => stop
  end.

Definition _restore_snapshot (state : pyval) (extract_stops : option nat)
    (fs : FS) : result bool * FS :=
  match state with
  | VDict items =>
      let artifact_rel := dict_get (KStr "artifact_path") items in
      if negb (py_truthy artifact_rel) then (Ok false, fs)
      else
        match artifact_rel with
        | VStr rel =>
            match lookup_artifact fs rel with
            | None => (Ok false, fs)
            | Some BrokenZip => (Ok false, fs)
            | Some (ZipArchive entries) =>
                match extraction_stops extract_stops entries (project fs) with
                | None => (Ok true, extractall entries fs)
                | Some n => (Ok false, extractall (take n entries) fs)
                end
            end
        | _ => (Raise TypeError, fs)
        end
  | _ => (Raise AttributeError, fs)
  end.

(** *** [RollbackManager.rollback_to_previous]
    A callback may read and change the project directory and may
    raise. *)
Definition callback := pyval → FS → result bool * FS.

Definition rollback_to_previous (deploy_callback : option callback)
    (extract_stops : option nat) (fs : FS) : bool * FS :=
  let previous := get_previous_deployment fs in
  if negb (py_truthy previous) then (false, fs)
  else
    match _restore_snapshot previous extract_stops fs with
    | (Raise _, fs1) => (false, fs1)
    | (Ok false, fs1) => (false, fs1)
    | (Ok true, fs1) =>
        match deploy_callback with
        | None => (true, fs1)
        | Some cb =>
            match cb previous fs1 with
            | (Raise _, fs2) => (false, fs2)
            | (Ok false, fs2) => (false, fs2)
            | (Ok true, fs2) => (true, fs2)
            end
        end
    end.

End WithStr.

End Rollback.

(** ** config/validator.py *)

Module Validator.

Definition REQUIRED_KEYS : list string := ["platform"; "app_name"].

Definition VALID_PLATFORMS : list string :=
  ["render"; "railway"; "vercel"; "heroku"; "aws"].

(** [f"{ConfigValidator.VALID_PLATFORMS}"] *)
Definition VALID_PLATFORMS_repr : string :=
  "['render', 'railway', 'vercel', 'heroku', 'aws']".

Section WithStr.
Context {str_ops : PyStr}.

(** The loop over a [platform] list. [p.lower()] raises on every value
    without a [lower] method: of the values a JSON file gives, on all
    but strings. An object of another class is taken to have none
    ([bytes] has one). *)
Fixpoint validate_platform_list (platform : list pyval)
    (errors : list string) : result (list string) :=
  match platform with
  | [] => Ok errors
  | VStr p :: rest =>
      validate_platform_list rest
        (if bool_decide (str_lower p ∈ VALID_PLATFORMS) then errors
         else errors ++ ["Invalid platform in list: " +:+ p])
  | _ :: _ => Raise AttributeError
  end.

(** *** [ConfigValidator.validate] *)
Definition validate (config : pyval) : result (bool * list string) :=
  match config with
  | VDict items =>
      let errors :=
        foldl (λ errors key,
                 if dict_mem (KStr key) items then errors
                 else errors ++
                      ["Missing required configuration key: " +:+ key])
              [] REQUIRED_KEYS in
      let after_platform : result (list string) :=
        if dict_mem (KStr "platform") items then
          match dict_get (KStr "platform") items with
          | VStr platform =>
              Ok (if bool_decide (str_lower platform ∈ VALID_PLATFORMS)
                  then errors
                  else errors ++
                       ["Invalid platform: " +:+ platform +:+
                        ". Valid platforms: " +:+ VALID_PLATFORMS_repr])
          | VList platform => validate_platform_list platform errors
          | _ => Ok (errors ++
                     ["Platform must be string or list of strings"])
          end
        else Ok errors in
      match after_platform with
      | Raise e => Raise e
      | Ok errors =>
          let errors :=
            if dict_mem (KStr "app_name") items then
              match dict_get (KStr "app_name") items with
              | VStr app_name =>
                  if py_truthy (VStr (str_strip app_name)) then errors
                  else errors ++ ["app_name cannot be empty"]
              | _ => errors ++ ["app_name must be a string"]
              end
            else errors in
          Ok (bool_decide (length errors = 0), errors)
      end
  | _ => Ok (false, ["Configuration must be a dictionary"])
  end.

End WithStr.

End Validator.

(** ** main.py *)

Module Main.

(** [checkers/base.py], dataclass [CheckResult] *)
Record CheckResult := {
  name : string;
  passed : bool;
  message : string;
  category : string;
  severity : string;
}.

(** Calls the orchestrator makes, in the order it makes them (ghost
    state: the code keeps no such list). *)
Inductive event :=
  | EvDeploy (platform : string) (run_migrations : bool)
  | EvSystemCheck
  | EvFrameworkCheck (key : string)
  | EvConfigValidate
  | EvPlatformValidate (key : string)
  | EvMigrate
  | EvPlatformDeploy (key : string)
  | EvCreateCheckpoint (platform : string).

(** The fields of a [Deployer] object the orchestration reads or writes.
    [deployers] and [checkers] are the keys of the two instance
    dictionaries in insertion order: the object stored under a key is
    always an instance of the class registered for that key.
    [rollback_manager] is the project directory as the [RollbackManager]
    sees it. *)
Record Deployer := {
  config : pyval;
  deployers : list string;
  checkers : list string;
  system_results : list CheckResult;
  rollback_manager : Rollback.FS;
  trace : list event;
}.

(** Keys of [AVAILABLE_DEPLOYERS] and [AVAILABLE_CHECKERS]. *)
Definition AVAILABLE_DEPLOYERS : list string :=
  ["render"; "railway"; "vercel"; "heroku"].

Definition AVAILABLE_CHECKERS : list string :=
  ["flask"; "django"; "fastapi"].

(** The collaborators of the orchestrator, each answering from the state
    in which it is called: the individual checks of the system checker
    and of the checker registered for a framework, [validate()] and
    [deploy()] of the deployer registered for a platform,
    [DatabaseMigrator.run_migrations()], and the outside world's answers
    for the checkpoint written at the end of a deployment. *)
Class Capabilities := {
  system_checks : Deployer → list CheckResult;
  framework_checks : string → Deployer → list CheckResult;
  platform_validate : string → Deployer → bool;
  platform_deploy : string → Deployer → bool;
  migrator_run_migrations : Deployer → bool;
  checkpoint_io : Deployer → Rollback.ckpt_io;
}.

(** *** State and exceptions *)

Definition M (A : Type) : Type := Deployer → result A * Deployer.

Global Instance M_ret : MRet M := λ A a d, (Ok a, d).

Global Instance M_bind : MBind M := λ A B k m d,
  match m d with
  | (Ok a, d') => k a d'
  | (Raise e, d') => (Raise e, d')
  end.

Definition gets {A} (f : Deployer → A) : M A := λ d, (Ok (f d), d).

Definition modify (f : Deployer → Deployer) : M unit := λ d, (Ok tt, f d).

Definition lift {A} (r : result A) : M A := λ d, (r, d).

Definition emit (e : event) : M unit :=
  modify (λ d, {| config := config d; deployers := deployers d;
                  checkers := checkers d;
                  system_results := system_results d;
                  rollback_manager := rollback_manager d;
                  trace := trace d ++ [e] |}).

(** [keys[k] = obj] on the keys of an instance dictionary. *)
Definition key_add (k : string) (keys : list string) : list string :=
  if bool_decide (k ∈ keys) then keys else keys ++ [k].

Definition set_checker (k : string) : M unit :=
  modify (λ d, {| config := config d; deployers := deployers d;
                  checkers := key_add k (checkers d);
                  system_results := system_results d;
                  rollback_manager := rollback_manager d;
                  trace := trace d |}).

Definition set_deployer (k : string) : M unit :=
  modify (λ d, {| config := config d; deployers := key_add k (deployers d);
                  checkers := checkers d;
                  system_results := system_results d;
                  rollback_manager := rollback_manager d;
                  trace := trace d |}).

Definition set_system_results (rs : list CheckResult) : M unit :=
  modify (λ d, {| config := config d; deployers := deployers d;
                  checkers := checkers d;
                  system_results := rs;
                  rollback_manager := rollback_manager d;
                  trace := trace d |}).

Definition set_rollback_manager (fs : Rollback.FS) : M unit :=
  modify (λ d, {| config := config d; deployers := deployers d;
                  checkers := checkers d;
                  system_results := system_results d;
                  rollback_manager := fs;
                  trace := trace d |}).

(** [check_all] of every checker: run the checks, then
    [all(r.passed for r in self.results)]. *)
Definition check_all (results : list CheckResult)
  : bool * list CheckResult :=
  (forallb passed results, results).

(** The [metadata] argument [deploy] passes to [create_checkpoint]. *)
Definition checkpoint_metadata (run_migrations : bool) (d : Deployer)
  : pydict :=
  [ (KStr "run_migrations", VBool run_migrations);
    (KStr "config_snapshot", config d);
    (KStr "checked_frameworks", VList (VStr <$> checkers d)) ].

Section WithCapabilities.
Context {str_ops : PyStr} {caps : Capabilities}.

(** *** [Deployer._run_system_checks] *)
Definition _run_system_checks : M (bool * list CheckResult) :=
  emit EvSystemCheck;;
  results ← gets system_checks;
  let '(system_ready, system_results) := check_all results in
  set_checker "system";;
  set_system_results system_results;;
  mret (system_ready, system_results).

(** *** [Deployer.check_deployment_readiness] *)
Definition check_deployment_readiness (framework : string)
  : M (bool * list CheckResult) :=
  '(system_ready, system_results) ← _run_system_checks;
  if negb (bool_decide (str_lower framework ∈ AVAILABLE_CHECKERS))
  then mret (false, system_results)
  else
    emit (EvFrameworkCheck (str_lower framework));;
    checks ← gets (framework_checks (str_lower framework));
    let '(is_ready, results) := check_all checks in
    set_checker (str_lower framework);;
    let combined_results := system_results ++ results in
    mret (system_ready && is_ready, combined_results).

(** *** [Deployer.initialize_deployer]
    The deployer object is given by the key it is registered under. *)
Definition initialize_deployer (platform : string) : M (option string) :=
  if negb (bool_decide (str_lower platform ∈ AVAILABLE_DEPLOYERS))
  then mret None
  else
    set_deployer (str_lower platform);;
    mret (Some (str_lower platform)).

(** *** [Deployer.validate_deployment] *)
Definition validate_deployment (platform : string) : M bool :=
  emit EvConfigValidate;;
  cfg ← gets config;
  '(is_valid, errors) ← lift (Validator.validate cfg);
  if negb is_valid then mret false
  else
    deployer ← initialize_deployer platform;
    match deployer with
    | None => mret false
    | Some key =>
        emit (EvPlatformValidate key);;
        valid ← gets (platform_validate key);
        if negb valid then mret false else mret true
    end.

(** *** [Deployer.deploy] *)
Definition deploy (platform : string) (run_migrations : bool) : M bool :=
  emit (EvDeploy platform run_migrations);;
  '(system_ready, system_results) ← _run_system_checks;
  if negb system_ready then mret false
  else
    validated ← validate_deployment platform;
    if negb validated then mret false
    else
      (if run_migrations
       then emit EvMigrate;;
            migrated ← gets migrator_run_migrations;
            mret tt
       else mret tt);;
      known ← gets deployers;
      deployer ←
        (if bool_decide (str_lower platform ∈ known)
         then mret (Some (str_lower platform))
         else initialize_deployer platform);
      match deployer with
      | None => mret false
      | Some key =>
          emit (EvPlatformDeploy key);;
          deployed ← gets (platform_deploy key);
          if negb deployed then mret false
          else
            emit (EvCreateCheckpoint platform);;
            metadata ← gets (checkpoint_metadata run_migrations);
            io ← gets checkpoint_io;
            fs ← gets rollback_manager;
            let '(_, fs') :=
              Rollback.create_checkpoint platform (Some metadata) io fs in
            set_rollback_manager fs';;
            mret true
      end.

(** *** [Deployer.deploy_to_multiple_platforms]
    The loop, with the [results] dictionary built so far. *)
Fixpoint deploy_each (platforms : list string) (run_migrations : bool)
    (results : gmap string bool) : M (gmap string bool) :=
  match platforms with
  | [] => mret results
  | platform :: rest =>
      outcome ← deploy platform run_migrations;
      deploy_each rest run_migrations (<[platform := outcome]> results)
  end.

Definition deploy_to_multiple_platforms (platforms : list string)
    (run_migrations : bool) : M (gmap string bool) :=
  deploy_each platforms run_migrations ∅.

End WithCapabilities.

End Main.

(** ** Vocabulary of the statements *)

(** The values JSON can hold as they are. *)
Definition is_primitive (v : pyval) : bool :=
  match v with
  | VStr _ | VInt _ | VFloat _ | VBool _ | VNone => true
  | _ => false
  end.

(** What [json.dump] writes without a custom encoder: primitives, lists,
    and dictionaries with string keys, nested. *)
Fixpoint json_safe (v : pyval) : bool :=
  match v with
  | VStr _ | VInt _ | VFloat _ | VBool _ | VNone => true
  | VDict items =>
      forallb (λ kv, match kv.1 with KStr _ => json_safe kv.2 | _ => false end)
              items
  | VList xs => forallb json_safe xs
  | VTuple _ | VSet _ | VOther _ => false
  end.



(** The JSON object written for [d] has a field called [name]. *)
Definition has_field (name : string) (d : pydict) : bool :=
  existsb (λ kv, bool_decide (py_str_key kv.1 = name)) d.

Module History.
Import Rollback.

(** One call of [create_checkpoint] with the outside world's answers. *)
Record creation := {
  cr_platform : string;
  cr_metadata : option pydict;
  cr_io : ckpt_io;
}.

Definition archive_failed (io : ckpt_io) : bool :=
  match io_snapshot io with SnapshotOk => false | _ => true end.

(** Both the archive and the sidecar get written. *)
Definition creation_ok (c : creation) : bool :=
  io_mkdir_ok (cr_io c) && io_write_ok (cr_io c)
  && negb (archive_failed (cr_io c)).

Definition creation_mtime (c : creation) : Z := io_mtime (cr_io c).

Definition history_or_empty (fs : FS) : history_dir :=
  default {| sidecars := []; artifacts := None |} (history fs).

(** Stems of the sidecar records and of the archives on disk, in listing
    order, and the sidecars with their modification times. *)
Definition sidecar_stems (fs : FS) : list string :=
  (sidecars (history_or_empty fs)).*1.

Definition sidecar_index (fs : FS) : list (string * Z) :=
  (λ e, (e.1, sc_mtime e.2)) <$> sidecars (history_or_empty fs).

Definition archive_stems (fs : FS) : list string :=
  (default [] (artifacts (history_or_empty fs))).*1.

Definition older (a b : string * sidecar) : Prop :=
  (sc_mtime a.2 < sc_mtime b.2)%Z.

(** A history directory as [create_checkpoint] leaves it when nothing
    fails and the clock moves forward: one archive per sidecar, names
    distinct, listed oldest first. *)
Definition tidy (fs : FS) : Prop :=
  archive_stems fs = sidecar_stems fs
  ∧ StronglySorted older (sidecars (history_or_empty fs))
  ∧ NoDup (sidecar_stems fs).

Section WithStr.
Context {str_ops : PyStr}.

Definition creation_id (c : creation) : string :=
  _generate_deployment_id (cr_platform c) (cr_io c).

Definition checkpoint_entry (c : creation) : string * Z :=
  (creation_id c, creation_mtime c).

(** A history of checkpoint creations, oldest first. *)
Definition run_creations (cs : list creation) (fs : FS) : FS :=
  foldl (λ fs c,
           (create_checkpoint (cr_platform c) (cr_metadata c) (cr_io c)
                              fs).2)
        fs cs.
End WithStr.
End History.

(** The state in which a collaborator is called: the calls [evs] have been
    recorded since [d]. *)
Definition at_call (d : Main.Deployer) (evs : list Main.event)
  : Main.Deployer :=
  {| Main.config := Main.config d;
     Main.deployers := Main.deployers d;
     Main.checkers := Main.checkers d;
     Main.system_results := Main.system_results d;
     Main.rollback_manager := Main.rollback_manager d;
     Main.trace := Main.trace d ++ evs |}.

(** The state [_run_system_checks] leaves when it is entered in [d]. *)
Definition after_system_checks {caps : Main.Capabilities}
    (d : Main.Deployer)
  : Main.Deployer :=
  {| Main.config := Main.config d;
     Main.deployers := Main.deployers d;
     Main.checkers := Main.key_add "system" (Main.checkers d);
     Main.system_results := Main.system_checks (at_call d [Main.EvSystemCheck]);
     Main.rollback_manager := Main.rollback_manager d;
     Main.trace := Main.trace d ++ [Main.EvSystemCheck] |}.

(** The same collaborators with another migrator. *)
Definition with_migrator (answer : Main.Deployer → bool)
    (c : Main.Capabilities) : Main.Capabilities :=
  {| Main.system_checks := @Main.system_checks c;
     Main.framework_checks := @Main.framework_checks c;
     Main.platform_validate := @Main.platform_validate c;
     Main.platform_deploy := @Main.platform_deploy c;
     Main.migrator_run_migrations := answer;
     Main.checkpoint_io := @Main.checkpoint_io c |}.

Definition is_deploy_call (e : Main.event) : bool :=
  match e with Main.EvDeploy _ _ => true | _ => false end.

Definition is_checkpoint_call (e : Main.event) : bool :=
  match e with Main.EvCreateCheckpoint _ => true | _ => false end.

Definition is_platform_call (e : Main.event) : bool :=
  match e with
  | Main.EvPlatformValidate _ | Main.EvPlatformDeploy _ => true
  | _ => false
  end.

(** ** Sample inputs *)

Module Sample.
Import Rollback History.

(** A project with one source file, one compiled file and a git
    directory; no history yet. *)
Definition project_v1 : FS :=
  {| project := {[ ["app.py"] := "print('v1')";
                   ["__pycache__"; "app.cpython-312.pyc"] := "bytecode";
                   [".git"; "HEAD"] := "ref: refs/heads/main" ]};
     history := None |}.

(** The same project after [app.py] was edited. *)
Definition edit_app (text : string) (fs : FS) : FS :=
  {| project := <[ ["app.py"] := text ]> (project fs);
     history := history fs |}.

(** Answers of a world in which everything works, at second [stamp] with
    modification time [mtime]. *)
Definition io_ok (stamp : string) (mtime : Z) : ckpt_io :=
  {| io_stamp := stamp;
     io_iso := stamp;
     io_git := Some "4f2a9c1";
     io_mkdir_ok := true;
     io_snapshot := SnapshotOk;
     io_write_ok := true;
     io_write_left := false;
     io_mtime := mtime |}.

(** The same, except that the archive cannot be opened for writing. *)
Definition io_no_archive (stamp : string) (mtime : Z) : ckpt_io :=
  {| io_stamp := stamp;
     io_iso := stamp;
     io_git := None;
     io_mkdir_ok := true;
     io_snapshot := SnapshotOpenFailed;
     io_write_ok := true;
     io_write_left := false;
     io_mtime := mtime |}.

Definition render_at (stamp : string) (mtime : Z) : creation :=
  {| cr_platform := "Render";
     cr_metadata := Some [(KStr "notes", VStr "release")];
     cr_io := io_ok stamp mtime |}.

(** Seven deployments to Render, one second apart. *)
Definition seven_checkpoints : list creation :=
  [ render_at "20240101120001" 1; render_at "20240101120002" 2;
    render_at "20240101120003" 3; render_at "20240101120004" 4;
    render_at "20240101120005" 5; render_at "20240101120006" 6;
    render_at "20240101120007" 7 ].

(** The project after one deployment to Render, and after a later edit
    of [app.py]. *)
Definition deployed : FS :=
  (create_checkpoint (str_ops := ascii_ops) "render"
     (Some [(KStr "notes", VStr "first")])
     (io_ok "20240101120000" 10) project_v1).2.

Definition broken : FS := edit_app "print('v2')" deployed.

Definition restored : FS :=
  extractall [(["app.py"], "print('v1')")] broken.

(** A redeploy callback that fails, and one that succeeds only for a
    state recorded for [platform]. *)
Definition failing_callback : callback := λ _ fs, (Ok false, fs).

Definition platform_callback (platform : string) : callback :=
  λ state fs,
    match state with
    | VDict items =>
        match dict_get (KStr "platform") items with
        | VStr recorded => (Ok (bool_decide (recorded = platform)), fs)
        | _ => (Ok false, fs)
        end
    | _ => (Raise AttributeError, fs)
    end.

Definition check (passes : bool) : Main.CheckResult :=
  {| Main.name := "Python runtime";
     Main.passed := passes;
     Main.message := "runtime.txt";
     Main.category := "system";
     Main.severity := "high" |}.

(** Collaborators with fixed answers. *)
Definition capabilities (system_ok framework_ok migrate_ok deploy_ok : bool)
  : Main.Capabilities :=
  {| Main.system_checks := λ _, [check true; check system_ok];
     Main.framework_checks := λ _ _, [check framework_ok];
     Main.platform_validate := λ _ _, true;
     Main.platform_deploy := λ _ _, deploy_ok;
     Main.migrator_run_migrations := λ _, migrate_ok;
     Main.checkpoint_io := λ _, io_ok "20240101120000" 1 |}.

Definition config_ok : pyval :=
  VDict [(KStr "platform", VStr "render"); (KStr "app_name", VStr "shop")].

(** [platform: [1]] in [deployment.yaml]. *)
Definition config_platform_numbers : pyval :=
  VDict [(KStr "platform", VList [VInt 1]); (KStr "app_name", VStr "shop")].

Definition deployer (cfg : pyval) : Main.Deployer :=
  {| Main.config := cfg;
     Main.deployers := [];
     Main.checkers := [];
     Main.system_results := [];
     Main.rollback_manager := project_v1;
     Main.trace := [] |}.
End Sample.

(** ** utils/validators.py *)

Module Utils.

(** [validate_config] *)
Definition validate_config (config : pyval) : bool * list string :=
  match config with
  | VDict items =>
      let errors :=
        foldl (λ errors key,
                 if dict_mem (KStr key) items then errors
                 else errors ++ ["Missing required config key: " +:+ key])
              [] ["platform"; "app_name"] in
      (bool_decide (length errors = 0), errors)
  | _ => (false, ["Config must be a dictionary"])
  end.

End Utils.

(** ** main.py, [Deployer.rollback] *)

Module Recovery.
Import Main.

(** The [Deployer] with the project directory as [fs]. *)
Definition with_project_directory (fs : Rollback.FS) (d : Deployer)
  : Deployer :=
  (set_rollback_manager fs d).2.

Section WithCapabilities.
Context {str_ops : PyStr} {caps : Capabilities}.

(** [rollback(state)] of a platform deployer: each of the four logs and
    calls [BaseDeployer.rollback] ([deployers/base.py]), which returns
    [self.deploy()]. *)
Definition deployer_rollback (key : string) (state : pyval) : M bool :=
  emit (EvPlatformDeploy key);;
  gets (platform_deploy key).

(** The closure [_redeploy_previous]. It is called with a state read from
    a sidecar, a JSON value: [state.get] raises on anything but a
    dictionary, [platform.lower()] on anything but a string. *)
Definition _redeploy_previous (state : pyval) : M bool :=
  match state with
  | VDict items =>
      let platform := dict_get (KStr "platform") items in
      if negb (py_truthy platform) then mret false
      else
        match platform with
        | VStr platform =>
            let platform := str_lower platform in
            known ← gets deployers;
            deployer ←
              (if bool_decide (platform ∈ known)
               then mret (Some platform)
               else initialize_deployer platform);
            match deployer with
            | None => mret false
            | Some key => deployer_rollback key state
            end
        | _ => lift (Raise AttributeError)
        end
  | _ => lift (Raise AttributeError)
  end.

(** [RollbackManager.rollback_to_previous] ([scripts/rollback.py]) called
    with a closure over the [Deployer]: the closure runs in the
    [Deployer] whose project directory the restore has just changed, and
    what it raises is caught. *)
Definition rollback_to_previous_with (deploy_callback : pyval → M bool)
    (extract_stops : option nat) : M bool := λ d,
  let fs := rollback_manager d in
  let previous := Rollback.get_previous_deployment fs in
  if negb (py_truthy previous) then (Ok false, d)
  else
    match Rollback._restore_snapshot previous extract_stops fs with
    | (Raise _, fs1) => (Ok false, with_project_directory fs1 d)
    | (Ok false, fs1) => (Ok false, with_project_directory fs1 d)
    | (Ok true, fs1) =>
        match deploy_callback previous (with_project_directory fs1 d) with
        | (Raise _, d2) => (Ok false, d2)
        | (Ok false, d2) => (Ok false, d2)
        | (Ok true, d2) => (Ok true, d2)
        end
    end.

(** [Deployer.rollback] *)
Definition rollback (extract_stops : option nat) : M bool :=
  rollback_to_previous_with _redeploy_previous extract_stops.

(** The closure as a callback on the project directory alone, as
    [Rollback.rollback_to_previous] takes it. *)
Definition as_callback (deploy_callback : pyval → M bool) (d : Deployer)
  : Rollback.callback :=
  λ state fs1,
    let '(r, d2) := deploy_callback state (with_project_directory fs1 d) in
    (r, rollback_manager d2).

End WithCapabilities.

End Recovery.

(** ** deployers/base.py and the four platform deployers *)

Module Platforms.
Import Rollback.

(** [file_exists(str(self.project_root / name))] ([utils/helpers.py]):
    [Path.exists], true for a file and for a directory. A directory of
    the project tree is there when a file lies below it. *)
Definition file_exists (name : string) (fs : FS) : bool :=
  existsb (λ e, bool_decide (head e.1 = Some name))
          (map_to_list (project fs))
  || (bool_decide (name = ".deployment")
      && bool_decide (is_Some (history fs))).

(** [needle in haystack] for strings *)
Fixpoint str_contains (needle haystack : string) : bool :=
  String.prefix needle haystack
  || match haystack with
     | EmptyString => false
     | String _ rest => str_contains needle rest
     end.

(** [name in container] for a string [name]: key membership for a
    dictionary, a substring test for a string, equality with an element
    for a list, a tuple or a set (an object of another class is not
    equal to a string), [TypeError] for what is not a container. *)
Definition py_contains (name : string) (container : pyval) : result bool :=
  match container with
  | VDict items => Ok (dict_mem (KStr name) items)
  | VStr s => Ok (str_contains name s)
  | VList xs | VTuple xs | VSet xs =>
      Ok (existsb (λ x, match x with
                        | VStr s => bool_decide (s = name)
                        | _ => false
                        end) xs)
  | _ => Raise TypeError
  end.

(** [config.get(key, fallback)] *)
Definition py_get (key : string) (fallback : pyval) (config : pyval)
  : result pyval :=
  match config with
  | VDict items =>
      Ok (if dict_mem (KStr key) items then dict_get (KStr key) items
          else fallback)
  | _ => Raise AttributeError
  end.

(** [BaseDeployer.__init__]: [self.config = config or {}] *)
Definition deployer_config (config : pyval) : pyval :=
  if py_truthy config then config else VDict [].

(** What happens when a file is opened for writing and written: it
    works, or it raises, leaving nothing or a partial file behind. *)
Inductive write_outcome :=
  | WriteOk
  | WriteFailed (left_behind : option string).

Definition write_file (name content : string) (w : write_outcome) (fs : FS)
  : result unit * FS :=
  match w with
  | WriteOk =>
      (Ok tt, {| project := <[ [name] := content ]> (project fs);
                 history := history fs |})
  | WriteFailed None => (Raise OSError, fs)
  | WriteFailed (Some partial) =>
      (Raise OSError, {| project := <[ [name] := partial ]> (project fs);
                         history := history fs |})
  end.

(** [yaml.dump(data, default_flow_style=False)] *)
Class YamlDump := { yaml_dump : pyval → string }.

Section WithYaml.
Context {yaml : YamlDump}.

(** [BaseDeployer.generate_config_file(output_path)] for a deployer whose
    [get_config_template()] gives [template]. *)
Definition generate_config_file (template : result pyval)
    (output_path : string) (w : write_outcome) (fs : FS) : bool * FS :=
  match template with
  | Raise _ => (false, fs)
  | Ok data =>
      match write_file output_path (yaml_dump data) w fs with
      | (Ok _, fs') => (true, fs')
      | (Raise _, fs') => (false, fs')
      end
  end.

End WithYaml.

(** The loop of every [validate]: all checks are run, in order; the
    result is their conjunction; a check that raises ends the loop. *)
Fixpoint run_checks (checks : list (result bool)) (all_valid : bool)
  : result bool :=
  match checks with
  | [] => Ok all_valid
  | Ok passed :: rest => run_checks rest (if passed then all_valid else false)
  | Raise e :: _ => Raise e
  end.

End Platforms.

(** *** deployers/render.py *)

Module RenderDeployer.
Import Rollback Platforms.

Definition get_config_template (config : pyval) : result pyval :=
  match py_get "app_name" (VStr "my-app") config with
  | Raise e => Raise e
  | Ok name =>
      Ok (VDict
            [ (KStr "services",
               VList
                 [ VDict
                     [ (KStr "type", VStr "web");
                       (KStr "name", name);
                       (KStr "env", VStr "python");
                       (KStr "plan", VStr "free");
                       (KStr "buildCommand",
                        VStr "pip install -r requirements.txt");
                       (KStr "startCommand", VStr "python app.py") ] ]) ])
  end.

Definition _check_render_config (fs : FS) : bool :=
  file_exists "render.yaml" fs.

Definition _check_environment_vars : bool := true.

Definition validate (fs : FS) : result bool :=
  run_checks [Ok (_check_render_config fs); Ok _check_environment_vars] true.

Definition prepare {yaml : YamlDump} (config : pyval) (w : write_outcome)
    (fs : FS) : result bool * FS :=
  if negb (file_exists "render.yaml" fs)
  then (Ok true,
        (generate_config_file (get_config_template config) "render.yaml"
           w fs).2)
  else (Ok true, fs).

Definition deploy : bool := true.

End RenderDeployer.

(** *** deployers/railway.py *)

Module RailwayDeployer.
Import Rollback Platforms.

Definition get_config_template : result pyval :=
  Ok (VDict
        [ (KStr "$schema", VStr "https://railway.app/railway.schema.json");
          (KStr "build", VDict [ (KStr "builder", VStr "dockerfile") ]);
          (KStr "deploy",
           VDict [ (KStr "startCommand", VStr "python app.py");
                   (KStr "restartPolicyType", VStr "on_failure");
                   (KStr "restartPolicyMaxRetries", VInt 5) ]) ]).

Definition _check_railway_config (fs : FS) : bool :=
  file_exists "railway.json" fs || file_exists "railway.yaml" fs.

Definition _check_procfile (config : pyval) (fs : FS) : result bool :=
  let procfile_exists := file_exists "Procfile" fs in
  match py_contains "start_command" config with
  | Raise e => Raise e
  | Ok has_start_command => Ok (procfile_exists || has_start_command)
  end.

Definition validate (config : pyval) (fs : FS) : result bool :=
  run_checks [Ok (_check_railway_config fs); _check_procfile config fs] true.

Definition prepare {yaml : YamlDump} (w : write_outcome) (fs : FS)
  : result bool * FS :=
  if negb (file_exists "railway.json" fs)
  then (Ok true,
        (generate_config_file get_config_template "railway.json" w fs).2)
  else (Ok true, fs).

Definition deploy : bool := true.

End RailwayDeployer.

(** *** deployers/vercel.py *)

Module VercelDeployer.
Import Rollback Platforms.

Definition get_config_template : result pyval :=
  Ok (VDict
        [ (KStr "version", VInt 2);
          (KStr "builds",
           VList [ VDict [ (KStr "src", VStr "app.py");
                           (KStr "use", VStr "@vercel/python") ] ]);
          (KStr "routes",
           VList [ VDict [ (KStr "src", VStr "/(.*)");
                           (KStr "dest", VStr "app.py") ] ]);
          (KStr "env", VDict [ (KStr "PYTHON_VERSION", VStr "3.9") ]) ]).

Definition _check_vercel_json (fs : FS) : bool :=
  file_exists "vercel.json" fs.

Definition _check_api_routes (fs : FS) : bool :=
  file_exists "app.py" fs.

Definition validate (fs : FS) : result bool :=
  run_checks [Ok (_check_vercel_json fs); Ok (_check_api_routes fs)] true.

Definition prepare {yaml : YamlDump} (w : write_outcome) (fs : FS)
  : result bool * FS :=
  if negb (file_exists "vercel.json" fs)
  then (Ok true,
        (generate_config_file get_config_template "vercel.json" w fs).2)
  else (Ok true, fs).

Definition deploy : bool := true.

End VercelDeployer.

(** *** deployers/heroku.py *)

Module HerokuDeployer.
Import Rollback Platforms.

Definition _check_procfile (fs : FS) : bool := file_exists "Procfile" fs.

Definition _check_requirements (fs : FS) : bool :=
  file_exists "requirements.txt" fs.

Definition validate (fs : FS) : result bool :=
  run_checks [Ok (_check_procfile fs); Ok (_check_requirements fs)] true.

(** [_create_procfile] has no [try]. *)
Definition _create_procfile (w : write_outcome) (fs : FS)
  : result unit * FS :=
  write_file "Procfile" "web: python app.py" w fs.

Definition prepare (w : write_outcome) (fs : FS) : result bool * FS :=
  if negb (file_exists "Procfile" fs)
  then
    match _create_procfile w fs with
    | (Ok _, fs') => (Ok true, fs')
    | (Raise e, fs') => (Raise e, fs')
    end
  else (Ok true, fs).

Definition deploy : bool := true.

End HerokuDeployer.

(** *** The deployers behind the orchestrator *)

Module Shipped.
Import Rollback Platforms Main.

(** The classes of [Deployer.AVAILABLE_DEPLOYERS] ([main.py]). *)
Inductive deployer_class := Render | Railway | Vercel | Heroku.

Definition deployer_class_of (key : string) : option deployer_class :=
  if bool_decide (key = "render") then Some Render
  else if bool_decide (key = "railway") then Some Railway
  else if bool_decide (key = "vercel") then Some Vercel
  else if bool_decide (key = "heroku") then Some Heroku
  else None.

Definition validate (c : deployer_class) (config : pyval) (fs : FS)
  : result bool :=
  match c with
  | Render => RenderDeployer.validate fs
  | Railway => RailwayDeployer.validate config fs
  | Vercel => VercelDeployer.validate fs
  | Heroku => HerokuDeployer.validate fs
  end.

Definition prepare {yaml : YamlDump} (c : deployer_class) (config : pyval)
    (w : write_outcome) (fs : FS) : result bool * FS :=
  match c with
  | Render => RenderDeployer.prepare config w fs
  | Railway => RailwayDeployer.prepare w fs
  | Vercel => VercelDeployer.prepare w fs
  | Heroku => HerokuDeployer.prepare w fs
  end.

Definition deploy (c : deployer_class) : bool :=
  match c with
  | Render => RenderDeployer.deploy
  | Railway => RailwayDeployer.deploy
  | Vercel => VercelDeployer.deploy
  | Heroku => HerokuDeployer.deploy
  end.

(** The file [prepare] generates when it is missing. *)
Definition config_file (c : deployer_class) : string :=
  match c with
  | Render => "render.yaml"
  | Railway => "railway.json"
  | Vercel => "vercel.json"
  | Heroku => "Procfile"
  end.

(** The collaborators of the orchestrator with the four deployers of the
    repository for [validate()] and [deploy()]. A deployer is created
    with the configuration of the [Deployer] and works on its project
    directory. [deploy] asks a deployer to validate only after
    [ConfigValidator.validate] has accepted the configuration, a
    dictionary, for which no [validate()] raises. *)
Definition capabilities
    (system : Deployer → list CheckResult)
    (framework : string → Deployer → list CheckResult)
    (migrator : Deployer → bool)
    (io : Deployer → ckpt_io) : Capabilities :=
  {| system_checks := system;
     framework_checks := framework;
     platform_validate := λ key d,
       match deployer_class_of key with
       | Some c =>
           match validate c (deployer_config (config d))
                   (rollback_manager d) with
           | Ok valid => valid
           | Raise _ => false
           end
       | None => false
       end;
     platform_deploy := λ key d,
       match deployer_class_of key with
       | Some c => deploy c
       | None => false
       end;
     migrator_run_migrations := migrator;
     checkpoint_io := io |}.

End Shipped.

(** ** main.py, [Deployer.prepare_deployment] *)

Module Preparation.
Import Main.

(** [prepare()] of the deployer registered for a platform: it may write
    into the project directory and may raise. *)
Class PrepareCapability := {
  platform_prepare : string → Deployer → result bool * Rollback.FS;
}.

Section WithCapabilities.
Context {str_ops : PyStr} {preparing : PrepareCapability}.

Definition run_prepare (key : string) : M bool := λ d,
  let '(prepared, fs) := platform_prepare key d in
  (prepared, Recovery.with_project_directory fs d).

(** [Deployer.prepare_deployment] *)
Definition prepare_deployment (platform : string) : M bool :=
  deployer ← initialize_deployer platform;
  match deployer with
  | None => mret false
  | Some key =>
      prepared ← run_prepare key;
      if negb prepared then mret false else mret true
  end.

End WithCapabilities.

(** [prepare()] of the four deployers of the repository; [world] is the
    outcome of the write a [prepare()] may make. *)
Definition shipped {yaml : Platforms.YamlDump}
    (world : Deployer → Platforms.write_outcome) : PrepareCapability :=
  {| platform_prepare := λ key d,
       match Shipped.deployer_class_of key with
       | Some c =>
           Shipped.prepare c (Platforms.deployer_config (config d))
             (world d) (rollback_manager d)
       | None => (Ok false, rollback_manager d)
       end |}.

End Preparation.

(** ** scripts/health_check.py *)

Module HealthChecker.

(** What one [urllib.request.urlopen(url, timeout=5)] gives: a response
    with its status, or an exception. *)
Inductive response :=
  | Responded (status : Z)
  | Failed.

(** What [check_server_up] does to the outside world, in order. *)
Inductive action :=
  | Request
  | Sleep (seconds : Z).

(** The loop [for attempt in range(max_retries)] from iteration [attempt]
    on, with [remaining] iterations to go; [server n] is the answer to
    the request of iteration [n]. *)
Fixpoint attempts (server : nat → response) (max_retries : Z)
    (remaining attempt : nat) : bool * list action :=
  match remaining with
  | 0 => (false, [])
  | S remaining' =>
      match server attempt with
      | Responded status =>
          if (status =? 200)%Z then (true, [Request])
          else
            let '(up, actions) :=
              attempts server max_retries remaining' (S attempt) in
            (up, Request :: actions)
      | Failed =>
          let wait :=
            if (Z.of_nat attempt <? max_retries - 1)%Z
            then [Sleep (2 ^ Z.of_nat attempt)]
            else [] in
          let '(up, actions) :=
            attempts server max_retries remaining' (S attempt) in
          (up, Request :: wait ++ actions)
      end
  end.

(** [HealthChecker.check_server_up] *)
Definition check_server_up (server : nat → response) (max_retries : Z)
  : bool * list action :=
  attempts server max_retries (Z.to_nat max_retries) 0.

(** Requests made and seconds slept. *)
Definition requests (actions : list action) : nat :=
  foldr (λ a total, match a with
                    | Request => S total
                    | Sleep _ => total
                    end) 0 actions.

Definition slept (actions : list action) : Z :=
  foldr (λ a total, match a with
                    | Sleep seconds => (seconds + total)%Z
                    | Request => total
                    end) 0%Z actions.

End HealthChecker.

(** ** scripts/migrator.py *)

Module Migrator.
Import Rollback Platforms.

(** What [run_command(command, check=False)] gives: the return code of
    the process, or an exception. *)
Inductive command_outcome :=
  | Exited (returncode : Z)
  | CommandRaised.

(** The outside world of the migrator: reading a file as text (nothing
    when [open] or [read] raises) and running a command. *)
Record world := {
  read_text : string → option string;
  run : list string → command_outcome;
}.

Section WithStr.
Context {str_ops : PyStr}.

(** [DatabaseMigrator.auto_detect_framework]; opening a directory
    raises. *)
Definition auto_detect_framework (w : world) (fs : FS) : option string :=
  if file_exists "manage.py" fs then Some "django"
  else if file_exists "requirements.txt" fs then
    match project fs !! ["requirements.txt"] with
    | Some bytes =>
        match read_text w bytes with
        | Some content =>
            if str_contains "alembic" (str_lower content)
            then Some "alembic"
            else if str_contains "flask-sqlalchemy" (str_lower content)
            then Some "flask"
            else if str_contains "fastapi" (str_lower content)
            then Some "fastapi"
            else None
        | None => None
        end
    | None => None
    end
  else None.

(** The functions return their result and the commands they ran. *)
Definition run_django_migrations (w : world) : bool * list (list string) :=
  let command := ["python"; "manage.py"; "migrate"] in
  match run w command with
  | Exited returncode => (bool_decide (returncode = 0%Z), [command])
  | CommandRaised => (false, [command])
  end.

Definition run_alembic_migrations (w : world) (fs : FS)
  : bool * list (list string) :=
  if negb (file_exists "migrations" fs) then (false, [])
  else
    let command := ["alembic"; "upgrade"; "head"] in
    match run w command with
    | Exited returncode => (bool_decide (returncode = 0%Z), [command])
    | CommandRaised => (false, [command])
    end.

(** [DatabaseMigrator.run_migrations] *)
Definition run_migrations (w : world) (fs : FS)
  : bool * list (list string) :=
  match auto_detect_framework w fs with
  | Some framework =>
      if bool_decide (framework = "django") then run_django_migrations w
      else if bool_decide (framework = "alembic")
      then run_alembic_migrations w fs
      else (true, [])
  | None => (true, [])
  end.

(** [DatabaseMigrator.rollback_migrations] *)
Definition rollback_migrations (w : world) (fs : FS)
  : bool * list (list string) :=
  match auto_detect_framework w fs with
  | Some framework =>
      if bool_decide (framework = "django") then (false, [])
      else if bool_decide (framework = "alembic") then
        let command := ["alembic"; "downgrade"; "-1"] in
        match run w command with
        | Exited returncode => (bool_decide (returncode = 0%Z), [command])
        | CommandRaised => (false, [command])
        end
      else (false, [])
  | None => (false, [])
  end.

End WithStr.

End Migrator.

(** ** Vocabulary of the further properties *)

(** A deployment id that is one file name on every system: it has no
    slash, no backslash and no colon, so that [<id>.json] is a file of
    [.deployment] itself and [<id>.zip] one of [.deployment/artifacts]. *)
Definition PATH_SEPARATORS : list string :=
  ["/"; String (Ascii.ascii_of_nat 92) ""; ":"].

Definition file_name_id (id : string) : bool :=
  forallb (λ separator, negb (Platforms.str_contains separator id))
          PATH_SEPARATORS.

(** The floats a JSON file gives back bit for bit: [json.dump] writes
    every NaN as [NaN], and [json.load] reads the default NaN. *)
Definition float_is_nan (bits : Z) : bool :=
  (Z.land (Z.shiftr bits 52) 2047 =? 2047)%Z
  && negb (Z.land bits (Z.ones 52) =? 0)%Z.

Definition DEFAULT_NAN : Z := 0x7ff8000000000000.

Fixpoint json_stable (v : pyval) : bool :=
  match v with
  | VFloat bits => negb (float_is_nan bits) || (bits =? DEFAULT_NAN)%Z
  | VDict items => forallb (λ kv, json_stable kv.2) items
  | VList xs | VTuple xs | VSet xs => forallb json_stable xs
  | _ => true
  end.

(** The archive [rollback_to_previous] restores from: the one the newest
    record names, when it is a file of the [artifacts] directory. *)
Definition previous_archive (fs : Rollback.FS) : option Rollback.archive :=
  match Rollback.get_previous_deployment fs with
  | VDict items =>
      match dict_get (KStr "artifact_path") items with
      | VStr rel => Rollback.lookup_artifact fs rel
      | _ => None
      end
  | _ => None
  end.


(** ** More sample inputs *)

Module Scenario.
Import Rollback History.

Definition file_at (mtime : Z) : sidecar :=
  {| sc_mtime := mtime; sc_body := NotJson |}.

(** A history directory as nothing in the code would leave it: sidecars
    listed in no order, two of the same age, an archive without a
    sidecar and a broken one. *)
Definition untidy : FS :=
  {| project := {[ ["app.py"] := "print('v1')" ]};
     history :=
       Some {| sidecars := [ ("b", file_at 5); ("a", file_at 7);
                             ("c", file_at 5); ("d", file_at 1) ];
               artifacts :=
                 Some [ ("a", ZipArchive []); ("orphan", ZipArchive []);
                        ("d", BrokenZip) ] |} |}.



(** [platform: [render, null]] in [deployment.json]. *)
Definition config_platform_null : pyval :=
  VDict [ (KStr "platform", VList [VStr "render"; VNone]);
          (KStr "app_name", VStr "shop") ].

(** The record of [Sample.deployed] as [get_previous_deployment] reads
    it. *)
Definition deployed_record : pydict :=
  match get_previous_deployment Sample.broken with
  | VDict items => items
  | _ => []
  end.

(** A [Deployer] on the edited project of [Sample.broken], with the
    Render deployer registered. *)
Definition after_edit : Main.Deployer :=
  {| Main.config := Sample.config_ok;
     Main.deployers := ["render"];
     Main.checkers := ["system"];
     Main.system_results := [];
     Main.rollback_manager := Sample.broken;
     Main.trace := [] |}.

(** A stand-in for [yaml.dump]. *)
Definition yaml : Platforms.YamlDump :=
  {| Platforms.yaml_dump := λ data,
       match data with
       | VDict items => "# " +:+ pretty (length items) +:+ " top-level keys"
       | _ => "# data"
       end |}.

(** The deployers of the repository with collaborators that always
    pass. *)
Definition shipped : Main.Capabilities :=
  Shipped.capabilities (λ _, [Sample.check true]) (λ _ _, [])
    (λ _, true) (λ _, Sample.io_ok "20240101120000" 1).

(** A server that fails twice and then answers. *)
Definition slow_server (attempt : nat) : HealthChecker.response :=
  if (attempt <? 2)%nat then HealthChecker.Failed
  else HealthChecker.Responded 200.

End Scenario.

(* ================================================================== *)
(** * Part II: properties *)
(* ================================================================== *)

(** ** Induction on Python values *)


(** ** Lists and directories *)

Section list_facts.
Context {A : Type}.
Implicit Types (P : A → Prop) (l : list A).

Lemma filter_all P `{!∀ x, Decision (P x)} l :
  Forall P l → filter P l = l.
Proof.
  induction 1 as [ | x l Hx _ IH ]; [ done | ].
  by rewrite filter_cons_True, IH.
Qed.

Lemma filter_none P `{!∀ x, Decision (P x)} l :
  Forall (λ x, ¬ P x) l → filter P l = [].
Proof.
  induction 1 as [ | x l Hx _ IH ]; [ done | ].
  by rewrite filter_cons_False, IH.
Qed.

Lemma StronglySorted_drop (R : relation A) n l :
  StronglySorted R l → StronglySorted R (drop n l).
Proof.
  intros Hs. rewrite <- (take_drop n l) in Hs.
  by apply StronglySorted_app_1_r in Hs.
Qed.

Lemma NoDup_drop n l : NoDup l → NoDup (drop n l).
Proof. intros Hl. eapply sublist_NoDup; [ done | apply sublist_drop ]. Qed.

(** Keeping the last five of a list, one element at a time. *)
Lemma drop_window (entries : list A) (e : A) :
  let live := drop (length entries - 5) entries ++ [e] in
  drop (length live - 5) live
  = drop (length (entries ++ [e]) - 5) (entries ++ [e]).
Proof.
  intros live. subst live.
  rewrite !length_app, length_drop. simpl.
  rewrite !drop_app_le by (rewrite ?length_drop; lia).
  rewrite drop_drop. do 2 f_equal. lia.
Qed.
End list_facts.

Lemma last_occurrence (q : string) (names : list string) :
  q ∈ names → ∃ i, names !! i = Some q ∧ q ∉ drop (S i) names.
Proof.
  induction names as [ | p rest IH ]; intros Hq.
  - by apply not_elem_of_nil in Hq.
  - destruct (decide (q ∈ rest)) as [Hrest | Hrest].
    + destruct (IH Hrest) as (i & Hi & Hlast). by exists (S i).
    + apply elem_of_cons in Hq as [-> | Hq]; [ | done ]. by exists 0.
Qed.

Section directories.
Import Rollback.
Context {A : Type}.
Implicit Types (dir : list (string * A)).

Lemma dir_write_fresh (name : string) (x : A) dir :
  name ∉ dir.*1 → dir_write name x dir = dir ++ [(name, x)].
Proof. intros Hn. unfold dir_write. by rewrite bool_decide_eq_false_2. Qed.

Lemma dir_write_elem (name : string) (x : A) dir :
  (name, x) ∈ dir_write name x dir.
Proof.
  unfold dir_write. case_bool_decide as Hin.
  - apply list_elem_of_fmap in Hin as ([n y] & Hn & Hin).
    simpl in Hn. subst n.
    apply list_elem_of_fmap. exists (name, y).
    split; [ | done ]. simpl. by rewrite bool_decide_eq_true_2.
  - apply elem_of_app. right. by apply list_elem_of_singleton.
Qed.

(** The loop that unlinks the old sidecars is a filter. *)
Lemma foldl_unlink (doomed dir : list (string * A)) :
  foldl (λ dir file, unlink file.1 dir) dir doomed
  = filter (λ e, e.1 ∉ doomed.*1) dir.
Proof.
  revert dir. induction doomed as [ | x doomed IH ]; intros dir; simpl.
  - symmetry. apply filter_all, Forall_forall.
    intros e _. apply not_elem_of_nil.
  - rewrite IH. unfold unlink. rewrite list_filter_filter.
    apply list_filter_iff. intros e. rewrite not_elem_of_cons. tauto.
Qed.

(** So is the loop that unlinks the archives without a retained
    sidecar. *)
Lemma foldl_unlink_unless (keep : list string) (zs dir : list (string * A)) :
  foldl (λ dir artifact,
           if bool_decide (artifact.1 ∉ keep) then unlink artifact.1 dir
           else dir) dir zs
  = filter (λ e, ¬ (e.1 ∈ zs.*1 ∧ e.1 ∉ keep)) dir.
Proof.
  revert dir. induction zs as [ | z zs IH ]; intros dir; simpl.
  - symmetry. apply filter_all, Forall_forall. intros e _ [Hin _].
    by apply not_elem_of_nil in Hin.
  - rewrite IH. case_bool_decide as Hz.
    + unfold unlink. rewrite list_filter_filter. apply list_filter_iff.
      intros e. rewrite elem_of_cons.
      destruct (decide (e.1 = z.1)) as [-> | Hne]; tauto.
    + apply list_filter_iff. intros e. rewrite elem_of_cons.
      destruct (decide (e.1 = z.1)) as [-> | Hne]; tauto.
Qed.

Lemma filter_not_in_prefix (a b : list (string * A)) :
  NoDup (a ++ b).*1 →
  filter (λ e, e.1 ∉ a.*1) (a ++ b) = b.
Proof.
  rewrite fmap_app. intros (_ & Hdisj & _)%NoDup_app.
  rewrite filter_app, filter_none, filter_all; [ done | | ].
  - apply Forall_forall. intros e He Hin. apply (Hdisj e.1 Hin).
    by apply list_elem_of_fmap_2.
  - apply Forall_forall. intros e He Hn. apply Hn.
    by apply list_elem_of_fmap_2.
Qed.

Lemma filter_in_suffix (names_a names_b : list string)
    (a b : list (string * A)) :
  a.*1 = names_a → b.*1 = names_b →
  NoDup (names_a ++ names_b) →
  filter (λ e, ¬ (e.1 ∈ (a ++ b).*1 ∧ e.1 ∉ names_b)) (a ++ b) = b.
Proof.
  intros <- <- (_ & Hdisj & _)%NoDup_app.
  rewrite filter_app, filter_none, filter_all; [ done | | ].
  - apply Forall_forall. intros e He [_ Hn]. apply Hn.
    by apply list_elem_of_fmap_2.
  - apply Forall_forall. intros e He Hn. apply Hn. split.
    + rewrite fmap_app. apply elem_of_app. left.
      by apply list_elem_of_fmap_2.
    + apply Hdisj. by apply list_elem_of_fmap_2.
Qed.
End directories.

(** ** JSON-safety normalization *)





Example make_json_safe_nested :
  Rollback._make_json_safe
    (VDict [ (KInt 1, VTuple [VOther "PosixPath('.')"; VInt 3]);
             (KStr "tags", VSet [VStr "a"]);
             (KStr "1", VFloat 0) ])
  = VDict [ (KStr "1", VFloat 0); (KStr "tags", VList [VStr "a"]) ].
Proof. reflexivity. Qed.

(** ** The retention sweep *)

Section sweep.
Import Rollback History.

Lemma insert_by_mtime_oldest f l :
  Forall (older f) l → insert_by_mtime f l = l ++ [f].
Proof.
  induction 1 as [ | g l Hfg _ IH ]; simpl; [ done | ].
  unfold older in Hfg. apply Z.ltb_lt in Hfg. rewrite Hfg. by rewrite IH.
Qed.

(** A listing that is oldest first comes back reversed. *)
Lemma sorted_by_mtime_desc_of_ascending dir :
  StronglySorted older dir → sorted_by_mtime_desc dir = reverse dir.
Proof.
  induction 1 as [ | f dir _ IH Hf ]; [ done | ].
  unfold sorted_by_mtime_desc in *. simpl. rewrite IH.
  rewrite insert_by_mtime_oldest.
  - by rewrite reverse_cons.
  - by apply Forall_reverse.
Qed.

(** Equal times keep the order of the listing. *)
Example sorted_by_mtime_desc_stable :
  (sorted_by_mtime_desc
     [ ("a", {| sc_mtime := 5; sc_body := NotJson |});
       ("b", {| sc_mtime := 7; sc_body := NotJson |});
       ("c", {| sc_mtime := 5; sc_body := NotJson |}) ]).*1
  = ["b"; "a"; "c"].
Proof. reflexivity. Qed.

Lemma slice_to_nonneg {A} (k : Z) (xs : list A) :
  (0 ≤ k)%Z → slice_to k xs = take (Z.to_nat k) xs.
Proof. intros Hk. unfold slice_to. by rewrite (proj2 (Z.leb_le 0 k) Hk). Qed.

Lemma slice_from_nonneg {A} (k : Z) (xs : list A) :
  (0 ≤ k)%Z → slice_from k xs = drop (Z.to_nat k) xs.
Proof.
  intros Hk. unfold slice_from. by rewrite (proj2 (Z.leb_le 0 k) Hk).
Qed.

Lemma clean_old_deployments_no_history k fs :
  history fs = None → clean_old_deployments k fs = fs.
Proof. intros Hh. unfold clean_old_deployments. by rewrite Hh. Qed.

(** The sweep on a history with distinct names, listed oldest first, one
    archive per sidecar: the newest [k] of each stay. *)
Lemma clean_old_deployments_keeps_newest fs h zips k :
  history fs = Some h →
  artifacts h = Some zips →
  zips.*1 = (sidecars h).*1 →
  StronglySorted older (sidecars h) →
  NoDup (sidecars h).*1 →
  (0 ≤ k)%Z →
  clean_old_deployments k fs
  = {| project := project fs;
       history :=
         Some {| sidecars :=
                   drop (length (sidecars h) - Z.to_nat k) (sidecars h);
                 artifacts :=
                   Some (drop (length (sidecars h) - Z.to_nat k) zips) |} |}.
Proof.
  intros Hh Hzips Hnames Hsorted Hnodup Hk.
  unfold clean_old_deployments. rewrite Hh, Hzips.
  rewrite (sorted_by_mtime_desc_of_ascending _ Hsorted).
  rewrite slice_to_nonneg, slice_from_nonneg by done.
  rewrite take_reverse, drop_reverse.
  set (dir := sidecars h) in *. set (n := length dir - Z.to_nat k).
  do 3 f_equal.
  - rewrite foldl_unlink.
    rewrite (list_filter_iff _ (λ e, e.1 ∉ (take n dir).*1)).
    2:{ intros e. by rewrite fmap_reverse, elem_of_reverse. }
    transitivity (filter (λ e, e.1 ∉ (take n dir).*1)
                         (take n dir ++ drop n dir));
      [ by rewrite take_drop | ].
    apply filter_not_in_prefix. by rewrite take_drop.
  - f_equal. rewrite foldl_unlink_unless.
    rewrite (list_filter_iff _
               (λ e, ¬ (e.1 ∈ (take n zips ++ drop n zips).*1
                        ∧ e.1 ∉ (drop n dir).*1))).
    2:{ intros e. by rewrite take_drop, fmap_reverse, elem_of_reverse. }
    transitivity (filter (λ e, ¬ (e.1 ∈ (take n zips ++ drop n zips).*1
                                  ∧ e.1 ∉ (drop n dir).*1))
                         (take n zips ++ drop n zips));
      [ by rewrite take_drop | ].
    apply (filter_in_suffix (take n dir).*1).
    + by rewrite !fmap_take, Hnames.
    + by rewrite !fmap_drop, Hnames.
    + by rewrite <- fmap_app, take_drop.
Qed.

Lemma sidecar_stems_index fs : sidecar_stems fs = (sidecar_index fs).*1.
Proof.
  unfold sidecar_stems, sidecar_index. rewrite <- list_fmap_compose.
  by apply list_fmap_ext.
Qed.

(** The sweep on any tidy project directory. *)
Lemma clean_old_deployments_tidy k fs :
  tidy fs → (0 ≤ k)%Z →
  let n := length (sidecar_stems fs) - Z.to_nat k in
  tidy (clean_old_deployments k fs)
  ∧ sidecar_index (clean_old_deployments k fs) = drop n (sidecar_index fs)
  ∧ archive_stems (clean_old_deployments k fs) = drop n (sidecar_stems fs)
  ∧ project (clean_old_deployments k fs) = project fs.
Proof.
  intros (Harch & Hsorted & Hnodup) Hk n. subst n.
  unfold tidy, sidecar_stems, sidecar_index, archive_stems,
    history_or_empty in *.
  destruct (history fs) as [ [dir [zips | ]] | ] eqn:Hh; simpl in *.
  - rewrite (clean_old_deployments_keeps_newest fs _ zips k Hh) by done.
    simpl. rewrite length_fmap, !fmap_drop, Harch.
    repeat split; try done.
    + by apply StronglySorted_drop.
    + by apply NoDup_drop.
  - symmetry in Harch. apply fmap_nil_inv in Harch as ->.
    unfold clean_old_deployments. rewrite Hh. simpl.
    rewrite slice_from_nonneg by done. rewrite drop_nil. simpl.
    repeat split; try done; constructor.
  - rewrite clean_old_deployments_no_history by done. rewrite Hh. simpl.
    repeat split; try done.
Qed.

(** The sweep is idempotent on a tidy project directory. *)
Lemma clean_old_deployments_twice k fs :
  tidy fs → (0 ≤ k)%Z →
  sidecar_index (clean_old_deployments k (clean_old_deployments k fs))
  = sidecar_index (clean_old_deployments k fs).
Proof.
  intros Htidy Hk.
  destruct (clean_old_deployments_tidy k fs Htidy Hk)
    as (Htidy' & Hidx & _ & _).
  destruct (clean_old_deployments_tidy k _ Htidy' Hk) as (_ & Hidx' & _ & _).
  rewrite Hidx'. rewrite sidecar_stems_index, Hidx, length_fmap, length_drop.
  rewrite sidecar_stems_index, length_fmap.
  replace (length (sidecar_index fs)
           - (length (sidecar_index fs) - Z.to_nat k) - Z.to_nat k)
    with 0 by lia.
  done.
Qed.
End sweep.

(** ** Checkpoint creation *)

Section checkpoints.
Import Rollback History.
Context {str_ops : PyStr}.

Lemma create_checkpoint_ok c fs :
  creation_ok c = true →
  ∃ state body,
    create_checkpoint (cr_platform c) (cr_metadata c) (cr_io c) fs
    = (Some state,
       clean_old_deployments 5
         (write_sidecar (creation_id c)
            {| sc_mtime := creation_mtime c; sc_body := body |}
            (write_archive (creation_id c)
               (ZipArchive (snapshot_entries (mkdir_history fs)))
               (mkdir_artifacts (mkdir_history fs))))).
Proof.
  unfold creation_ok, archive_failed. intros Hok.
  apply andb_true_iff in Hok as [Hok Hsnap].
  apply andb_true_iff in Hok as [Hmk Hwr].
  unfold create_checkpoint, save_deployment_state, _create_project_snapshot.
  rewrite Hmk, Hwr. destruct (io_snapshot (cr_io c)); try discriminate.
  simpl. eauto.
Qed.

Lemma written_history stem sc zip fs :
  history (write_sidecar stem sc
             (write_archive stem zip (mkdir_artifacts (mkdir_history fs))))
  = Some {| sidecars := dir_write stem sc (sidecars (history_or_empty fs));
            artifacts :=
              Some (dir_write stem zip
                      (default [] (artifacts (history_or_empty fs)))) |}.
Proof. destruct fs as [tree [ [dir [zips | ]] | ]]; reflexivity. Qed.

(** One successful checkpoint, newer than all it finds and with a new id,
    on a tidy project directory: the record is added and the newest five
    stay. *)
Lemma create_checkpoint_step c fs :
  creation_ok c = true →
  tidy fs →
  creation_id c ∉ sidecar_stems fs →
  Forall (λ e, (e.2 < creation_mtime c)%Z) (sidecar_index fs) →
  let fs' :=
    (create_checkpoint (cr_platform c) (cr_metadata c) (cr_io c) fs).2 in
  let entries := sidecar_index fs ++ [checkpoint_entry c] in
  tidy fs'
  ∧ sidecar_index fs' = drop (length entries - 5) entries
  ∧ project fs' = project fs.
Proof.
  intros Hok (Harch & Hsorted & Hnodup) Hfresh Hnewer fs' entries.
  destruct (create_checkpoint_ok c fs Hok) as (state & body & Hcreate).
  subst fs'. rewrite Hcreate. cbn [snd].
  set (sc := {| sc_mtime := creation_mtime c; sc_body := body |}).
  set (zip := ZipArchive (snapshot_entries (mkdir_history fs))).
  set (fs2 := write_sidecar _ sc (write_archive _ zip _)).
  assert (Hh2 : history fs2
    = Some {| sidecars :=
                sidecars (history_or_empty fs) ++ [(creation_id c, sc)];
              artifacts :=
                Some (default [] (artifacts (history_or_empty fs))
                      ++ [(creation_id c, zip)]) |}).
  { unfold fs2. rewrite written_history.
    rewrite !dir_write_fresh; [ done | | done ].
    unfold archive_stems in Harch. by rewrite Harch. }
  assert (Hidx2 : sidecar_index fs2
                  = sidecar_index fs ++ [checkpoint_entry c]).
  { unfold sidecar_index at 1, history_or_empty at 1. rewrite Hh2. simpl.
    by rewrite fmap_app. }
  assert (Htidy2 : tidy fs2).
  { unfold tidy, archive_stems, sidecar_stems, history_or_empty.
    rewrite Hh2. simpl. rewrite !fmap_app. simpl.
    unfold archive_stems, sidecar_stems in Harch. rewrite Harch.
    split; [ done | split ].
    - apply StronglySorted_app_2; [ | done | repeat constructor ].
      intros x1 x2 Hx1 ->%list_elem_of_singleton. unfold older. simpl.
      unfold sidecar_index in Hnewer. rewrite Forall_fmap in Hnewer.
      rewrite Forall_forall in Hnewer. by apply Hnewer.
    - apply NoDup_app. split; [ done | split ].
      + intros x Hx ->%list_elem_of_singleton. done.
      + apply NoDup_singleton. }
  destruct (clean_old_deployments_tidy 5 fs2 Htidy2 ltac:(done))
    as (Htidy' & Hidx & _ & Hproj).
  split; [ done | split ].
  - rewrite Hidx. unfold entries.
    by rewrite Hidx2, sidecar_stems_index, Hidx2, length_fmap.
  - rewrite Hproj. unfold fs2, write_sidecar, write_archive, mkdir_artifacts.
    simpl. unfold mkdir_history. by destruct (history fs).
Qed.

Lemma run_creations_snoc cs c fs :
  run_creations (cs ++ [c]) fs
  = (create_checkpoint (cr_platform c) (cr_metadata c) (cr_io c)
       (run_creations cs fs)).2.
Proof. unfold run_creations. by rewrite foldl_snoc. Qed.

(** After any number of successful checkpoints with distinct ids and a
    clock that moves forward, the history holds the newest five. *)
Lemma run_creations_index cs fs0 :
  history fs0 = None →
  Forall (λ c, creation_ok c = true) cs →
  NoDup (creation_id <$> cs) →
  StronglySorted Z.lt (creation_mtime <$> cs) →
  tidy (run_creations cs fs0)
  ∧ sidecar_index (run_creations cs fs0)
    = drop (length cs - 5) (checkpoint_entry <$> cs)
  ∧ project (run_creations cs fs0) = project fs0.
Proof.
  intros Hempty. induction cs as [ | c cs IH ] using rev_ind;
    intros Hok Hids Htimes.
  - unfold tidy, sidecar_index, sidecar_stems, archive_stems,
      history_or_empty.
    simpl. rewrite Hempty. simpl. repeat split; constructor.
  - rewrite Forall_app, Forall_singleton in Hok. destruct Hok as [Hok Hc].
    rewrite fmap_app in Hids. apply NoDup_app in Hids as (Hids & Hfresh & _).
    rewrite fmap_app in Htimes.
    apply StronglySorted_app in Htimes as (Hnewer & Htimes & _).
    destruct (IH Hok Hids Htimes) as (Htidy & Hidx & Hproj).
    rewrite run_creations_snoc.
    destruct (create_checkpoint_step c (run_creations cs fs0))
      as (Ht' & Hi' & Hp'); [ done | done | | | ].
    + rewrite sidecar_stems_index, Hidx, fmap_drop.
      intros Hin%subseteq_drop. rewrite <- list_fmap_compose in Hin.
      apply (Hfresh _ Hin). simpl. by apply list_elem_of_singleton.
    + rewrite Hidx. apply Forall_drop, Forall_fmap, Forall_forall.
      intros x Hx. simpl. apply Hnewer.
      * by apply (list_elem_of_fmap_2 creation_mtime).
      * simpl. by apply list_elem_of_singleton.
    + split; [ done | split; [ | congruence ] ].
      rewrite Hi', Hidx, fmap_app. simpl.
      rewrite <- (length_fmap checkpoint_entry cs).
      rewrite (drop_window (checkpoint_entry <$> cs)).
      by rewrite !length_app, length_fmap.
Qed.

(** C2, as amended. After [N] successful checkpoint creations with
    pairwise distinct ids and increasing modification times, a sweep with
    [keep_count = k], where [0 <= k < N] and [k <= 5], leaves exactly [k]
    sidecar records and the [k] archives of the same names, and they are
    the [k] most recently created checkpoints. ([create_checkpoint] itself
    sweeps with the default [keep_count] of 5 after every record it
    writes.) The sweep changes nothing when the history directory is
    absent. *)
Theorem retention_bound_within_default (cs : list creation) (k : Z) fs0 :
  history fs0 = None →
  Forall (λ c, creation_ok c = true) cs →
  NoDup (creation_id <$> cs) →
  StronglySorted Z.lt (creation_mtime <$> cs) →
  (0 ≤ k ≤ 5)%Z →
  (k < Z.of_nat (length cs))%Z →
  let fs := clean_old_deployments k (run_creations cs fs0) in
  let newest := drop (length cs - Z.to_nat k) (creation_id <$> cs) in
  sidecar_stems fs = newest
  ∧ archive_stems fs = newest
  ∧ length newest = Z.to_nat k
  ∧ (∀ k' fs', history fs' = None → clean_old_deployments k' fs' = fs').
Proof.
  intros Hempty Hok Hids Htimes [Hk0 Hk5] HkN fs newest.
  destruct (run_creations_index cs fs0 Hempty Hok Hids Htimes)
    as (Htidy & Hidx & _).
  destruct (clean_old_deployments_tidy k _ Htidy Hk0)
    as (_ & Hidx' & Harch' & _).
  assert (Hstems : sidecar_stems (run_creations cs fs0)
                   = drop (length cs - 5) (creation_id <$> cs)).
  { by rewrite sidecar_stems_index, Hidx, fmap_drop, <- list_fmap_compose. }
  assert (Hnewest : drop (length (sidecar_stems (run_creations cs fs0))
                          - Z.to_nat k)
                      (sidecar_stems (run_creations cs fs0)) = newest).
  { rewrite Hstems, length_drop, length_fmap, drop_drop. unfold newest.
    f_equal. lia. }
  repeat split.
  - unfold fs. rewrite sidecar_stems_index, Hidx'.
    rewrite fmap_drop, <- sidecar_stems_index. exact Hnewest.
  - unfold fs. rewrite Harch'. exact Hnewest.
  - unfold newest. rewrite length_drop, length_fmap. lia.
  - intros. by apply clean_old_deployments_no_history.
Qed.

(** For any [keep_count >= 0] the sweep after such a history leaves the
    newest [min k 5]. *)
Lemma retention_bound_any_keep_count (cs : list creation) (k : Z) fs0 :
  history fs0 = None →
  Forall (λ c, creation_ok c = true) cs →
  NoDup (creation_id <$> cs) →
  StronglySorted Z.lt (creation_mtime <$> cs) →
  (0 ≤ k)%Z →
  sidecar_stems (clean_old_deployments k (run_creations cs fs0))
  = drop (length cs - Z.to_nat k `min` 5) (creation_id <$> cs).
Proof.
  intros Hempty Hok Hids Htimes Hk0.
  destruct (run_creations_index cs fs0 Hempty Hok Hids Htimes)
    as (Htidy & Hidx & _).
  destruct (clean_old_deployments_tidy k _ Htidy Hk0) as (_ & Hidx' & _).
  rewrite sidecar_stems_index, Hidx', sidecar_stems_index, Hidx.
  rewrite length_fmap, length_drop, length_fmap, drop_drop, fmap_drop.
  rewrite <- list_fmap_compose. f_equal. lia.
Qed.

Lemma has_field_dict_set name k v d :
  has_field name d = false → py_str_key k ≠ name →
  has_field name (dict_set k v d) = false.
Proof.
  intros Hd Hk. induction d as [ | [k' v'] d IH ]; simpl in *.
  - by rewrite bool_decide_eq_false_2.
  - apply orb_false_iff in Hd as [Hk' Hd].
    destruct (key_eqb k' k); simpl; rewrite Hk'; simpl;
      [ done | by apply IH ].
Qed.

Lemma has_field_dict_update name d other :
  has_field name d = false → has_field name other = false →
  has_field name (dict_update d other) = false.
Proof.
  unfold dict_update. revert d.
  induction other as [ | [k v] other IH ]; intros d Hd Hother; simpl in *;
    [ done | ].
  apply orb_false_iff in Hother as [Hk Hother].
  apply IH; [ | done ]. apply has_field_dict_set; [ done | ].
  by apply bool_decide_eq_false in Hk.
Qed.

Lemma has_field_payload name items :
  has_field name items = false →
  ∃ payload, _make_json_safe (VDict items) = VDict payload
             ∧ has_field name payload = false.
Proof.
  intros Hitems. simpl. eexists; split; [ reflexivity | ].
  assert (Hgen : ∀ acc, has_field name acc = false →
    has_field name
      (foldl (λ acc kv, dict_set (KStr (py_str_key kv.1))
                                 (_make_json_safe kv.2) acc) acc items)
    = false).
  { induction items as [ | [k v] items IH ]; intros acc Hacc; simpl in *;
      [ done | ].
    apply orb_false_iff in Hitems as [Hk Hitems].
    apply IH; [ done | ]. apply has_field_dict_set; [ done | ].
    simpl. by apply bool_decide_eq_false in Hk. }
  by apply Hgen.
Qed.

(** [create_checkpoint] returns [None] exactly when the directory of the
    sidecar cannot be made or the sidecar cannot be written. *)
Lemma create_checkpoint_none_iff platform metadata io fs :
  (create_checkpoint platform metadata io fs).1 = None
  ↔ io_mkdir_ok io && io_write_ok io = false.
Proof.
  unfold create_checkpoint, save_deployment_state.
  destruct (io_mkdir_ok io); simpl; [ | done ].
  destruct (_create_project_snapshot _ io (mkdir_history fs)) as [art fs2].
  destruct (io_write_ok io); simpl; done.
Qed.

(** C4, as amended. When archiving the project tree fails while the
    sidecar can be written, and the caller's metadata has no
    [artifact_path] entry of its own, [create_checkpoint] still writes the
    sidecar record, without an [artifact_path] field, and returns the
    state record; [fs1] is the project directory right after the write,
    before the retention sweep. [create_checkpoint] returns [None] only
    when writing the sidecar fails (its directory cannot be made or the
    file cannot be written). *)
Theorem checkpoint_survives_archive_failure platform metadata io fs :
  archive_failed io = true →
  io_mkdir_ok io = true →
  io_write_ok io = true →
  has_field "artifact_path" (default [] metadata) = false →
  ∃ state payload fs1,
    create_checkpoint platform metadata io fs
    = (Some state, clean_old_deployments 5 fs1)
    ∧ has_field "artifact_path" state = false
    ∧ _make_json_safe (VDict state) = VDict payload
    ∧ has_field "artifact_path" payload = false
    ∧ (_generate_deployment_id platform io,
       {| sc_mtime := io_mtime io; sc_body := JsonDoc (VDict payload) |})
      ∈ sidecars (history_or_empty fs1)
    ∧ (∀ platform' metadata' io' fs',
         (create_checkpoint platform' metadata' io' fs').1 = None
         ↔ io_mkdir_ok io' && io_write_ok io' = false).
Proof.
  intros Hfail Hmk Hwr Hmeta.
  set (state0 := [ (KStr "id", VStr (_generate_deployment_id platform io));
                   (KStr "platform", VStr (str_lower platform));
                   (KStr "timestamp", VStr (io_iso io));
                   (KStr "git_commit", _get_current_git_commit io) ]).
  set (state := match metadata with
                | Some m => if py_truthy (VDict m) then dict_update state0 m
                            else state0
                | None => state0
                end).
  assert (Hstate : has_field "artifact_path" state = false).
  { unfold state. destruct metadata as [m | ]; [ | done ].
    destruct (py_truthy (VDict m)); [ | done ].
    by apply has_field_dict_update. }
  destruct (has_field_payload _ _ Hstate) as (payload & Hpayload & Hfield).
  assert (Hsnap : ∃ fs2, _create_project_snapshot
                           (_generate_deployment_id platform io) io
                           (mkdir_history fs) = (None, fs2)).
  { unfold _create_project_snapshot, archive_failed in *.
    destruct (io_snapshot io); try discriminate; eauto. }
  destruct Hsnap as (fs2 & Hsnap).
  exists state, payload,
    (write_sidecar (_generate_deployment_id platform io)
       {| sc_mtime := io_mtime io; sc_body := JsonDoc (VDict payload) |} fs2).
  split; [ | split; [ done | split; [ done | split; [ done | split ] ] ] ].
  - unfold create_checkpoint, save_deployment_state.
    fold state0. fold state. rewrite Hmk, Hwr. cbn [negb].
    rewrite Hsnap, Hpayload. reflexivity.
  - unfold write_sidecar, history_or_empty. simpl. apply dir_write_elem.
  - intros. apply create_checkpoint_none_iff.
Qed.
End checkpoints.

(** ** Rollback *)

Section rollback.
Import Rollback.

(** C3. When the history directory is absent, or holds no sidecar record,
    there is no previous deployment, and [rollback_to_previous] without a
    callback returns [False] and leaves the project directory exactly as
    it was. It raises nothing: every step that can raise is inside a
    [try], so the function has a plain result. *)
Theorem rollback_without_history (fs : FS) (extract_stops : option nat) :
  history fs = None ∨ (∃ h, history fs = Some h ∧ sidecars h = []) →
  get_previous_deployment fs = VNone
  ∧ rollback_to_previous None extract_stops fs = (false, fs).
Proof.
  intros Hno.
  assert (Hprev : get_previous_deployment fs = VNone).
  { unfold get_previous_deployment.
    destruct Hno as [-> | (h & -> & ->)]; reflexivity. }
  split; [ exact Hprev | ].
  unfold rollback_to_previous. rewrite Hprev. reflexivity.
Qed.

Lemma restore_snapshot_true state extract_stops fs fs1 :
  _restore_snapshot state extract_stops fs = (Ok true, fs1) →
  ∃ items rel entries,
    state = VDict items
    ∧ dict_get (KStr "artifact_path") items = VStr rel
    ∧ lookup_artifact fs rel = Some (ZipArchive entries)
    ∧ extraction_stops extract_stops entries (project fs) = None
    ∧ fs1 = extractall entries fs.
Proof.
  unfold _restore_snapshot. intros Hr.
  destruct state as [ | | | | | items | | | | ]; try discriminate.
  destruct (dict_get (KStr "artifact_path") items)
    as [ | | | | rel | | | | | ] eqn:Hget;
    repeat match type of Hr with
           | context [if ?b then _ else _] => destruct b
           end; try discriminate.
  destruct (lookup_artifact fs rel) as [ [entries | ] | ] eqn:Hzip;
    try discriminate.
  destruct (extraction_stops extract_stops entries (project fs)) eqn:Hstop;
    [ discriminate | ].
  injection Hr as <-. exists items, rel, entries. repeat split; done.
Qed.

Lemma restore_snapshot_true_truthy state extract_stops fs fs1 :
  _restore_snapshot state extract_stops fs = (Ok true, fs1) →
  py_truthy state = true.
Proof.
  intros (items & rel & entries & -> & Hget & _)%restore_snapshot_true.
  destruct items; [ discriminate | done ].
Qed.

(** The callback plays no part unless the restore succeeded. *)
Lemma rollback_callback_irrelevant (cb : callback) extract_stops fs :
  (_restore_snapshot (get_previous_deployment fs) extract_stops fs).1
  ≠ Ok true →
  rollback_to_previous (Some cb) extract_stops fs
  = rollback_to_previous None extract_stops fs.
Proof.
  unfold rollback_to_previous. intros Hne.
  destruct (py_truthy (get_previous_deployment fs)); simpl; [ | done ].
  destruct (_restore_snapshot (get_previous_deployment fs) extract_stops fs)
    as [[[] | ] fs1]; simpl in *; done.
Qed.

(** C5. When the newest sidecar's snapshot is restored successfully,
    giving the project directory [fs1], and the callback, called with the
    stored state on [fs1], returns [False] leaving [fs2], then the
    rollback as a whole returns [False] and the project directory is
    [fs2]: nothing is done after the callback, the restore is not undone.
    Without the callback the same rollback returns [True] with [fs1]; the
    stored history is untouched by the restore; and whenever the restore
    does not succeed the callback plays no part. *)
Theorem rollback_callback_failure (cb : callback) extract_stops fs fs1 fs2 :
  _restore_snapshot (get_previous_deployment fs) extract_stops fs
  = (Ok true, fs1) →
  cb (get_previous_deployment fs) fs1 = (Ok false, fs2) →
  rollback_to_previous (Some cb) extract_stops fs = (false, fs2)
  ∧ rollback_to_previous None extract_stops fs = (true, fs1)
  ∧ history fs1 = history fs
  ∧ (∀ cb' extract_stops' fs',
       (_restore_snapshot (get_previous_deployment fs') extract_stops' fs').1
       ≠ Ok true →
       rollback_to_previous (Some cb') extract_stops' fs'
       = rollback_to_previous None extract_stops' fs').
Proof.
  intros Hrestore Hcb.
  pose proof (restore_snapshot_true_truthy _ _ _ _ Hrestore) as Htruthy.
  repeat split.
  - unfold rollback_to_previous. rewrite Htruthy, Hrestore. simpl.
    by rewrite Hcb.
  - unfold rollback_to_previous. by rewrite Htruthy, Hrestore.
  - apply restore_snapshot_true in Hrestore
      as (? & ? & ? & _ & _ & _ & _ & ->).
    done.
  - intros. by apply rollback_callback_irrelevant.
Qed.
End rollback.

(** ** Orchestration *)

Local Arguments Validator.validate {_} _ : simpl never.
Local Arguments Rollback.create_checkpoint {_} _ _ _ _ : simpl never.

Ltac run_monad :=
  unfold Main.deploy, Main.validate_deployment,
    Main.check_deployment_readiness, Main._run_system_checks,
    Main.initialize_deployer, Main.emit, Main.set_checker, Main.set_deployer,
    Main.set_system_results, Main.set_rollback_manager, Main.check_all,
    Main.gets, Main.modify, Main.lift, mbind, mret, Main.M_bind, Main.M_ret
    in *;
  cbn beta iota zeta in *.

Section orchestration.
Import Main.
Context {str_ops : PyStr} {caps : Capabilities}.

Lemma run_system_checks_eq d :
  _run_system_checks d
  = (Ok (check_all (system_checks (at_call d [EvSystemCheck]))),
     after_system_checks d).
Proof. reflexivity. Qed.

Lemma key_add_elem k keys : k ∈ key_add k keys.
Proof.
  unfold key_add. case_bool_decide; [ done | ].
  apply elem_of_app. right. by apply list_elem_of_singleton.
Qed.

(** C1. Whatever the platform and the migration flag: when the system
    checker, run on entry to [deploy], reports not ready, [deploy] returns
    [False]; the only calls made are the entry to [deploy] and the system
    check, so [create_checkpoint] is not called, and the project directory
    with its checkpoint history is as before. Neither the framework, the
    configuration nor the platform is consulted. *)
Theorem deploy_system_gate_fatal platform run_migrations d results :
  (_run_system_checks (at_call d [EvDeploy platform run_migrations])).1
  = Ok (false, results) →
  ∃ d',
    deploy platform run_migrations d = (Ok false, d')
    ∧ rollback_manager d' = rollback_manager d
    ∧ trace d' = trace d ++ [EvDeploy platform run_migrations; EvSystemCheck]
    ∧ deployers d' = deployers d.
Proof.
  rewrite run_system_checks_eq. unfold check_all. simpl.
  intros [= Hready Hresults].
  exists (after_system_checks (at_call d [EvDeploy platform run_migrations])).
  split; [ | split; [ done | split; [ | done ] ] ].
  - unfold deploy. unfold mbind at 1, M_bind at 1, emit, modify.
    change ({| config := config d; deployers := deployers d;
               checkers := checkers d; system_results := system_results d;
               rollback_manager := rollback_manager d;
               trace := trace d ++ [EvDeploy platform run_migrations] |})
      with (at_call d [EvDeploy platform run_migrations]).
    unfold mbind at 1, M_bind at 1.
    rewrite run_system_checks_eq. unfold check_all. rewrite Hready.
    reflexivity.
  - simpl. by rewrite <- app_assoc.
Qed.

(** What a successful validation establishes. *)
Lemma validate_deployment_true platform d d' :
  validate_deployment platform d = (Ok true, d') →
  str_lower platform ∈ AVAILABLE_DEPLOYERS
  ∧ str_lower platform ∈ deployers d'
  ∧ config d' = config d
  ∧ rollback_manager d' = rollback_manager d
  ∧ trace d'
    = trace d ++ [EvConfigValidate; EvPlatformValidate (str_lower platform)].
Proof.
  run_monad. simpl. intros Hv.
  repeat (case_match; simplify_eq/=).
  repeat split; try done.
  - match goal with
    | Hin : negb (bool_decide _) = false |- _ =>
        apply negb_false_iff, bool_decide_eq_true in Hin; exact Hin
    end.
  - apply key_add_elem.
  - by rewrite <- app_assoc.
Qed.

(** C6. With [run_migrations = True]: when the system gate passes, the
    validation succeeds, the migrator returns [False] and the platform's
    [deploy()] returns [True], then [deploy] returns [True]. After the
    validation the calls are, in this order, the migration, the platform
    deploy and [create_checkpoint]; the checkpoint is created with the
    metadata of this deployment. *)
Theorem deploy_tolerates_migration_failure platform d results d1 d2 :
  _run_system_checks (at_call d [EvDeploy platform true])
  = (Ok (true, results), d1) →
  validate_deployment platform d1 = (Ok true, d2) →
  migrator_run_migrations (at_call d2 [EvMigrate]) = false →
  platform_deploy (str_lower platform)
    (at_call d2 [EvMigrate; EvPlatformDeploy (str_lower platform)]) = true →
  ∃ d',
    deploy platform true d = (Ok true, d')
    ∧ trace d'
      = trace d2 ++ [EvMigrate; EvPlatformDeploy (str_lower platform);
                     EvCreateCheckpoint platform]
    ∧ rollback_manager d'
      = (Rollback.create_checkpoint platform
           (Some (checkpoint_metadata true d2))
           (checkpoint_io
              (at_call d2 [EvMigrate; EvPlatformDeploy (str_lower platform);
                           EvCreateCheckpoint platform]))
           (rollback_manager d2)).2.
Proof.
  intros Hgate Hvalid Hmigrate Hdeploy.
  destruct (validate_deployment_true _ _ _ Hvalid) as (_ & Hknown & _).
  unfold deploy.
  unfold mbind at 1, M_bind at 1, emit at 1, modify at 1.
  change ({| config := config d; deployers := deployers d;
             checkers := checkers d; system_results := system_results d;
             rollback_manager := rollback_manager d;
             trace := trace d ++ [EvDeploy platform true] |})
    with (at_call d [EvDeploy platform true]).
  unfold mbind at 1, M_bind at 1. rewrite Hgate. cbn [negb].
  unfold mbind at 1, M_bind at 1. rewrite Hvalid. cbn [negb].
  unfold emit, set_rollback_manager, gets, modify, mbind, mret, M_bind, M_ret.
  unfold at_call in Hmigrate, Hdeploy. simpl in Hmigrate, Hdeploy.
  simpl. rewrite bool_decide_eq_true_2 by done. simpl.
  unfold at_call, checkpoint_metadata. simpl. rewrite <- !app_assoc. simpl.
  rewrite Hdeploy. simpl. rewrite <- !app_assoc. simpl.
  case_match. simpl. eexists; split; [ reflexivity | ].
  split; reflexivity.
Qed.

(** C7. [check_deployment_readiness] first runs the system checks. For a
    framework whose lower-cased name is not registered it returns [False]
    with the system results and makes no further call; for a registered
    framework it then runs that framework's checks and returns the
    conjunction of the two verdicts with the system results followed by
    the framework results. *)
Theorem check_deployment_readiness_contract framework d :
  let key := str_lower framework in
  let d1 := after_system_checks d in
  let system := check_all (system_checks (at_call d [EvSystemCheck])) in
  let specific :=
    check_all (framework_checks key (at_call d1 [EvFrameworkCheck key])) in
  _run_system_checks d = (Ok system, d1)
  ∧ (check_deployment_readiness framework d).1
    = Ok (if bool_decide (key ∈ AVAILABLE_CHECKERS)
          then (system.1 && specific.1, system.2 ++ specific.2)
          else (false, system.2))
  ∧ trace (check_deployment_readiness framework d).2
    = trace d ++ (if bool_decide (key ∈ AVAILABLE_CHECKERS)
                  then [EvSystemCheck; EvFrameworkCheck key]
                  else [EvSystemCheck]).
Proof.
  intros key d1 system specific. split; [ reflexivity | ].
  run_monad. simpl. fold key.
  destruct (bool_decide (key ∈ AVAILABLE_CHECKERS)); simpl.
  - split; [ reflexivity | by rewrite <- app_assoc ].
  - split; reflexivity.
Qed.

(** Every run of [deploy] records its own entry first and no other entry
    to [deploy]; it never changes the configuration; it returns a boolean
    whenever the configuration validator returns. *)
Lemma deploy_shape platform run_migrations d :
  ∃ calls,
    trace (deploy platform run_migrations d).2
    = trace d ++ EvDeploy platform run_migrations :: calls
    ∧ forallb (λ e, negb (is_deploy_call e)) calls = true
    ∧ config (deploy platform run_migrations d).2 = config d
    ∧ (∀ v, Validator.validate (config d) = Ok v →
            ∃ b, (deploy platform run_migrations d).1 = Ok b).
Proof.
  run_monad. simpl.
  repeat (case_match; simplify_eq/=);
    (eexists; split;
     [ rewrite <- ?app_assoc; simpl; reflexivity
     | split; [ reflexivity
              | split; [ reflexivity
                       | intros; try discriminate; eauto ] ] ]).
Qed.

(** An unregistered platform: as long as the configuration validator
    returns, [deploy] returns [False], no platform deployer is called, no
    checkpoint is created and the project directory is as before. *)
Lemma deploy_unknown_platform platform run_migrations d v :
  str_lower platform ∉ AVAILABLE_DEPLOYERS →
  Validator.validate (config d) = Ok v →
  ∃ d' calls,
    deploy platform run_migrations d = (Ok false, d')
    ∧ trace d' = trace d ++ calls
    ∧ forallb (λ e, negb (is_platform_call e || is_checkpoint_call e)) calls
      = true
    ∧ rollback_manager d' = rollback_manager d.
Proof.
  intros Hunknown%(bool_decide_eq_false_2 _) Hv.
  run_monad. simpl.
  repeat (first [ rewrite Hv | rewrite Hunknown | case_match ];
          simplify_eq/=);
    (eexists _, _; split; [ reflexivity | ];
     split; [ rewrite <- ?app_assoc; simpl; reflexivity | ];
     split; reflexivity).
Qed.

Lemma deploy_each_cons platform rest run_migrations results d :
  deploy_each (platform :: rest) run_migrations results d
  = match deploy platform run_migrations d with
    | (Ok outcome, d1) =>
        deploy_each rest run_migrations (<[platform := outcome]> results) d1
    | (Raise e, d1) => (Raise e, d1)
    end.
Proof. reflexivity. Qed.

(** The state the loop leaves does not depend on the dictionary it
    fills. *)
Lemma deploy_each_state platforms run_migrations results results' d :
  (deploy_each platforms run_migrations results d).2
  = (deploy_each platforms run_migrations results' d).2.
Proof.
  revert results results' d.
  induction platforms as [ | p rest IH ]; intros results results' d;
    [ done | ].
  rewrite !deploy_each_cons.
  destruct (deploy p run_migrations d) as [[b | e] d1]; [ apply IH | done ].
Qed.

Lemma filter_deploy_calls_quiet calls :
  forallb (λ e, negb (is_deploy_call e)) calls = true →
  List.filter is_deploy_call calls = [].
Proof.
  induction calls as [ | e calls IH ]; simpl; [ done | ].
  intros [He Hcalls]%andb_true_iff. apply negb_true_iff in He.
  rewrite He. by apply IH.
Qed.

Lemma deploy_each_spec platforms run_migrations results d v :
  Validator.validate (config d) = Ok v →
  ∃ final d' calls,
    deploy_each platforms run_migrations results d = (Ok final, d')
    ∧ config d' = config d
    ∧ trace d' = trace d ++ calls
    ∧ List.filter is_deploy_call calls
      = (λ p, EvDeploy p run_migrations) <$> platforms
    ∧ (∀ q, q ∉ platforms → final !! q = results !! q)
    ∧ (∀ i p, platforms !! i = Some p → p ∉ drop (S i) platforms →
         ∃ b, (deploy p run_migrations
                 (deploy_to_multiple_platforms (take i platforms)
                    run_migrations d).2).1 = Ok b
              ∧ final !! p = Some b).
Proof.
  revert results d.
  induction platforms as [ | p rest IH ]; intros results d Hv.
  - exists results, d, []. simpl. rewrite app_nil_r.
    repeat split; try done.
  - rewrite deploy_each_cons.
    destruct (deploy_shape p run_migrations d)
      as (calls1 & Htrace1 & Hquiet & Hconfig1 & Hreturns).
    destruct (Hreturns v Hv) as (b & Hb).
    destruct (deploy p run_migrations d) as [r d1] eqn:Hdeploy.
    simpl in *. subst r.
    destruct (IH (<[p := b]> results) d1) as
      (final & d' & calls & Heach & Hconfig & Htrace & Hcalls & Hother
       & Hlast);
      [ by rewrite Hconfig1 | ].
    exists final, d', (EvDeploy p run_migrations :: calls1 ++ calls).
    split; [ done | split; [ congruence | split; [ | split; [ | split ] ] ] ].
    + rewrite Htrace, Htrace1, <- app_assoc. done.
    + simpl. rewrite List.filter_app, filter_deploy_calls_quiet by done.
      simpl. by rewrite Hcalls.
    + intros q [Hqp Hq]%not_elem_of_cons.
      rewrite Hother by done. by rewrite lookup_insert_ne.
    + intros [ | i ] q Hi Hq; simpl in *.
      * injection Hi as <-. exists b. split.
        -- unfold deploy_to_multiple_platforms. simpl. by rewrite Hdeploy.
        -- rewrite Hother by done. by rewrite lookup_insert_eq.
      * destruct (Hlast i q Hi Hq) as (b' & Hb' & Hfinal).
        exists b'. split; [ | done ].
        unfold deploy_to_multiple_platforms in *.
        rewrite deploy_each_cons, Hdeploy.
        by rewrite (deploy_each_state _ _ _ ∅).
Qed.

(** The loop when the configuration validator returns, so that every
    [deploy] has a boolean outcome: [deploy_to_multiple_platforms] enters
    [deploy] exactly once per list element, in list order, with the given
    migration flag; it returns a dictionary whose keys are the platforms
    of the list; and each platform is mapped to the boolean its deploy
    returned in the state left by the deploys before it (the last one,
    when a platform is listed more than once). No outcome, [False]
    included, stops the loop. *)
Lemma deploy_to_multiple_platforms_sequential
    platforms run_migrations d v :
  Validator.validate (config d) = Ok v →
  ∃ results d' calls,
    deploy_to_multiple_platforms platforms run_migrations d
    = (Ok results, d')
    ∧ trace d' = trace d ++ calls
    ∧ List.filter is_deploy_call calls
      = (λ p, EvDeploy p run_migrations) <$> platforms
    ∧ dom results = list_to_set platforms
    ∧ (∀ i p, platforms !! i = Some p → p ∉ drop (S i) platforms →
         ∃ b, (deploy p run_migrations
                 (deploy_to_multiple_platforms (take i platforms)
                    run_migrations d).2).1 = Ok b
              ∧ results !! p = Some b).
Proof.
  intros Hv.
  destruct (deploy_each_spec platforms run_migrations ∅ d v Hv)
    as (results & d' & calls & Heach & _ & Htrace & Hcalls & Hother & Hlast).
  exists results, d', calls. repeat split; try done.
  apply set_eq. intros q. rewrite elem_of_dom, elem_of_list_to_set. split.
  - intros Hq. destruct (decide (q ∈ platforms)) as [ | Hn ]; [ done | ].
    rewrite (Hother q Hn), lookup_empty in Hq. by destruct Hq.
  - intros Hq. destruct (last_occurrence q platforms Hq) as (i & Hi & Hl).
    destruct (Hlast i q Hi Hl) as (b & _ & Hb). by exists b.
Qed.
End orchestration.

(** The result of [deploy] and the state it leaves do not depend on what the
    migrator answers. *)
Lemma deploy_ignores_migration_outcome {str_ops : PyStr}
    (c : Main.Capabilities)
    (answer : Main.Deployer → bool) platform run_migrations d :
  Main.deploy (caps := with_migrator answer c) platform run_migrations d
  = Main.deploy (caps := c) platform run_migrations d.
Proof. destruct c. reflexivity. Qed.

(** ** The model on the repository's tests *)

Section tests.
Import Rollback History.

(** [tests/test_rollback.py], [test_checkpoint_creation_and_restore] *)
Example test_checkpoint_creation_and_restore :
  archive_stems Sample.deployed = ["render_20240101120000"]
  ∧ rollback_to_previous None None Sample.broken = (true, Sample.restored)
  ∧ project Sample.restored !! ["app.py"] = Some "print('v1')".
Proof. repeat split; vm_compute; reflexivity. Qed.

(** [tests/test_rollback.py], [test_rollback_invokes_callback] *)
Example test_rollback_invokes_callback :
  (rollback_to_previous (Some (Sample.platform_callback "render")) None
     Sample.broken).1 = true
  ∧ (rollback_to_previous (Some (Sample.platform_callback "vercel")) None
       Sample.broken).1 = false.
Proof. split; vm_compute; reflexivity. Qed.

(** [tests/test_main.py], [test_invalid_platform] *)
Example test_invalid_platform :
  (Main.initialize_deployer (str_ops := ascii_ops) "invalid-platform"
     (Sample.deployer Sample.config_ok)).1 = Ok None.
Proof. reflexivity. Qed.

(** [tests/test_main.py], [test_invalid_framework] *)
Example test_invalid_framework :
  (Main.check_deployment_readiness (str_ops := ascii_ops)
     (caps := Sample.capabilities true true true true)
     "invalid-framework" (Sample.deployer Sample.config_ok)).1
  = Ok (false, [Sample.check true; Sample.check true]).
Proof. reflexivity. Qed.

(** [tests/test_config.py], [test_multiple_platforms] *)
Example test_multiple_platforms :
  Validator.validate (str_ops := ascii_ops)
    (VDict [ (KStr "platform", VList [VStr "render"; VStr "railway"]);
             (KStr "app_name", VStr "my-app") ])
  = Ok (true, []).
Proof. reflexivity. Qed.
End tests.

(** ** Witnesses and counterexamples *)

Section concrete.
Import Rollback History.

(** C1 on a deployer whose second system check fails. *)
Lemma deploy_system_gate_fatal_witness :
  ∃ d',
    Main.deploy (str_ops := ascii_ops)
      (caps := Sample.capabilities false true true true)
      "render" true (Sample.deployer Sample.config_ok) = (Ok false, d')
    ∧ Main.rollback_manager d' = Sample.project_v1
    ∧ Main.trace d' = [Main.EvDeploy "render" true; Main.EvSystemCheck]
    ∧ Main.deployers d' = [].
Proof.
  apply (@deploy_system_gate_fatal ascii_ops
           (Sample.capabilities false true true true)
           "render" true (Sample.deployer Sample.config_ok)
           [Sample.check true; Sample.check false]).
  reflexivity.
Defined.

(** C2 as stated fails above the default: seven checkpoints at distinct
    seconds, all written, then a sweep with [keep_count = 6] leave five
    sidecars and five archives, not six. *)
Lemma retention_above_default_keeps_five :
  history Sample.project_v1 = None
  ∧ Forall (λ c, creation_ok c = true) Sample.seven_checkpoints
  ∧ NoDup (creation_id (str_ops := ascii_ops) <$> Sample.seven_checkpoints)
  ∧ StronglySorted Z.lt (creation_mtime <$> Sample.seven_checkpoints)
  ∧ (0 ≤ 6 < Z.of_nat (length Sample.seven_checkpoints))%Z
  ∧ sidecar_stems
      (clean_old_deployments 6
         (run_creations (str_ops := ascii_ops) Sample.seven_checkpoints
            Sample.project_v1))
    = [ "render_20240101120003"; "render_20240101120004";
        "render_20240101120005"; "render_20240101120006";
        "render_20240101120007" ]
  ∧ length (sidecar_stems
              (clean_old_deployments 6
                 (run_creations (str_ops := ascii_ops) Sample.seven_checkpoints
                    Sample.project_v1))) ≠ 6
  ∧ length (archive_stems
              (clean_old_deployments 6
                 (run_creations (str_ops := ascii_ops) Sample.seven_checkpoints
                    Sample.project_v1))) ≠ 6.
Proof.
  split; [ reflexivity | ].
  split; [ repeat constructor | ].
  split; [ apply (bool_decide_unpack _); vm_compute; exact I | ].
  split; [ repeat (constructor; try done) | ].
  split; [ simpl; lia | ].
  split; [ vm_compute; reflexivity | ].
  split; vm_compute; discriminate.
Qed.

(** C2 as amended, on the same seven checkpoints with [keep_count = 3]. *)
Lemma retention_bound_within_default_witness :
  sidecar_stems
    (clean_old_deployments 3
       (run_creations (str_ops := ascii_ops) Sample.seven_checkpoints
          Sample.project_v1))
  = [ "render_20240101120005"; "render_20240101120006";
      "render_20240101120007" ]
  ∧ archive_stems
      (clean_old_deployments 3
         (run_creations (str_ops := ascii_ops) Sample.seven_checkpoints
            Sample.project_v1))
    = [ "render_20240101120005"; "render_20240101120006";
        "render_20240101120007" ].
Proof.
  destruct (@retention_bound_within_default ascii_ops
              Sample.seven_checkpoints 3 Sample.project_v1)
    as (Hsidecars & Harchives & _ & _).
  - reflexivity.
  - repeat constructor.
  - apply (bool_decide_unpack _). vm_compute. exact I.
  - repeat (constructor; try done).
  - lia.
  - simpl. lia.
  - split; [ exact Hsidecars | exact Harchives ].
Defined.

(** C3 on a project that was never deployed. *)
Lemma rollback_without_history_witness :
  get_previous_deployment Sample.project_v1 = VNone
  ∧ rollback_to_previous None None Sample.project_v1
    = (false, Sample.project_v1).
Proof.
  apply (rollback_without_history Sample.project_v1 None).
  left. reflexivity.
Defined.

(** C4 as stated fails for metadata that brings an [artifact_path]: the
    archive cannot be written, yet both the returned state and the
    sidecar on disk carry an [artifact_path] field. *)
Lemma archive_failure_keeps_metadata_artifact_path :
  archive_failed (Sample.io_no_archive "20240101120000" 10) = true
  ∧ ∃ state payload,
      (create_checkpoint (str_ops := ascii_ops) "render"
         (Some [(KStr "artifact_path", VStr "old.zip")])
         (Sample.io_no_archive "20240101120000" 10) Sample.project_v1).1
      = Some state
      ∧ dict_get (KStr "artifact_path") state = VStr "old.zip"
      ∧ sidecars
          (history_or_empty
             (create_checkpoint (str_ops := ascii_ops) "render"
                (Some [(KStr "artifact_path", VStr "old.zip")])
                (Sample.io_no_archive "20240101120000" 10)
                Sample.project_v1).2)
        = [ ("render_20240101120000",
             {| sc_mtime := 10; sc_body := JsonDoc (VDict payload) |}) ]
      ∧ has_field "artifact_path" payload = true
      ∧ archive_stems
          (create_checkpoint (str_ops := ascii_ops) "render"
             (Some [(KStr "artifact_path", VStr "old.zip")])
             (Sample.io_no_archive "20240101120000" 10)
             Sample.project_v1).2 = [].
Proof.
  split; [ reflexivity | ].
  eexists _, _.
  split; [ vm_compute; reflexivity | ].
  split; [ reflexivity | ].
  split; [ vm_compute; reflexivity | ].
  split; reflexivity.
Qed.

(** C4 as amended, with metadata that has no [artifact_path]. *)
Lemma checkpoint_survives_archive_failure_witness :
  ∃ state payload fs1,
    create_checkpoint (str_ops := ascii_ops) "Render"
      (Some [(KStr "notes", VStr "first")])
      (Sample.io_no_archive "20240101120000" 10) Sample.project_v1
    = (Some state, clean_old_deployments 5 fs1)
    ∧ has_field "artifact_path" state = false
    ∧ has_field "artifact_path" payload = false
    ∧ (_generate_deployment_id (str_ops := ascii_ops) "Render"
         (Sample.io_no_archive "20240101120000" 10),
       {| sc_mtime := io_mtime (Sample.io_no_archive "20240101120000" 10);
          sc_body := JsonDoc (VDict payload) |})
      ∈ sidecars (history_or_empty fs1).
Proof.
  destruct (@checkpoint_survives_archive_failure ascii_ops "Render"
              (Some [(KStr "notes", VStr "first")])
              (Sample.io_no_archive "20240101120000" 10) Sample.project_v1)
    as (state & payload & fs1 & Hcreate & Hstate & _ & Hpayload & Hin & _).
  - reflexivity.
  - reflexivity.
  - reflexivity.
  - reflexivity.
  - exists state, payload, fs1.
    split; [ exact Hcreate | split; [ exact Hstate | ] ].
    split; [ exact Hpayload | exact Hin ].
Defined.

(** C5 on the edited project, with a callback that fails. *)
Lemma rollback_callback_failure_witness :
  rollback_to_previous (Some Sample.failing_callback) None Sample.broken
  = (false, Sample.restored)
  ∧ rollback_to_previous None None Sample.broken = (true, Sample.restored)
  ∧ history Sample.restored = history Sample.broken.
Proof.
  destruct (rollback_callback_failure Sample.failing_callback None
              Sample.broken Sample.restored Sample.restored)
    as (Hfails & Halone & Hhistory & _).
  - vm_compute. reflexivity.
  - reflexivity.
  - split; [ exact Hfails | split; [ exact Halone | exact Hhistory ] ].
Defined.

(** C6 on a deployment to Render whose migrations fail. *)
Lemma deploy_tolerates_migration_failure_witness :
  ∃ d',
    Main.deploy (str_ops := ascii_ops)
      (caps := Sample.capabilities true true false true)
      "Render" true (Sample.deployer Sample.config_ok) = (Ok true, d')
    ∧ Main.trace d'
      = [ Main.EvDeploy "Render" true; Main.EvSystemCheck;
          Main.EvConfigValidate; Main.EvPlatformValidate "render";
          Main.EvMigrate; Main.EvPlatformDeploy "render";
          Main.EvCreateCheckpoint "Render" ]
    ∧ sidecar_stems (Main.rollback_manager d') = ["render_20240101120000"].
Proof.
  pose (world := Sample.capabilities true true false true).
  pose (d := Sample.deployer Sample.config_ok).
  pose (gate := Main._run_system_checks (caps := world)
                  (at_call d [Main.EvDeploy "Render" true])).
  pose (valid := Main.validate_deployment (str_ops := ascii_ops) (caps := world)
                   "Render" gate.2).
  destruct (@deploy_tolerates_migration_failure ascii_ops world "Render" d
              [Sample.check true; Sample.check true] gate.2 valid.2)
    as (d' & Hdeploy & Htrace & Hfs).
  - reflexivity.
  - reflexivity.
  - reflexivity.
  - reflexivity.
  - exists d'. split; [ exact Hdeploy | split ].
    + rewrite Htrace. reflexivity.
    + rewrite Hfs. vm_compute. reflexivity.
Defined.

(** The loop on three platforms, the second of which is not
    registered. *)
Lemma deploy_to_multiple_platforms_sequential_witness :
  ∃ results d' calls,
    Main.deploy_to_multiple_platforms (str_ops := ascii_ops)
      (caps := Sample.capabilities true true true true)
      ["Render"; "aws"; "heroku"] true (Sample.deployer Sample.config_ok)
    = (Ok results, d')
    ∧ Main.trace d' = calls
    ∧ List.filter is_deploy_call calls
      = [ Main.EvDeploy "Render" true; Main.EvDeploy "aws" true;
          Main.EvDeploy "heroku" true ]
    ∧ dom results = list_to_set ["Render"; "aws"; "heroku"].
Proof.
  destruct (@deploy_to_multiple_platforms_sequential ascii_ops
              (Sample.capabilities true true true true)
              ["Render"; "aws"; "heroku"] true
              (Sample.deployer Sample.config_ok) (true, []))
    as (results & d' & calls & Hrun & Htrace & Hcalls & Hdom & _).
  - reflexivity.
  - exists results, d', calls.
    split; [ exact Hrun | split; [ exact Htrace | ] ].
    split; [ exact Hcalls | exact Hdom ].
Defined.

Example deploy_to_multiple_platforms_outcomes :
  match (Main.deploy_to_multiple_platforms (str_ops := ascii_ops)
           (caps := Sample.capabilities true true true true)
           ["Render"; "aws"; "heroku"] true
           (Sample.deployer Sample.config_ok)).1 with
  | Ok results =>
      ((results !! "Render", results !! "aws"), results !! "heroku")
      = ((Some true, Some false), Some true)
  | Raise _ => False
  end.
Proof. vm_compute. reflexivity. Qed.

(** C9. [deploy_to_multiple_platforms] is documented to return a
    dictionary that maps each platform to the outcome of its deploy, and
    [deploy] to raise nothing. With [platform: [1]] in the configuration
    file and the system checks passing, the [deploy] of the first
    platform raises [AttributeError] (the validator calls [p.lower()] on
    the number, as in C10). The loop has no [try]: the call as a whole
    raises, no dictionary is returned, and [deploy] is entered for the
    first platform only, never for the second. *)
Theorem deploy_to_multiple_platforms_stops_on_raise :
  (Main.deploy (str_ops := ascii_ops)
     (caps := Sample.capabilities true true true true)
     "render" true (Sample.deployer Sample.config_platform_numbers)).1
  = Raise AttributeError
  ∧ (Main.deploy_to_multiple_platforms (str_ops := ascii_ops)
       (caps := Sample.capabilities true true true true)
       ["render"; "heroku"] true
       (Sample.deployer Sample.config_platform_numbers)).1
    = Raise AttributeError
  ∧ List.filter is_deploy_call
      (Main.trace
         (Main.deploy_to_multiple_platforms (str_ops := ascii_ops)
            (caps := Sample.capabilities true true true true)
            ["render"; "heroku"] true
            (Sample.deployer Sample.config_platform_numbers)).2)
    = [Main.EvDeploy "render" true].
Proof. split; [ | split ]; vm_compute; reflexivity. Qed.

(** C10. For an unregistered platform [deploy] is documented to return
    [False] without raising. With [platform: [1]] in the configuration
    file and the system checks passing, [deploy("aws")] raises
    [AttributeError]: the validator calls [p.lower()] on the number before
    the platform is ever looked up. The exception leaves [deploy] after
    the system check and the configuration validation, before any platform
    call, and no checkpoint is created. *)
Theorem deploy_raises_on_platform_list_of_numbers :
  (ascii_lower "aws" ∉ Main.AVAILABLE_DEPLOYERS)
  ∧ Validator.validate (str_ops := ascii_ops) Sample.config_platform_numbers
    = Raise AttributeError
  ∧ (Main.deploy (str_ops := ascii_ops)
       (caps := Sample.capabilities true true true true)
       "aws" true (Sample.deployer Sample.config_platform_numbers)).1
    = Raise AttributeError
  ∧ Main.trace
      (Main.deploy (str_ops := ascii_ops)
         (caps := Sample.capabilities true true true true)
         "aws" true (Sample.deployer Sample.config_platform_numbers)).2
    = [ Main.EvDeploy "aws" true; Main.EvSystemCheck;
        Main.EvConfigValidate ].
Proof.
  split; [ apply (bool_decide_unpack _); vm_compute; exact I | ].
  repeat split; reflexivity.
Qed.
End concrete.

(** ** The sweep on any history directory *)

Section sorting.
Import Rollback History.
Implicit Types (f g : string * sidecar) (l dir : list (string * sidecar)).

Lemma insert_by_mtime_perm f l : insert_by_mtime f l ≡ₚ f :: l.
Proof.
  induction l as [ | g l IH ]; simpl; [ done | ].
  destruct (sc_mtime f.2 <? sc_mtime g.2)%Z; [ | done ].
  rewrite IH. apply Permutation_swap.
Qed.

Lemma sorted_by_mtime_desc_perm dir : sorted_by_mtime_desc dir ≡ₚ dir.
Proof.
  induction dir as [ | f dir IH ]; [ done | ].
  unfold sorted_by_mtime_desc in *. simpl.
  by rewrite insert_by_mtime_perm, IH.
Qed.

Lemma insert_by_mtime_sorted f l :
  StronglySorted (λ a b, (sc_mtime b.2 ≤ sc_mtime a.2)%Z) l →
  StronglySorted (λ a b, (sc_mtime b.2 ≤ sc_mtime a.2)%Z)
                 (insert_by_mtime f l).
Proof.
  induction 1 as [ | g l Hl IH Hg ]; simpl.
  - repeat constructor.
  - destruct (Z.ltb_spec (sc_mtime f.2) (sc_mtime g.2)) as [Hlt | Hge].
    + constructor; [ done | ].
      rewrite insert_by_mtime_perm. constructor; [ lia | done ].
    + constructor; [ by constructor | ].
      constructor; [ done | ].
      eapply Forall_impl; [ exact Hg | ]. simpl. intros. lia.
Qed.

Lemma sorted_by_mtime_desc_sorted dir :
  StronglySorted (λ a b, (sc_mtime b.2 ≤ sc_mtime a.2)%Z)
                 (sorted_by_mtime_desc dir).
Proof.
  induction dir as [ | f dir IH ]; [ constructor | ].
  by apply insert_by_mtime_sorted.
Qed.

Lemma insert_by_mtime_newest f l :
  Forall (λ g, (sc_mtime g.2 ≤ sc_mtime f.2)%Z) l →
  insert_by_mtime f l = f :: l.
Proof.
  destruct 1 as [ | g l Hg _ ]; simpl; [ done | ].
  by rewrite (proj2 (Z.ltb_ge _ _) Hg).
Qed.

Lemma filter_insert_by_mtime_out (P : string * sidecar → Prop)
    `{!∀ x, Decision (P x)} f l :
  ¬ P f → filter P (insert_by_mtime f l) = filter P l.
Proof.
  intros Hf. induction l as [ | g l IH ]; simpl.
  - by rewrite filter_cons_False.
  - destruct (sc_mtime f.2 <? sc_mtime g.2)%Z.
    + rewrite !filter_cons. by rewrite IH.
    + by rewrite filter_cons_False.
Qed.

Lemma filter_insert_by_mtime_in (P : string * sidecar → Prop)
    `{!∀ x, Decision (P x)} f l :
  P f →
  StronglySorted (λ a b, (sc_mtime b.2 ≤ sc_mtime a.2)%Z) l →
  filter P (insert_by_mtime f l) = insert_by_mtime f (filter P l).
Proof.
  intros Hf. induction 1 as [ | g l Hl IH Hg ]; simpl.
  - by rewrite filter_cons_True.
  - destruct (Z.ltb_spec (sc_mtime f.2) (sc_mtime g.2)) as [Hlt | Hge].
    + rewrite !filter_cons. destruct (decide (P g)); simpl.
      * rewrite (proj2 (Z.ltb_lt _ _) Hlt). by rewrite IH.
      * exact IH.
    + rewrite filter_cons_True by done.
      symmetry. apply insert_by_mtime_newest.
      apply Forall_forall. intros x [_ Hx]%list_elem_of_filter.
      apply elem_of_cons in Hx as [-> | Hx]; [ done | ].
      rewrite Forall_forall in Hg. specialize (Hg x Hx). simpl in Hg. lia.
Qed.

(** The stable sort commutes with taking a sub-listing. *)
Lemma sorted_by_mtime_desc_filter (P : string * sidecar → Prop)
    `{!∀ x, Decision (P x)} dir :
  sorted_by_mtime_desc (filter P dir) = filter P (sorted_by_mtime_desc dir).
Proof.
  induction dir as [ | f dir IH ]; [ done | ].
  rewrite filter_cons. change (sorted_by_mtime_desc (f :: dir))
    with (insert_by_mtime f (sorted_by_mtime_desc dir)).
  destruct (decide (P f)).
  - change (sorted_by_mtime_desc (f :: filter P dir))
      with (insert_by_mtime f (sorted_by_mtime_desc (filter P dir))).
    rewrite IH. symmetry.
    apply filter_insert_by_mtime_in; [ done | ].
    apply sorted_by_mtime_desc_sorted.
  - rewrite IH. symmetry. by apply filter_insert_by_mtime_out.
Qed.

(** In a listing with distinct names, the names of the first [n] sorted
    files and of the others are disjoint and make up the listing. *)
Lemma sorted_names_split n dir (e : string * sidecar) :
  NoDup dir.*1 → e ∈ dir →
  e.1 ∉ (drop n (sorted_by_mtime_desc dir)).*1
  ↔ e.1 ∈ (take n (sorted_by_mtime_desc dir)).*1.
Proof.
  intros Hnd He.
  pose proof (sorted_by_mtime_desc_perm dir) as Hperm.
  assert (Hnd' : NoDup ((take n (sorted_by_mtime_desc dir)).*1
                        ++ (drop n (sorted_by_mtime_desc dir)).*1)).
  { rewrite <- fmap_app, take_drop. by rewrite Hperm. }
  assert (Hin : e.1 ∈ (take n (sorted_by_mtime_desc dir)).*1
                      ++ (drop n (sorted_by_mtime_desc dir)).*1).
  { rewrite <- fmap_app, take_drop, Hperm. by apply list_elem_of_fmap_2. }
  apply NoDup_app in Hnd' as (_ & Hdisj & _).
  apply elem_of_app in Hin as [Hin | Hin]; split; intros H; try done.
  by specialize (Hdisj _ Hin).
  by specialize (Hdisj _ H).
Qed.

Lemma list_filter_iff_in {A} (P1 P2 : A → Prop)
    `{!∀ x, Decision (P1 x), !∀ x, Decision (P2 x)} (l : list A) :
  (∀ x, x ∈ l → P1 x ↔ P2 x) → filter P1 l = filter P2 l.
Proof.
  induction l as [ | x l IH ]; intros Hl; [ done | ].
  rewrite !filter_cons. rewrite IH.
  2:{ intros y Hy. apply Hl. by right. }
  specialize (Hl x ltac:(left)).
  destruct (decide (P1 x)), (decide (P2 x)); tauto.
Qed.

(** The sweep on any directory with distinct sidecar names: the files
    named like one of the first [k] sorted sidecars stay. *)
Lemma clean_old_deployments_spec k fs h :
  history fs = Some h →
  NoDup (sidecars h).*1 →
  (0 ≤ k)%Z →
  let keep := (take (Z.to_nat k) (sorted_by_mtime_desc (sidecars h))).*1 in
  clean_old_deployments k fs
  = {| project := project fs;
       history :=
         Some {| sidecars := filter (λ e, e.1 ∈ keep) (sidecars h);
                 artifacts :=
                   filter (λ e, e.1 ∈ keep) <$> artifacts h |} |}.
Proof.
  intros Hh Hnd Hk keep. unfold clean_old_deployments. rewrite Hh.
  rewrite slice_to_nonneg, slice_from_nonneg by done.
  fold keep. do 3 f_equal.
  - rewrite foldl_unlink. apply list_filter_iff_in.
    intros e He. by apply sorted_names_split.
  - destruct (artifacts h) as [zips | ]; [ | done ]. simpl. f_equal.
    rewrite foldl_unlink_unless. apply list_filter_iff_in.
    intros e He. split.
    + intros Hn. destruct (decide (e.1 ∈ keep)); [ done | ].
      destruct Hn. split; [ by apply list_elem_of_fmap_2 | done ].
    + intros Hin [_ Hn]. done.
Qed.

(** What stays, sorted, is the first [k] of what was there, sorted. *)
Lemma sorted_kept n dir :
  NoDup dir.*1 →
  let keep := (take n (sorted_by_mtime_desc dir)).*1 in
  sorted_by_mtime_desc (filter (λ e, e.1 ∈ keep) dir)
  = take n (sorted_by_mtime_desc dir).
Proof.
  intros Hnd keep. rewrite sorted_by_mtime_desc_filter.
  pose proof (sorted_by_mtime_desc_perm dir) as Hperm.
  assert (Hnd' : NoDup (sorted_by_mtime_desc dir).*1) by by rewrite Hperm.
  rewrite <- (take_drop n (sorted_by_mtime_desc dir)) at 1.
  rewrite <- (take_drop n (sorted_by_mtime_desc dir)) in Hnd'.
  rewrite fmap_app in Hnd'. apply NoDup_app in Hnd' as (_ & Hdisj & _).
  rewrite filter_app, filter_all, filter_none; [ by rewrite app_nil_r | | ].
  - apply Forall_forall. intros e He Hin. apply (Hdisj _ Hin).
    by apply list_elem_of_fmap_2.
  - apply Forall_forall. intros e He. by apply list_elem_of_fmap_2.
Qed.

End sorting.

Section sweep_anywhere.
Import Rollback History.

Lemma sidecars_after_sweep k fs h :
  history fs = Some h → NoDup (sidecars h).*1 → (0 ≤ k)%Z →
  sorted_by_mtime_desc (sidecars (history_or_empty (clean_old_deployments k fs)))
  = take (Z.to_nat k) (sorted_by_mtime_desc (sidecars h)).
Proof.
  intros Hh Hnd Hk. rewrite (clean_old_deployments_spec k fs h) by done.
  unfold history_or_empty. simpl. by apply sorted_kept.
Qed.

(** X9. The sweep is idempotent: for [keep_count >= 0] and distinct
    sidecar names, sweeping twice leaves the project directory exactly as
    sweeping once does. *)
Theorem clean_old_deployments_idempotent (k : Z) (fs : FS) :
  (0 ≤ k)%Z →
  NoDup (sidecar_stems fs) →
  clean_old_deployments k (clean_old_deployments k fs)
  = clean_old_deployments k fs.
Proof.
  intros Hk Hnd. unfold sidecar_stems, history_or_empty in Hnd.
  destruct (history fs) as [h | ] eqn:Hh; simpl in Hnd.
  2:{ by rewrite !(clean_old_deployments_no_history k fs Hh). }
  rewrite (clean_old_deployments_spec k fs h) by done.
  set (keep := (take (Z.to_nat k) (sorted_by_mtime_desc (sidecars h))).*1).
  set (h' := {| sidecars := filter (λ e, e.1 ∈ keep) (sidecars h);
               artifacts := filter (λ e, e.1 ∈ keep) <$> artifacts h |}).
  rewrite (clean_old_deployments_spec k _ h');
    [ | reflexivity | | done ].
  2:{ simpl. eapply sublist_NoDup; [ exact Hnd | ].
      apply fmap_sublist, sublist_filter. }
  assert (Hkeep :
    (take (Z.to_nat k)
       (sorted_by_mtime_desc (filter (λ e, e.1 ∈ keep) (sidecars h)))).*1
    = keep).
  { unfold keep. rewrite sorted_kept by done.
    by rewrite take_take, Nat.min_id. }
  simpl. rewrite Hkeep. do 3 f_equal.
  - rewrite list_filter_filter. apply list_filter_iff. tauto.
  - destruct (artifacts h) as [zips | ]; [ | done ]. simpl. f_equal.
    rewrite list_filter_filter. apply list_filter_iff. tauto.
Qed.

(** The sweep on a history listed in any order. *)
Lemma clean_old_deployments_general (k : Z) (fs : FS) :
  (0 ≤ k)%Z →
  NoDup (sidecar_stems fs) →
  let fs' := clean_old_deployments k fs in
  let before := sidecars (history_or_empty fs) in
  let after := sidecars (history_or_empty fs') in
  after `sublist_of` before
  ∧ length after = length before `min` Z.to_nat k
  ∧ (∀ a b, a ∈ after → b ∈ before → b.1 ∉ sidecar_stems fs' →
            (sc_mtime b.2 ≤ sc_mtime a.2)%Z)
  ∧ (∀ stem, stem ∈ archive_stems fs' → stem ∈ sidecar_stems fs')
  ∧ project fs' = project fs.
Proof.
  intros Hk Hnd fs' before after. subst fs' before after.
  unfold sidecar_stems, archive_stems in *.
  destruct (history fs) as [h | ] eqn:Hh.
  2:{ rewrite clean_old_deployments_no_history by done.
      unfold history_or_empty. rewrite Hh. simpl.
      repeat split; try done. intros ? ? []%elem_of_nil. }
  assert (Hh' : history_or_empty fs = h)
    by (unfold history_or_empty; by rewrite Hh).
  rewrite Hh' in *.
  pose proof (sidecars_after_sweep k fs h Hh Hnd Hk) as Hsorted.
  rewrite (clean_old_deployments_spec k fs h) in * by done.
  unfold history_or_empty in *. simpl in *.
  set (T := sorted_by_mtime_desc (sidecars h)) in *.
  set (n := Z.to_nat k) in *.
  set (after := filter (λ e, e.1 ∈ (take n T).*1) (sidecars h)) in *.
  assert (Hperm : after ≡ₚ take n T)
    by (by rewrite <- Hsorted, sorted_by_mtime_desc_perm).
  assert (HT : T ≡ₚ sidecars h) by apply sorted_by_mtime_desc_perm.
  split; [ apply sublist_filter | ].
  split; [ | split; [ | split; [ | done ] ] ].
  - rewrite Hperm, length_take, <- HT. lia.
  - intros a b Ha Hb Hgone. rewrite Hperm in Ha. rewrite Hperm in Hgone.
    rewrite <- HT, <- (take_drop n T) in Hb.
    apply elem_of_app in Hb as [Hb | Hb].
    { destruct Hgone. by apply list_elem_of_fmap_2. }
    pose proof (sorted_by_mtime_desc_sorted (sidecars h)) as Hs.
    fold T in Hs. rewrite <- (take_drop n T) in Hs.
    apply (StronglySorted_app_1_elem_of _ _ _ a b Hs Ha Hb).
  - intros stem Hstem. rewrite Hperm.
    destruct (artifacts h) as [zips | ]; simpl in Hstem;
      [ | by apply elem_of_nil in Hstem ].
    apply list_elem_of_fmap in Hstem as (e & -> & He).
    by apply list_elem_of_filter in He as [He _].
Qed.

(** X8. The sweep with [keep_count = k >= 0] on any history directory
    with distinct sidecar names, in whatever order they are listed: the
    sidecars left are those of before that were not removed, unchanged and
    in the same order; [min n k] of the [n] are left; no sidecar left is
    older than a removed one; every archive left has a sidecar of its
    name; the project tree is untouched. *)
Theorem clean_old_deployments_retains_newest (k : Z) (fs : FS) :
  (0 ≤ k)%Z →
  NoDup (sidecar_stems fs) →
  let fs' := clean_old_deployments k fs in
  let before := sidecars (history_or_empty fs) in
  let after := sidecars (history_or_empty fs') in
  after `sublist_of` before
  ∧ length after = length before `min` Z.to_nat k
  ∧ (∀ a b, a ∈ after → b ∈ before → b.1 ∉ sidecar_stems fs' →
            (sc_mtime b.2 ≤ sc_mtime a.2)%Z)
  ∧ (∀ stem, stem ∈ archive_stems fs' → stem ∈ sidecar_stems fs')
  ∧ project fs' = project fs.
Proof. apply clean_old_deployments_general. Qed.

End sweep_anywhere.

(** ** Checkpoints and restores on any history directory *)

Lemma string_app_length (a b : string) :
  String.length (a +:+ b) = String.length a + String.length b.
Proof. induction a as [ | c a IH ]; simpl; [ done | by rewrite IH ]. Qed.

Lemma string_app_inv_head (s a b : string) : s +:+ a = s +:+ b → a = b.
Proof.
  induction s as [ | c s IH ]; simpl; [ done | ].
  intros [= H]. by apply IH.
Qed.

Lemma string_app_inv_tail (a b t : string) : a +:+ t = b +:+ t → a = b.
Proof.
  revert b. induction a as [ | c a IH ]; intros [ | c' b ] H.
  - done.
  - apply (f_equal String.length) in H.
    rewrite !string_app_length in H. simpl in H. lia.
  - apply (f_equal String.length) in H.
    rewrite !string_app_length in H. simpl in H. lia.
  - simpl in H. injection H as -> H. f_equal. by apply IH.
Qed.

Lemma artifact_rel_path_inj (a b : string) :
  Rollback.artifact_rel_path a = Rollback.artifact_rel_path b → a = b.
Proof.
  unfold Rollback.artifact_rel_path.
  intros H%string_app_inv_head. by apply string_app_inv_tail in H.
Qed.

Lemma key_eqb_refl k : key_eqb k k = true.
Proof. unfold key_eqb. by apply bool_decide_eq_true_2. Qed.

Lemma dict_get_dict_set k v d : dict_get k (dict_set k v d) = v.
Proof.
  induction d as [ | [k' v'] d IH ]; simpl.
  - by rewrite key_eqb_refl.
  - destruct (key_eqb k' k) eqn:Hk; simpl; rewrite Hk; done.
Qed.

Lemma key_eqb_str k name : key_eqb k (KStr name) = true → k = KStr name.
Proof.
  unfold key_eqb. intros H%bool_decide_eq_true.
  destruct k as [ | | [] | | ]; simpl in H; congruence.
Qed.

Lemma has_field_false_get name d :
  has_field name d = false → dict_get (KStr name) d = VNone.
Proof.
  induction d as [ | [k v] d IH ]; simpl; [ done | ].
  intros [Hk Hd]%orb_false_iff.
  destruct (key_eqb k (KStr name)) eqn:Heq; [ | by apply IH ].
  apply key_eqb_str in Heq as ->. simpl in Hk.
  by rewrite bool_decide_eq_true_2 in Hk.
Qed.

Lemma has_field_false_set name v d :
  has_field name d = false →
  dict_set (KStr name) v d = d ++ [(KStr name, v)].
Proof.
  induction d as [ | [k v'] d IH ]; simpl; [ done | ].
  intros [Hk Hd]%orb_false_iff.
  destruct (key_eqb k (KStr name)) eqn:Heq; [ | by rewrite IH ].
  apply key_eqb_str in Heq as ->. simpl in Hk.
  by rewrite bool_decide_eq_true_2 in Hk.
Qed.

Section written_directories.
Import Rollback.
Context {A : Type}.
Implicit Types (dir : list (string * A)).

Lemma dir_write_names name (x : A) dir :
  (dir_write name x dir).*1
  = if bool_decide (name ∈ dir.*1) then dir.*1 else dir.*1 ++ [name].
Proof.
  unfold dir_write. case_bool_decide.
  - rewrite <- list_fmap_compose. apply list_fmap_ext.
    intros i e _. simpl. by case_bool_decide.
  - by rewrite fmap_app.
Qed.

Lemma dir_write_NoDup name (x : A) dir :
  NoDup dir.*1 → NoDup (dir_write name x dir).*1.
Proof.
  intros Hnd. rewrite dir_write_names. case_bool_decide as Hin; [ done | ].
  apply NoDup_app. split; [ done | split; [ | apply NoDup_singleton ] ].
  by intros y Hy ->%list_elem_of_singleton.
Qed.

Lemma dir_write_named name (x : A) dir e :
  e ∈ dir_write name x dir → e.1 = name → e = (name, x).
Proof.
  unfold dir_write. case_bool_decide.
  - intros (e' & -> & He')%list_elem_of_fmap. case_bool_decide; [ done | ].
    simpl. done.
  - intros [He | ->%list_elem_of_singleton]%elem_of_app Hn; [ | done ].
    destruct H. rewrite <- Hn. by apply list_elem_of_fmap_2.
Qed.

Lemma dir_write_other name (x : A) dir e :
  e ∈ dir_write name x dir → e.1 ≠ name → e ∈ dir.
Proof.
  unfold dir_write. case_bool_decide.
  - intros (e' & -> & He')%list_elem_of_fmap. by case_bool_decide.
  - by intros [He | ->%list_elem_of_singleton]%elem_of_app Hn.
Qed.
End written_directories.

Section snapshots.
Import Rollback History.
Context {str_ops : PyStr}.

(** The newest file is the one nothing else in the listing is as new as. *)
Lemma sorted_by_mtime_desc_head dir name (sc : sidecar) :
  (name, sc) ∈ dir →
  (∀ e, e ∈ dir → e.1 = name → e = (name, sc)) →
  (∀ e, e ∈ dir → e.1 ≠ name → (sc_mtime e.2 < sc_mtime sc)%Z) →
  ∃ rest, sorted_by_mtime_desc dir = (name, sc) :: rest.
Proof.
  intros Hin Hnamed Hother.
  pose proof (sorted_by_mtime_desc_perm dir) as Hperm.
  pose proof (sorted_by_mtime_desc_sorted dir) as Hsorted.
  destruct (sorted_by_mtime_desc dir) as [ | h rest ].
  { rewrite <- Hperm in Hin. by apply elem_of_nil in Hin. }
  exists rest. f_equal.
  assert (Hh : h ∈ dir) by (rewrite <- Hperm; left).
  destruct (decide (h.1 = name)) as [Heq | Hne]; [ by apply Hnamed | ].
  specialize (Hother h Hh Hne).
  rewrite <- Hperm in Hin. apply elem_of_cons in Hin as [<- | Hin]; [ done | ].
  apply StronglySorted_inv in Hsorted as [_ Hall].
  rewrite Forall_forall in Hall. specialize (Hall _ Hin). simpl in Hall. lia.
Qed.

Lemma extractall_lookup_out entries fs p :
  p ∉ entries.*1 → project (extractall entries fs) !! p = project fs !! p.
Proof.
  unfold extractall. simpl. generalize (project fs).
  induction entries as [ | [q c] entries IH ]; intros tree Hp; simpl;
    [ done | ].
  simpl in Hp. apply not_elem_of_cons in Hp as [Hne Hp].
  rewrite IH by done. by rewrite lookup_insert_ne.
Qed.

Lemma extractall_lookup_in entries fs p c :
  NoDup entries.*1 → (p, c) ∈ entries →
  project (extractall entries fs) !! p = Some c.
Proof.
  unfold extractall. simpl. generalize (project fs).
  induction entries as [ | [q c'] entries IH ]; intros tree Hnd Hin; simpl.
  - by apply elem_of_nil in Hin.
  - simpl in Hnd. apply NoDup_cons in Hnd as [Hq Hnd].
    apply elem_of_cons in Hin as [[= <- <-] | Hin].
    + pose proof (extractall_lookup_out entries
                    {| project := <[p:=c]> tree; history := None |} p Hq)
        as Hout.
      simpl in Hout. rewrite Hout. by rewrite lookup_insert_eq.
    + by apply IH.
Qed.


(** Nothing is in the way of an extraction when no file of the tree and
    no other member lies above or below a member. *)
Lemma first_blocked_None entries tree :
  (∀ p q, p ∈ entries.*1 → is_Some (tree !! q) ∨ q ∈ entries.*1 →
          q ≠ p → ¬ q `prefix_of` p ∧ ¬ p `prefix_of` q) →
  first_blocked entries tree = None.
Proof.
  revert tree. induction entries as [ | [p c] rest IH ]; intros tree Hfree;
    [ done | ].
  simpl. assert (Hp : blocked tree p = false).
  { unfold blocked. apply not_true_is_false.
    intros ([q c'] & Hin & Hq)%existsb_exists.
    apply list_elem_of_In, elem_of_map_to_list in Hin.
    apply bool_decide_eq_true in Hq as [Hne Hq]. simpl in *.
    destruct (Hfree p q) as [Habove Hbelow]; [ left | by left; eauto | done | ].
    tauto. }
  rewrite Hp. rewrite IH; [ done | ].
  intros p' q Hp' Hq Hne. apply Hfree; [ by right | | done ].
  destruct Hq as [Hq | Hq]; [ | by right; right ].
  destruct (decide (q = p)) as [-> | Hqp]; [ right; left | left ].
  by rewrite lookup_insert_ne in Hq.
Qed.

Lemma snapshot_entries_NoDup fs : NoDup (snapshot_entries fs).*1.
Proof.
  eapply sublist_NoDup; [ apply (NoDup_fst_map_to_list (project fs)) | ].
  apply fmap_sublist, sublist_filter.
Qed.

Lemma elem_of_snapshot_entries fs p c :
  (p, c) ∈ snapshot_entries fs
  ↔ snapshot_includes p = true ∧ project fs !! p = Some c.
Proof.
  unfold snapshot_entries. rewrite list_elem_of_filter.
  by rewrite elem_of_map_to_list.
Qed.

End snapshots.

Section written_checkpoints.
Import Rollback History.
Context {str_ops : PyStr}.

Lemma artifact_rel_path_truthy id : py_truthy (VStr (artifact_rel_path id)) = true.
Proof. unfold artifact_rel_path. simpl. reflexivity. Qed.

Lemma make_json_safe_snoc items k v :
  ∃ payload,
    _make_json_safe (VDict items) = VDict payload
    ∧ _make_json_safe (VDict (items ++ [(k, v)]))
      = VDict (dict_set (KStr (py_str_key k)) (_make_json_safe v) payload).
Proof. simpl. eexists. split; [ reflexivity | ]. by rewrite foldl_snoc. Qed.

(** A checkpoint whose sidecar gets written, whatever happens to the
    archive. *)
Lemma create_checkpoint_written platform metadata io fs :
  io_mkdir_ok io = true → io_write_ok io = true →
  let id := _generate_deployment_id platform io in
  ∃ state payload fs2,
    create_checkpoint platform metadata io fs
    = (Some state,
       clean_old_deployments 5
         (write_sidecar id
            {| sc_mtime := io_mtime io; sc_body := JsonDoc (VDict payload) |}
            fs2))
    ∧ _make_json_safe (VDict state) = VDict payload
    ∧ sidecars (history_or_empty fs2) = sidecars (history_or_empty fs)
    ∧ project fs2 = project fs
    ∧ (io_snapshot io = SnapshotOk →
       artifacts (history_or_empty fs2)
       = Some (dir_write id (ZipArchive (snapshot_entries fs))
                 (default [] (artifacts (history_or_empty fs)))))
    ∧ (has_field "artifact_path" (default [] metadata) = false →
       dict_get (KStr "artifact_path") payload
       = match io_snapshot io with
         | SnapshotOk => VStr (artifact_rel_path id)
         | _ => VNone
         end).
Proof.
  intros Hmk Hwr id.
  unfold create_checkpoint, save_deployment_state. fold id.
  set (state0 := [ (KStr "id", VStr id);
                   (KStr "platform", VStr (str_lower platform));
                   (KStr "timestamp", VStr (io_iso io));
                   (KStr "git_commit", _get_current_git_commit io) ]).
  set (state := match metadata with
                | Some m => if py_truthy (VDict m) then dict_update state0 m
                            else state0
                | None => state0
                end).
  assert (Hstate : has_field "artifact_path" (default [] metadata) = false →
                   has_field "artifact_path" state = false).
  { intros Hmeta. unfold state. destruct metadata as [m | ]; [ | done ].
    destruct (py_truthy (VDict m)); [ | done ].
    by apply has_field_dict_update. }
  rewrite Hmk, Hwr. cbn [negb].
  unfold _create_project_snapshot.
  destruct (io_snapshot io) eqn:Hsnap.
  - rewrite artifact_rel_path_truthy.
    destruct (_make_json_safe
                (VDict (dict_set (KStr "artifact_path")
                          (VStr (artifact_rel_path id)) state)))
      as [ | | | | | payload | | | | ] eqn:Hpayload; try done.
    exists (dict_set (KStr "artifact_path") (VStr (artifact_rel_path id))
                     state), payload, 
      (write_archive id (ZipArchive (snapshot_entries (mkdir_history fs)))
         (mkdir_artifacts (mkdir_history fs))).
    split; [ done | split; [ done | ] ].
    split; [ by destruct fs as [tree [ [dir [zips | ]] | ]] | ].
    split; [ by destruct fs as [tree [ [dir [zips | ]] | ]] | ].
    split; [ intros _; by destruct fs as [tree [ [dir [zips | ]] | ]] | ].
    intros Hmeta. specialize (Hstate Hmeta).
    rewrite has_field_false_set in Hpayload by done.
    destruct (make_json_safe_snoc state (KStr "artifact_path")
                (VStr (artifact_rel_path id))) as (p0 & _ & Hp).
    rewrite Hp in Hpayload. injection Hpayload as <-.
    simpl. apply dict_get_dict_set.
  - destruct (_make_json_safe (VDict state))
      as [ | | | | | payload | | | | ] eqn:Hpayload; try done.
    exists state, payload, (mkdir_history fs).
    split; [ done | split; [ done | ] ].
    split; [ by destruct fs as [tree [ [dir [zips | ]] | ]] | ].
    split; [ by destruct fs as [tree [ [dir [zips | ]] | ]] | ].
    split; [ done | ].
    intros Hmeta. specialize (Hstate Hmeta).
    destruct (has_field_payload _ _ Hstate) as (p & Hp & Hfield).
    rewrite Hp in Hpayload. injection Hpayload as <-.
    by apply has_field_false_get.
  - destruct (_make_json_safe (VDict state))
      as [ | | | | | payload | | | | ] eqn:Hpayload; try done.
    exists state, payload, (mkdir_artifacts (mkdir_history fs)).
    split; [ done | split; [ done | ] ].
    split; [ by destruct fs as [tree [ [dir [zips | ]] | ]] | ].
    split; [ by destruct fs as [tree [ [dir [zips | ]] | ]] | ].
    split; [ done | ].
    intros Hmeta. specialize (Hstate Hmeta).
    destruct (has_field_payload _ _ Hstate) as (p & Hp & Hfield).
    rewrite Hp in Hpayload. injection Hpayload as <-.
    by apply has_field_false_get.
  - destruct (_make_json_safe (VDict state))
      as [ | | | | | payload | | | | ] eqn:Hpayload; try done.
    exists state, payload,
      (write_archive id
         (ZipArchive (take written (snapshot_entries (mkdir_history fs))))
         (mkdir_artifacts (mkdir_history fs))).
    split; [ done | split; [ done | ] ].
    split; [ by destruct fs as [tree [ [dir [zips | ]] | ]] | ].
    split; [ by destruct fs as [tree [ [dir [zips | ]] | ]] | ].
    split; [ done | ].
    intros Hmeta. specialize (Hstate Hmeta).
    destruct (has_field_payload _ _ Hstate) as (p & Hp & Hfield).
    rewrite Hp in Hpayload. injection Hpayload as <-.
    by apply has_field_false_get.
Qed.

(** The directory after the sidecar [id] was written, newer than all
    others, and the sweep has run: the new sidecar is the newest, and the
    archives left are those of the sidecars left. *)
Lemma history_after_checkpoint id (sc : sidecar) fs2 :
  NoDup (sidecars (history_or_empty fs2)).*1 →
  Forall (λ e, (sc_mtime e.2 < sc_mtime sc)%Z)
         (sidecars (history_or_empty fs2)) →
  ∃ (keep : list string) rest,
    id ∈ keep
    ∧ history (clean_old_deployments 5 (write_sidecar id sc fs2))
      = Some {| sidecars :=
                  filter (λ e, e.1 ∈ keep)
                         (dir_write id sc (sidecars (history_or_empty fs2)));
                artifacts :=
                  filter (λ e, e.1 ∈ keep)
                    <$> artifacts (history_or_empty fs2) |}
    ∧ sorted_by_mtime_desc
        (filter (λ e, e.1 ∈ keep)
                (dir_write id sc (sidecars (history_or_empty fs2))))
      = (id, sc) :: rest
    ∧ length ((id, sc) :: rest) ≤ 5.
Proof.
  intros Hnd Hold.
  set (S0 := sidecars (history_or_empty fs2)) in *.
  set (S1 := dir_write id sc S0).
  assert (Hnd1 : NoDup S1.*1) by by apply dir_write_NoDup.
  destruct (sorted_by_mtime_desc_head S1 id sc) as (rest & Hsorted).
  { apply dir_write_elem. }
  { intros e He Hn. by apply (dir_write_named id sc S0). }
  { intros e He Hn. apply dir_write_other in He; [ | done ].
    rewrite Forall_forall in Hold. by apply Hold. }
  exists (take 5 (sorted_by_mtime_desc S1)).*1, (take 4 rest).
  split; [ rewrite Hsorted; simpl; left | ].
  split; [ | split ].
  - rewrite (clean_old_deployments_spec 5 _
               {| sidecars := S1;
                  artifacts := artifacts (history_or_empty fs2) |});
      [ done | done | done | done ].
  - rewrite sorted_kept by done. by rewrite Hsorted.
  - simpl. rewrite length_take. lia.
Qed.

End written_checkpoints.

Section store.
Import Rollback History.
Context {str_ops : PyStr}.

(** The payload of a checkpoint just written is what
    [get_previous_deployment] reads back. *)
Lemma previous_after_create platform metadata io fs :
  NoDup (sidecar_stems fs) →
  Forall (λ e, (sc_mtime e.2 < io_mtime io)%Z)
         (sidecars (history_or_empty fs)) →
  io_mkdir_ok io = true →
  io_write_ok io = true →
  ∃ state,
    (create_checkpoint platform metadata io fs).1 = Some state
    ∧ get_previous_deployment (create_checkpoint platform metadata io fs).2
      = _make_json_safe (VDict state).
Proof.
  intros Hnd Hold Hmk Hwr.
  destruct (create_checkpoint_written platform metadata io fs Hmk Hwr)
    as (state & payload & fs2 & Hcreate & Hpayload & Hsc & _).
  exists state. rewrite Hcreate. split; [ done | ]. cbn [snd].
  unfold sidecar_stems in Hnd. rewrite <- Hsc in Hnd, Hold.
  destruct (history_after_checkpoint
              (_generate_deployment_id platform io)
              {| sc_mtime := io_mtime io; sc_body := JsonDoc (VDict payload) |}
              fs2 Hnd Hold) as (keep & rest & _ & Hh & Hsorted & _).
  unfold get_previous_deployment. rewrite Hh. cbn [sidecars].
  rewrite Hsorted. by rewrite Hpayload.
Qed.

(** X2. A checkpoint whose sidecar is written, whether or not the archive
    was, newer than every sidecar already in a history directory with
    distinct names, is the previous deployment: [get_previous_deployment]
    returns the JSON-safe form of the very state [create_checkpoint]
    returned, also when a record of the same id was there before. This
    is for a deployment id that is a file name (a platform name with a
    path separator sends the sidecar elsewhere) and for metadata that a
    JSON file gives back as it is (no NaN but the default one). *)
Theorem checkpoint_becomes_previous platform metadata io fs :
  file_name_id (_generate_deployment_id platform io) = true →
  json_stable (VDict (default [] metadata)) = true →
  NoDup (sidecar_stems fs) →
  Forall (λ e, (sc_mtime e.2 < io_mtime io)%Z)
         (sidecars (history_or_empty fs)) →
  io_mkdir_ok io = true →
  io_write_ok io = true →
  ∃ state,
    (create_checkpoint platform metadata io fs).1 = Some state
    ∧ get_previous_deployment (create_checkpoint platform metadata io fs).2
      = _make_json_safe (VDict state).
Proof. intros _ _. apply previous_after_create. Qed.

(** The contents of the history directory after a checkpoint. *)
Lemma checkpoint_history_bounds platform metadata io fs :
  NoDup (sidecar_stems fs) →
  io_mkdir_ok io = true →
  io_write_ok io = true →
  let fs' := (create_checkpoint platform metadata io fs).2 in
  length (sidecar_stems fs') ≤ 5
  ∧ NoDup (sidecar_stems fs')
  ∧ (∀ stem, stem ∈ sidecar_stems fs' →
             stem ∈ sidecar_stems fs
             ∨ stem = _generate_deployment_id platform io)
  ∧ (∀ stem, stem ∈ archive_stems fs' → stem ∈ sidecar_stems fs').
Proof.
  intros Hnd Hmk Hwr fs'. subst fs'.
  destruct (create_checkpoint_written platform metadata io fs Hmk Hwr)
    as (state & payload & fs2 & Hcreate & Hpayload & Hsc & _).
  rewrite Hcreate. cbn [snd].
  set (id := _generate_deployment_id platform io).
  set (sc := {| sc_mtime := io_mtime io; sc_body := JsonDoc (VDict payload) |}).
  assert (Hstems : sidecar_stems (write_sidecar id sc fs2)
                   = (dir_write id sc (sidecars (history_or_empty fs))).*1).
  { unfold sidecar_stems, write_sidecar, history_or_empty in *. simpl.
    by rewrite Hsc. }
  assert (Hnd2 : NoDup (sidecar_stems (write_sidecar id sc fs2))).
  { rewrite Hstems. by apply dir_write_NoDup. }
  destruct (clean_old_deployments_general 5 _ ltac:(done) Hnd2)
    as (Hsub & Hlen & _ & Harch & _).
  split; [ | split; [ | split; [ | done ] ] ].
  - unfold sidecar_stems at 1. rewrite length_fmap, Hlen. lia.
  - eapply sublist_NoDup; [ exact Hnd2 | ].
    unfold sidecar_stems. by apply fmap_sublist.
  - intros stem Hstem.
    assert (Hin : stem ∈ sidecar_stems (write_sidecar id sc fs2)).
    { eapply sublist_subseteq; [ | exact Hstem ].
      unfold sidecar_stems. by apply fmap_sublist. }
    rewrite Hstems, dir_write_names in Hin.
    case_bool_decide; [ by left | ].
    apply elem_of_app in Hin as [Hin | ->%list_elem_of_singleton];
      [ by left | by right ].
Qed.

(** X4. After any checkpoint whose sidecar is written, in a history
    directory with distinct sidecar names (listed in any order, of any
    age, with any archives): at most five sidecars are left, their names
    are distinct, each was there before or is the new one, and every
    archive left has a sidecar of its name. *)
Theorem create_checkpoint_bounds_history platform metadata io fs :
  NoDup (sidecar_stems fs) →
  io_mkdir_ok io = true →
  io_write_ok io = true →
  let fs' := (create_checkpoint platform metadata io fs).2 in
  length (sidecar_stems fs') ≤ 5
  ∧ NoDup (sidecar_stems fs')
  ∧ (∀ stem, stem ∈ sidecar_stems fs' →
             stem ∈ sidecar_stems fs
             ∨ stem = _generate_deployment_id platform io)
  ∧ (∀ stem, stem ∈ archive_stems fs' → stem ∈ sidecar_stems fs').
Proof. apply checkpoint_history_bounds. Qed.

Lemma lookup_artifact_after_checkpoint id zip (keep : list string)
    (dir : list (string * sidecar)) (zips : list (string * archive)) tree :
  id ∈ keep →
  lookup_artifact
    {| project := tree;
       history := Some {| sidecars := dir;
                          artifacts :=
                            Some (filter (λ e, e.1 ∈ keep)
                                         (dir_write id zip zips)) |} |}
    (artifact_rel_path id)
  = Some zip.
Proof.
  intros Hkeep. unfold lookup_artifact. simpl.
  set (kept := filter (λ e, e.1 ∈ keep) (dir_write id zip zips)).
  assert (Hin : (id, zip) ∈ kept).
  { apply list_elem_of_filter. split; [ done | apply dir_write_elem ]. }
  destruct (list_find_elem_of
              (λ z, artifact_rel_path z.1 = artifact_rel_path id)
              kept (id, zip) Hin eq_refl) as [[i z] Hfind].
  rewrite Hfind. simpl.
  apply list_find_Some in Hfind as (Hz & Hp & _).
  apply artifact_rel_path_inj in Hp.
  apply list_elem_of_lookup_2 in Hz.
  apply list_elem_of_filter in Hz as [_ Hz].
  by rewrite (dir_write_named _ _ _ _ Hz Hp).
Qed.


Lemma lookup_artifact_found fs rel a :
  lookup_artifact fs rel = Some a →
  ∃ stem, rel = artifact_rel_path stem ∧ stem ∈ archive_stems fs.
Proof.
  unfold lookup_artifact, archive_stems, history_or_empty.
  destruct (history fs) as [ [dir [zips | ]] | ]; simpl; try done.
  destruct (list_find _ zips) as [[i z] | ] eqn:Hfind; simpl; [ | done ].
  intros _. apply list_find_Some in Hfind as (Hz & Hrel & _).
  exists z.1. split; [ done | ].
  apply list_elem_of_fmap. exists z. split; [ done | ].
  by apply list_elem_of_lookup_2 in Hz.
Qed.

(** What [rollback_to_previous] does when the newest record names an
    archive that is there. *)
Lemma rollback_from_archive extract_stops fs a :
  previous_archive fs = Some a →
  rollback_to_previous None extract_stops fs
  = match a with
    | BrokenZip => (false, fs)
    | ZipArchive entries =>
        match extraction_stops extract_stops entries (project fs) with
        | None => (true, extractall entries fs)
        | Some n => (false, extractall (take n entries) fs)
        end
    end.
Proof.
  unfold previous_archive, rollback_to_previous.
  destruct (get_previous_deployment fs)
    as [ | | | | | items | | | | ]; try done.
  destruct (dict_get (KStr "artifact_path") items)
    as [ | | | | rel | | | | | ] eqn:Hget; try done.
  intros Hzip.
  assert (Hitems : py_truthy (VDict items) = true).
  { destruct items; [ discriminate | done ]. }
  rewrite Hitems. cbn [negb]. unfold _restore_snapshot. rewrite Hget.
  destruct (lookup_artifact_found _ _ _ Hzip) as (stem & -> & _).
  rewrite artifact_rel_path_truthy. cbn [negb]. rewrite Hzip.
  destruct a as [entries | ]; [ | done ].
  by destruct (extraction_stops extract_stops entries (project fs)).
Qed.

(** The archive of a checkpoint that was written in full is the one a
    later rollback restores from, whatever the project tree has become. *)
Lemma archive_after_create (platform : string)
    (metadata : option pydict) (io : ckpt_io) (fs : FS)
    (tree' : gmap path string) :
  NoDup (sidecar_stems fs) →
  Forall (λ e, (sc_mtime e.2 < io_mtime io)%Z)
         (sidecars (history_or_empty fs)) →
  io_mkdir_ok io = true →
  io_write_ok io = true →
  io_snapshot io = SnapshotOk →
  has_field "artifact_path" (default [] metadata) = false →
  let saved := (create_checkpoint platform metadata io fs).2 in
  previous_archive {| project := tree'; history := history saved |}
  = Some (ZipArchive (snapshot_entries fs)).
Proof.
  intros Hnd Hold Hmk Hwr Hsnap Hmeta saved.
  set (later := {| project := tree'; history := history saved |}).
  destruct (create_checkpoint_written platform metadata io fs Hmk Hwr)
    as (state & payload & fs2 & Hcreate & Hpayload & Hsc & _ & Harch & Hget).
  specialize (Harch Hsnap). specialize (Hget Hmeta). rewrite Hsnap in Hget.
  set (id := _generate_deployment_id platform io) in *.
  set (sc := {| sc_mtime := io_mtime io; sc_body := JsonDoc (VDict payload) |})
    in *.
  unfold sidecar_stems in Hnd. rewrite <- Hsc in Hnd, Hold.
  destruct (history_after_checkpoint id sc fs2 Hnd Hold)
    as (keep & rest & Hkeep & Hh & Hsorted & _).
  assert (Hsaved : history saved = history
            (clean_old_deployments 5 (write_sidecar id sc fs2))).
  { unfold saved. by rewrite Hcreate. }
  rewrite Hh, Harch in Hsaved. simpl in Hsaved.
  assert (Hprev : get_previous_deployment later = VDict payload).
  { unfold get_previous_deployment, later. cbn [history]. rewrite Hsaved.
    cbn [sidecars]. by rewrite Hsorted. }
  unfold previous_archive. rewrite Hprev, Hget.
  unfold later. rewrite Hsaved.
  by apply lookup_artifact_after_checkpoint.
Qed.

(** Create, edit, restore: the statement on which the round trip of the
    store and the recovery of [Deployer.rollback] both rest. *)
Lemma restore_after_create (platform : string)
    (metadata : option pydict) (io : ckpt_io) (fs : FS)
    (tree' : gmap path string) :
  NoDup (sidecar_stems fs) →
  Forall (λ e, (sc_mtime e.2 < io_mtime io)%Z)
         (sidecars (history_or_empty fs)) →
  io_mkdir_ok io = true →
  io_write_ok io = true →
  io_snapshot io = SnapshotOk →
  has_field "artifact_path" (default [] metadata) = false →
  first_blocked (snapshot_entries fs) tree' = None →
  let saved := (create_checkpoint platform metadata io fs).2 in
  let later := {| project := tree'; history := history saved |} in
  ∃ restored,
    rollback_to_previous None None later = (true, restored)
    ∧ (∀ p c, project fs !! p = Some c → snapshot_includes p = true →
              project restored !! p = Some c)
    ∧ (∀ p, project fs !! p = None ∨ snapshot_includes p = false →
            project restored !! p = tree' !! p)
    ∧ history restored = history saved.
Proof.
  intros Hnd Hold Hmk Hwr Hsnap Hmeta Hfits saved later.
  pose proof (archive_after_create platform metadata io fs tree'
                Hnd Hold Hmk Hwr Hsnap Hmeta) as Harchive.
  cbn zeta in Harchive. fold saved in Harchive. fold later in Harchive.
  exists (extractall (snapshot_entries fs) later).
  split; [ | split; [ | split ] ].
  - rewrite (rollback_from_archive None later _ Harchive).
    unfold extraction_stops. change (project later) with tree'.
    by rewrite Hfits.
  - intros p c Hp Hinc. apply extractall_lookup_in.
    + apply snapshot_entries_NoDup.
    + by apply elem_of_snapshot_entries.
  - intros p Hp. rewrite extractall_lookup_out; [ done | ].
    intros ([q c] & -> & Hin)%list_elem_of_fmap.
    apply elem_of_snapshot_entries in Hin as [Hinc Hq]. simpl in Hp.
    destruct Hp as [Hp | Hp]; congruence.
  - done.
Qed.

(** X1. Round trip of a checkpoint. In a history directory with distinct
    sidecar names, take a checkpoint under an id that is a file name,
    whose archive and sidecar are both written, newer than every sidecar
    already there, with metadata that brings no [artifact_path] of its
    own. Let the project tree become [tree'] afterwards, any tree into
    which the archive can be extracted: no file of it is where an
    archived file needs a directory, and no directory where an archived
    file goes. Then [rollback_to_previous] without a callback, when
    nothing else stops the extraction, returns [True]; every file that
    was archived (in the tree when the checkpoint was taken, under no
    excluded directory, not a compiled file) has the content of that
    time again; every other path is as the later tree has it; the
    history is untouched. *)
Theorem checkpoint_restore_round_trip (platform : string)
    (metadata : option pydict) (io : ckpt_io) (fs : FS)
    (tree' : gmap path string) :
  file_name_id (_generate_deployment_id platform io) = true →
  NoDup (sidecar_stems fs) →
  Forall (λ e, (sc_mtime e.2 < io_mtime io)%Z)
         (sidecars (history_or_empty fs)) →
  io_mkdir_ok io = true →
  io_write_ok io = true →
  io_snapshot io = SnapshotOk →
  has_field "artifact_path" (default [] metadata) = false →
  first_blocked (snapshot_entries fs) tree' = None →
  let saved := (create_checkpoint platform metadata io fs).2 in
  let later := {| project := tree'; history := history saved |} in
  ∃ restored,
    rollback_to_previous None None later = (true, restored)
    ∧ (∀ p c, project fs !! p = Some c → snapshot_includes p = true →
              project restored !! p = Some c)
    ∧ (∀ p, project fs !! p = None ∨ snapshot_includes p = false →
            project restored !! p = tree' !! p)
    ∧ history restored = history saved.
Proof. intros _. apply restore_after_create. Qed.





End store.

(** ** What the configuration validator accepts *)

Section validator.
Import Validator.
Context {str_ops : PyStr}.

Lemma dict_get_mem k d : dict_get k d ≠ VNone → dict_mem k d = true.
Proof.
  induction d as [ | [k' v'] d IH ]; simpl; [ done | ].
  destruct (key_eqb k' k); [ done | ]. simpl. exact IH.
Qed.

Lemma validate_platform_list_raises xs errors e :
  validate_platform_list xs errors = Raise e
  ↔ e = AttributeError ∧ Exists (λ x, ∀ p, x ≠ VStr p) xs.
Proof.
  revert errors. induction xs as [ | x xs IH ]; intros errors; simpl.
  - split; [ done | ]. by intros [_ H%Exists_nil].
  - destruct x as [ | | | | p | | | | | ];
      try (split; [ intros [= <-]; split; [ done | by left ] | by intros [-> _] ]).
    rewrite IH, Exists_cons. split.
    + intros [-> H]. split; [ done | by right ].
    + intros [-> [H | H]]; [ by destruct (H p) | done ].
Qed.

Lemma validate_platform_list_returns xs errors out :
  validate_platform_list xs errors = Ok out →
  ∃ extra, out = errors ++ extra
           ∧ (extra = [] ↔
              Forall (λ x, ∃ p, x = VStr p ∧ str_lower p ∈ VALID_PLATFORMS) xs).
Proof.
  revert errors. induction xs as [ | x xs IH ]; intros errors; simpl.
  - intros [= <-]. exists []. by rewrite app_nil_r.
  - destruct x as [ | | | | p | | | | | ]; try done.
    intros (extra & -> & Hextra)%IH. case_bool_decide as Hp.
    + exists extra. split; [ done | ]. rewrite Hextra, Forall_cons.
      split; [ | tauto ]. intros H. split; [ by exists p | done ].
    + rewrite <- app_assoc. eexists. split; [ done | ].
      split; [ done | ]. intros [(p' & [= <-] & Hin) _]%Forall_cons. done.
Qed.

(** X11. On a configuration as a JSON file gives it ([None], booleans,
    numbers, strings, lists, and dictionaries with string keys),
    [ConfigValidator.validate] raises exactly when the configuration is a
    dictionary whose [platform] is a list with an element that is not a
    string, and what it raises then is [AttributeError]; on every other
    such input it returns. (Of these values only a string has a [lower]
    method; a [bytes] object, which a YAML file can give, has one too.) *)
Theorem validate_raises_only_on_platform_list (config : pyval) (e : exn) :
  json_safe config = true →
  validate config = Raise e
  ↔ e = AttributeError
    ∧ ∃ items xs,
        config = VDict items
        ∧ dict_get (KStr "platform") items = VList xs
        ∧ Exists (λ x, ∀ p, x ≠ VStr p) xs.
Proof.
  intros _. unfold validate. split.
  - destruct config as [ | | | | | items | | | | ]; try done.
    destruct (dict_mem (KStr "platform") items) eqn:Hmem; [ | done ].
    destruct (dict_get (KStr "platform") items)
      as [ | | | | p | | xs | | | ] eqn:Hget; try done.
    destruct (validate_platform_list xs _) as [out | e'] eqn:Hlist;
      [ done | ].
    intros [= <-]. apply validate_platform_list_raises in Hlist as [-> Hxs].
    split; [ done | ]. by exists items, xs.
  - intros (-> & items & xs & -> & Hget & Hxs).
    rewrite dict_get_mem by (by rewrite Hget). rewrite Hget.
    destruct (validate_platform_list xs _) as [out | e'] eqn:Hlist.
    + exfalso.
      assert (Hr : validate_platform_list xs
                (foldl (λ errors key,
                   if dict_mem (KStr key) items then errors
                   else errors ++
                        ["Missing required configuration key: " +:+ key])
                 [] REQUIRED_KEYS) = Raise AttributeError)
        by by apply validate_platform_list_raises.
      congruence.
    + by apply validate_platform_list_raises in Hlist as [-> _].
Qed.

Ltac validate_rejects :=
  first
    [ by intros [= ? ?]
    | let Hlen := fresh "Hlen" in
      intros [= Hlen <-]; apply bool_decide_eq_true in Hlen;
      rewrite ?length_app in Hlen; simpl in Hlen; lia ].

(** What an accepted configuration looks like: the failing branches of
    [validate] all append an error, and the result is [True] only when no
    error was appended. *)
Lemma validate_accepted (config : pyval) (errors : list string) :
  validate config = Ok (true, errors) →
  errors = []
  ∧ ∃ items app_name,
      config = VDict items
      ∧ ((∃ p, dict_get (KStr "platform") items = VStr p
               ∧ str_lower p ∈ VALID_PLATFORMS)
         ∨ (∃ xs, dict_get (KStr "platform") items = VList xs
                  ∧ Forall (λ x, ∃ p, x = VStr p
                                      ∧ str_lower p ∈ VALID_PLATFORMS) xs))
      ∧ dict_get (KStr "app_name") items = VStr app_name
      ∧ str_strip app_name ≠ "".
Proof.
  unfold validate.
  destruct config as [ | | | | | items | | | | ]; try done.
  unfold REQUIRED_KEYS. cbn [foldl].
  destruct (dict_mem (KStr "platform") items) eqn:Hmp;
    [ destruct (dict_get (KStr "platform") items)
        as [ | | | | p | | xs | | | ] eqn:Hgp | ];
  (destruct (dict_mem (KStr "app_name") items) eqn:Hma;
   [ destruct (dict_get (KStr "app_name") items)
       as [ | | | | app_name | | | | | ] eqn:Hga | ]);
  cbn [app];
  try (destruct (bool_decide (str_lower p ∈ VALID_PLATFORMS)) eqn:Hp);
  try (destruct (validate_platform_list xs _) as [out | ] eqn:Hl;
       [ apply validate_platform_list_returns in Hl as (extra & -> & Hx)
       | by intros ]);
  try (destruct (py_truthy (VStr (str_strip app_name))) eqn:Hstrip);
  try validate_rejects.
  - intros [= <-]. split; [ done | ]. exists items, app_name.
    split; [ done | ]. split; [ | split; [ done | ] ].
    + left. exists p. split; [ done | by apply bool_decide_eq_true in Hp ].
    + simpl in Hstrip. by apply negb_true_iff, bool_decide_eq_false in Hstrip.
  - intros [= Hlen <-]. apply bool_decide_eq_true in Hlen.
    destruct extra; [ | done ].
    split; [ done | ]. exists items, app_name.
    split; [ done | ]. split; [ | split; [ done | ] ].
    + right. exists xs. split; [ done | by apply Hx ].
    + simpl in Hstrip. by apply negb_true_iff, bool_decide_eq_false in Hstrip.
Qed.

(** X10. [ConfigValidator.validate] accepts exactly the dictionaries whose
    [platform] is a string that names a valid platform when lower-cased,
    or a list of such strings (the empty list included), and whose
    [app_name] is a string that is not blank; it then reports no
    error. *)
Theorem validate_accepts_iff (config : pyval) (errors : list string) :
  validate config = Ok (true, errors)
  ↔ errors = []
    ∧ ∃ items app_name,
        config = VDict items
        ∧ ((∃ p, dict_get (KStr "platform") items = VStr p
                 ∧ str_lower p ∈ VALID_PLATFORMS)
           ∨ (∃ xs, dict_get (KStr "platform") items = VList xs
                    ∧ Forall (λ x, ∃ p, x = VStr p
                                        ∧ str_lower p ∈ VALID_PLATFORMS) xs))
        ∧ dict_get (KStr "app_name") items = VStr app_name
        ∧ str_strip app_name ≠ "".
Proof.
  split; [ apply validate_accepted | ].
  intros (-> & items & app_name & -> & Hplatform & Happ & Hstrip).
  unfold validate, REQUIRED_KEYS. cbn [foldl].
  rewrite (dict_get_mem (KStr "app_name")) by (by rewrite Happ).
  rewrite Happ. cbn [py_truthy].
  rewrite (bool_decide_eq_false_2 _ Hstrip). cbn [negb].
  destruct Hplatform as [(p & Hgp & Hp) | (xs & Hgp & Hxs)].
  - rewrite (dict_get_mem (KStr "platform")) by (by rewrite Hgp).
    rewrite Hgp. by rewrite (bool_decide_eq_true_2 _ Hp).
  - rewrite (dict_get_mem (KStr "platform")) by (by rewrite Hgp).
    rewrite Hgp.
    destruct (validate_platform_list xs []) as [out | e] eqn:Hl.
    + apply validate_platform_list_returns in Hl as (extra & -> & Hx).
      apply Hx in Hxs as ->. done.
    + apply validate_platform_list_raises in Hl as [_ Hl].
      apply Exists_exists in Hl as (x & Hin & Hx).
      rewrite Forall_forall in Hxs.
      destruct (Hxs x Hin) as (p & -> & _). by destruct (Hx p).
Qed.

End validator.

(** ** The pipeline of [deploy] *)

Section pipeline.
Import Main.
Context {str_ops : PyStr} {caps : Capabilities}.

(** X13. [deploy] is a linear pipeline. The calls of one run are a prefix
    of: entry, system check, configuration validation, platform
    validation, migration (when asked for), platform deploy, checkpoint.
    [deploy] returns [True] exactly when the run reaches the end of that
    sequence. A run that does not return [True] leaves the project
    directory and its history as they were, and no run changes the
    configuration. *)
Theorem deploy_linear_pipeline (platform : string) (run_migrations : bool)
    (d : Deployer) :
  let outcome := deploy platform run_migrations d in
  let key := str_lower platform in
  let pipeline :=
    [EvDeploy platform run_migrations; EvSystemCheck; EvConfigValidate;
     EvPlatformValidate key]
    ++ (if run_migrations then [EvMigrate] else [])
    ++ [EvPlatformDeploy key; EvCreateCheckpoint platform] in
  ∃ calls,
    trace outcome.2 = trace d ++ calls
    ∧ calls `prefix_of` pipeline
    ∧ (outcome.1 = Ok true ↔ calls = pipeline)
    ∧ (outcome.1 ≠ Ok true → rollback_manager outcome.2 = rollback_manager d)
    ∧ config outcome.2 = config d.
Proof.
  intros outcome key pipeline. subst outcome pipeline key.
  run_monad. simpl.
  destruct run_migrations;
    repeat (case_match; simplify_eq/=);
    (eexists; split;
     [ rewrite <- ?app_assoc; simpl; reflexivity
     | split; [ eexists; simpl; reflexivity
              | split; [ split; intros; (done || discriminate)
                       | split; [ intros; done | reflexivity ] ] ] ]).
Qed.

End pipeline.

Section deploy_checkpoint.
Import Main Rollback History.
Context {str_ops : PyStr} {caps : Capabilities}.

(** What a successful [deploy] leaves: the checkpoint it created, with the
    metadata of the state [d2] in which it was created. *)
Lemma deploy_true_checkpoint platform run_migrations d d' :
  deploy platform run_migrations d = (Ok true, d') →
  ∃ d2,
    config d2 = config d
    ∧ rollback_manager d2 = rollback_manager d
    ∧ str_lower platform ∈ AVAILABLE_DEPLOYERS
    ∧ str_lower platform ∈ deployers d'
    ∧ deployers d' = deployers d2
    ∧ checkers d' = checkers d2
    ∧ rollback_manager d'
      = (create_checkpoint platform
           (Some (checkpoint_metadata run_migrations d2))
           (checkpoint_io d2) (rollback_manager d2)).2.
Proof.
  run_monad. simpl. intros Hd.
  destruct run_migrations;
    repeat (case_match; simplify_eq/=);
    match goal with
    | Hc : create_checkpoint _ (Some (checkpoint_metadata _ ?D)) _ _ = _
      |- _ => exists D; simpl; rewrite Hc; simpl
    end;
    (split; [ reflexivity | ]; split; [ reflexivity | ];
     split;
     [ match goal with
       | Hin : negb (bool_decide (_ ∈ AVAILABLE_DEPLOYERS)) = false |- _ =>
           by apply negb_false_iff, bool_decide_eq_true in Hin
       end | ];
     split; [ | split; [ reflexivity | split; reflexivity ] ]);
    match goal with
    | Hin : bool_decide (_ ∈ _) = true |- _ =>
        by apply bool_decide_eq_true in Hin
    | _ => apply key_add_elem
    end.
Qed.

(** The previous deployment after a successful [deploy]. *)
Lemma deploy_previous_payload (platform : string)
    (run_migrations : bool) (d d' : Deployer) :
  deploy platform run_migrations d = (Ok true, d') →
  NoDup (sidecar_stems (rollback_manager d)) →
  (∀ s, io_mkdir_ok (checkpoint_io s) = true
        ∧ io_write_ok (checkpoint_io s) = true
        ∧ Forall (λ e, (sc_mtime e.2 < io_mtime (checkpoint_io s))%Z)
                 (sidecars (history_or_empty (rollback_manager d)))) →
  ∃ payload,
    get_previous_deployment (rollback_manager d') = VDict payload
    ∧ dict_get (KStr "platform") payload = VStr (str_lower platform)
    ∧ dict_get (KStr "run_migrations") payload = VBool run_migrations
    ∧ dict_get (KStr "config_snapshot") payload = _make_json_safe (config d)
    ∧ dict_get (KStr "checked_frameworks") payload
      = VList (VStr <$> checkers d').
Proof.
  intros Hdeploy Hnd Hio.
  destruct (deploy_true_checkpoint _ _ _ _ Hdeploy)
    as (d2 & Hcfg & Hfs & _ & _ & _ & Hck & Hrm).
  destruct (Hio d2) as (Hmk & Hwr & Hold).
  rewrite <- Hfs in Hnd, Hold.
  destruct (previous_after_create platform
              (Some (checkpoint_metadata run_migrations d2))
              (checkpoint_io d2) (rollback_manager d2) Hnd Hold Hmk Hwr)
    as (state & Hstate & Hprev).
  rewrite Hrm, Hprev.
  unfold create_checkpoint, save_deployment_state, _create_project_snapshot
    in Hstate.
  rewrite Hmk, Hwr in Hstate. simpl in Hstate.
  assert (Hlist : ∀ names : list string,
            map _make_json_safe (VStr <$> names) = VStr <$> names).
  { intros names. induction names as [ | n names IH ]; [ done | ].
    simpl. f_equal. exact IH. }
  destruct (io_snapshot (checkpoint_io d2)); simpl in Hstate;
    injection Hstate as <-;
    (eexists; split; [ reflexivity | ]);
    rewrite <- Hcfg, Hck; simpl; rewrite Hlist; repeat split; reflexivity.
Qed.


End deploy_checkpoint.

(** ** [Deployer.rollback] *)

Section recovery.
Import Main Recovery.
Context {str_ops : PyStr} {caps : Capabilities}.

(** Seen from the project directory, the rollback of the [Deployer] is
    [Rollback.rollback_to_previous] with the closure as callback. *)
Lemma rollback_to_previous_with_agrees (cb : pyval → M bool)
    (extract_stops : option nat) (d : Deployer) :
  let outcome := rollback_to_previous_with cb extract_stops d in
  let reference :=
    Rollback.rollback_to_previous (Some (as_callback cb d)) extract_stops
      (rollback_manager d) in
  outcome.1 = Ok reference.1 ∧ rollback_manager outcome.2 = reference.2.
Proof.
  unfold rollback_to_previous_with, Rollback.rollback_to_previous,
    as_callback.
  destruct (py_truthy (Rollback.get_previous_deployment (rollback_manager d)));
    cbn [negb]; [ | done ].
  destruct (Rollback._restore_snapshot _ extract_stops (rollback_manager d))
    as [[[] | e] fs1]; try done.
  destruct (cb _ (with_project_directory fs1 d)) as [[[] | e] d2]; done.
Qed.

(** X15. [Deployer.rollback] raises nothing; it returns [True] only if the
    restore of the snapshot succeeds; when the restore does not succeed
    nothing but the project directory has changed (no deployer was
    created or called); and it never changes the configuration. *)
Theorem rollback_redeploys_only_after_restore (extract_stops : option nat)
    (d : Deployer) :
  let restore :=
    Rollback.rollback_to_previous None extract_stops (rollback_manager d) in
  ∃ b,
    (rollback extract_stops d).1 = Ok b
    ∧ (b = true → restore.1 = true)
    ∧ (restore.1 = false →
       (rollback extract_stops d).2 = with_project_directory restore.2 d)
    ∧ config (rollback extract_stops d).2 = config d.
Proof.
  unfold rollback, rollback_to_previous_with, Rollback.rollback_to_previous.
  destruct (py_truthy (Rollback.get_previous_deployment (rollback_manager d)));
    cbn [negb].
  2:{ exists false. destruct d. done. }
  destruct (Rollback._restore_snapshot _ extract_stops (rollback_manager d))
    as [[[] | e] fs1]; try (by exists false).
  set (previous := Rollback.get_previous_deployment (rollback_manager d)).
  assert (Hcfg : config (_redeploy_previous previous
                           (with_project_directory fs1 d)).2 = config d).
  { unfold _redeploy_previous, deployer_rollback, initialize_deployer,
      emit, set_deployer, gets, modify, lift, mbind, mret, M_bind, M_ret.
    repeat (case_match; simplify_eq/=); done. }
  destruct (_redeploy_previous previous (with_project_directory fs1 d))
    as [[[] | e] d2]; simpl in *.
  - by exists true.
  - by exists false.
  - by exists false.
Qed.

Lemma rollback_after_restore (extract_stops : option nat) (d : Deployer)
    fs1 :
  Rollback.rollback_to_previous None extract_stops (rollback_manager d)
  = (true, fs1) →
  rollback extract_stops d
  = match _redeploy_previous
            (Rollback.get_previous_deployment (rollback_manager d))
            (with_project_directory fs1 d) with
    | (Ok true, d2) => (Ok true, d2)
    | (_, d2) => (Ok false, d2)
    end.
Proof.
  unfold rollback, rollback_to_previous_with, Rollback.rollback_to_previous.
  destruct (py_truthy (Rollback.get_previous_deployment (rollback_manager d)));
    cbn [negb]; [ | done ].
  destruct (Rollback._restore_snapshot _ extract_stops (rollback_manager d))
    as [[[] | e] fs0]; try done.
  intros [= ->].
  by destruct (_redeploy_previous _ (with_project_directory fs1 d))
    as [[[] | e] d2].
Qed.

(** Where [Deployer.rollback] redeploys once the files are restored. *)
Lemma rollback_recorded_platform (extract_stops : option nat)
    (d : Deployer) fs1 items (p : string) :
  Rollback.rollback_to_previous None extract_stops (rollback_manager d)
  = (true, fs1) →
  Rollback.get_previous_deployment (rollback_manager d) = VDict items →
  dict_get (KStr "platform") items = VStr p →
  p ≠ "" →
  let key := str_lower p in
  let d1 := with_project_directory fs1 d in
  rollback extract_stops d
  = if bool_decide (key ∈ deployers d)
    then (Ok (platform_deploy key (at_call d1 [EvPlatformDeploy key])),
          at_call d1 [EvPlatformDeploy key])
    else if bool_decide (str_lower key ∈ AVAILABLE_DEPLOYERS)
    then
      let d2 := (set_deployer (str_lower key) d1).2 in
      (Ok (platform_deploy (str_lower key)
             (at_call d2 [EvPlatformDeploy (str_lower key)])),
       at_call d2 [EvPlatformDeploy (str_lower key)])
    else (Ok false, d1).
Proof.
  intros Hrestore Hprev Hplatform Hp key d1.
  rewrite (rollback_after_restore _ _ _ Hrestore), Hprev.
  unfold _redeploy_previous. rewrite Hplatform. simpl.
  rewrite (bool_decide_eq_false_2 _ Hp). simpl.
  unfold deployer_rollback, initialize_deployer, emit, set_deployer, gets,
    modify, lift, mbind, mret, M_bind, M_ret.
  simpl. fold key.
  destruct (bool_decide (key ∈ deployers d)); simpl.
  - by destruct (platform_deploy key _).
  - destruct (bool_decide (str_lower key ∈ AVAILABLE_DEPLOYERS)); simpl;
      [ | done ].
    by destruct (platform_deploy (str_lower key) _).
Qed.

(** X16. After a successful restore [Deployer.rollback] redeploys to the
    platform recorded in the restored state. When a deployer is
    registered under the lower-cased name, its [deploy()] is called and
    its answer returned; otherwise the deployer is created when the name,
    lower-cased once more, is a registered platform; otherwise the result
    is [False] and nothing is called. *)
Theorem rollback_redeploys_recorded_platform (extract_stops : option nat)
    (d : Deployer) fs1 items (p : string) :
  Rollback.rollback_to_previous None extract_stops (rollback_manager d)
  = (true, fs1) →
  Rollback.get_previous_deployment (rollback_manager d) = VDict items →
  dict_get (KStr "platform") items = VStr p →
  p ≠ "" →
  let key := str_lower p in
  let d1 := with_project_directory fs1 d in
  rollback extract_stops d
  = if bool_decide (key ∈ deployers d)
    then (Ok (platform_deploy key (at_call d1 [EvPlatformDeploy key])),
          at_call d1 [EvPlatformDeploy key])
    else if bool_decide (str_lower key ∈ AVAILABLE_DEPLOYERS)
    then
      let d2 := (set_deployer (str_lower key) d1).2 in
      (Ok (platform_deploy (str_lower key)
             (at_call d2 [EvPlatformDeploy (str_lower key)])),
       at_call d2 [EvPlatformDeploy (str_lower key)])
    else (Ok false, d1).
Proof. apply rollback_recorded_platform. Qed.

(** X17. Deploy, break, roll back. After a [deploy] that returned [True],
    with archive and sidecar written and newer than the records already
    there, for a platform name whose lower-casing is stable: let
    [entries] be the members of the archive the newest record names, and
    let the project tree become [tree'] since, any tree into which they
    can be extracted (no file where a member needs a directory, no
    directory where a member goes). Then [Deployer.rollback], when
    nothing else stops the extraction, gives every member its archived
    content again, leaves every other path as [tree'] has it, calls
    [deploy()] of the deployer of that same platform, and returns its
    answer. *)
Theorem deploy_then_rollback (platform : string) (run_migrations : bool)
    (d d' : Deployer) (tree' : gmap Rollback.path string)
    (entries : list (Rollback.path * string)) :
  deploy platform run_migrations d = (Ok true, d') →
  NoDup (History.sidecar_stems (rollback_manager d)) →
  (∀ s, Rollback.io_mkdir_ok (checkpoint_io s) = true
        ∧ Rollback.io_write_ok (checkpoint_io s) = true
        ∧ Rollback.io_snapshot (checkpoint_io s) = Rollback.SnapshotOk
        ∧ Forall (λ e, (Rollback.sc_mtime e.2
                        < Rollback.io_mtime (checkpoint_io s))%Z)
                 (Rollback.sidecars
                    (History.history_or_empty (rollback_manager d)))) →
  str_lower (str_lower platform) = str_lower platform →
  previous_archive (rollback_manager d') = Some (Rollback.ZipArchive entries) →
  Rollback.first_blocked entries tree' = None →
  let key := str_lower platform in
  let later :=
    with_project_directory
      {| Rollback.project := tree';
         Rollback.history := Rollback.history (rollback_manager d') |} d' in
  ∃ restored,
    let redeployed :=
      at_call (with_project_directory restored later) [EvPlatformDeploy key] in
    rollback None later = (Ok (platform_deploy key redeployed), redeployed)
    ∧ (∀ p c, (p, c) ∈ entries → Rollback.project restored !! p = Some c)
    ∧ (∀ p, p ∉ entries.*1 → Rollback.project restored !! p = tree' !! p)
    ∧ Rollback.history restored = Rollback.history (rollback_manager d').
Proof.
  intros Hdeploy Hnd Hio Hidem Harchive Hfits key later.
  destruct (deploy_true_checkpoint _ _ _ _ Hdeploy)
    as (d2 & Hcfg & Hfs & Havail & Hknown & _ & _ & Hrm).
  destruct (Hio d2) as (Hmk & Hwr & Hsnap & Hold).
  destruct (deploy_previous_payload platform run_migrations d d' Hdeploy Hnd)
    as (payload & Hprev & Hplatform & _).
  { intros s. destruct (Hio s) as (? & ? & _ & ?). done. }
  rewrite <- Hfs in Hnd, Hold.
  assert (Hentries : entries = Rollback.snapshot_entries (rollback_manager d2)).
  { pose proof (archive_after_create platform
                  (Some (checkpoint_metadata run_migrations d2))
                  (checkpoint_io d2) (rollback_manager d2)
                  (Rollback.project (rollback_manager d'))
                  Hnd Hold Hmk Hwr Hsnap eq_refl) as Hzip.
    cbn zeta in Hzip. rewrite <- Hrm in Hzip.
    replace {| Rollback.project := Rollback.project (rollback_manager d');
               Rollback.history := Rollback.history (rollback_manager d') |}
      with (rollback_manager d') in Hzip
      by by destruct (rollback_manager d').
    rewrite Harchive in Hzip. by injection Hzip. }
  subst entries.
  destruct (restore_after_create platform
              (Some (checkpoint_metadata run_migrations d2))
              (checkpoint_io d2) (rollback_manager d2) tree'
              Hnd Hold Hmk Hwr Hsnap eq_refl Hfits)
    as (restored & Hrestore & Hfiles & Hrest & Hhist).
  rewrite <- Hrm in Hrestore, Hhist.
  exists restored. split; [ | split; [ | split ] ].
  - assert (Hne : str_lower platform ≠ "").
    { intros Hempty. rewrite Hempty in Havail.
      unfold AVAILABLE_DEPLOYERS in Havail.
      repeat (apply elem_of_cons in Havail as [ | Havail ];
              [ discriminate | ]).
      by apply elem_of_nil in Havail. }
    pose proof (rollback_recorded_platform None later restored payload
                  (str_lower platform)) as Hrb.
    unfold later in Hrb at 1 2 3. simpl in Hrb.
    specialize (Hrb Hrestore Hprev Hplatform Hne).
    rewrite Hidem in Hrb. fold key in Hrb.
    rewrite Hrb. unfold later. simpl.
    rewrite bool_decide_eq_true_2 by done. reflexivity.
  - intros p c [Hinc Hp]%elem_of_snapshot_entries. by apply Hfiles.
  - intros p Hp. apply Hrest.
    destruct (Rollback.project (rollback_manager d2) !! p) as [c | ] eqn:Hc;
      [ | by left ].
    right. destruct (Rollback.snapshot_includes p) eqn:Hinc; [ | done ].
    destruct Hp. apply list_elem_of_fmap. exists (p, c).
    split; [ done | ]. by apply elem_of_snapshot_entries.
  - done.
Qed.

End recovery.

(** ** The platform deployers *)

Section platforms.
Import Rollback Platforms.

Lemma file_exists_true name fs :
  file_exists name fs = true
  ↔ (∃ p c, project fs !! p = Some c ∧ head p = Some name)
    ∨ (name = ".deployment" ∧ is_Some (history fs)).
Proof.
  unfold file_exists. rewrite orb_true_iff, andb_true_iff.
  rewrite !bool_decide_eq_true, existsb_exists.
  split; intros [H | H]; [ left | by right | left | by right ].
  - destruct H as ([p c] & Hin & Hhead).
    apply list_elem_of_In, elem_of_map_to_list in Hin.
    apply bool_decide_eq_true in Hhead. by exists p, c.
  - destruct H as (p & c & Hp & Hhead). exists (p, c). split.
    + by apply list_elem_of_In, elem_of_map_to_list.
    + by apply bool_decide_eq_true.
Qed.

Lemma file_exists_false_lookup name fs :
  file_exists name fs = false → project fs !! [name] = None.
Proof.
  intros Hno. destruct (project fs !! [name]) as [c | ] eqn:Hc; [ | done ].
  assert (file_exists name fs = true); [ | congruence ].
  apply file_exists_true. left. by exists [name], c.
Qed.

Lemma file_exists_written name content tree h :
  file_exists name
    {| project := <[ [name] := content ]> tree; history := h |} = true.
Proof.
  apply file_exists_true. left. exists [name], content.
  split; [ apply lookup_insert_eq | done ].
Qed.

Lemma file_exists_other name other content tree h :
  other ≠ name →
  file_exists other
    {| project := <[ [name] := content ]> tree; history := h |}
  = file_exists other {| project := tree; history := h |}.
Proof.
  intros Hne.
  destruct (file_exists other {| project := tree; history := h |}) eqn:Hb.
  - apply file_exists_true. apply file_exists_true in Hb.
    destruct Hb as [(p & c & Hp & Hhead) | Hb]; [ left | right; exact Hb ].
    exists p, c. split; [ | done ]. simpl in *.
    rewrite lookup_insert_ne; [ done | ]. intros <-. simpl in Hhead.
    congruence.
  - destruct (file_exists other
                {| project := <[ [name] := content ]> tree; history := h |})
      eqn:Hb'; [ | done ].
    apply file_exists_true in Hb'.
    assert (file_exists other {| project := tree; history := h |} = true);
      [ | congruence ].
    apply file_exists_true.
    destruct Hb' as [(p & c & Hp & Hhead) | Hb']; [ left | right; exact Hb' ].
    exists p, c. split; [ | done ]. simpl in *.
    rewrite lookup_insert_ne in Hp; [ done | ]. intros <-. simpl in Hhead.
    congruence.
Qed.

Section prepare.
Context {yaml : YamlDump}.

Lemma generate_config_file_written data name fs :
  file_exists name fs = false →
  let fs' := (generate_config_file (Ok data) name WriteOk fs).2 in
  file_exists name fs' = true
  ∧ (∀ p content, project fs !! p = Some content →
                  project fs' !! p = Some content)
  ∧ history fs' = history fs
  ∧ (∀ other, other ≠ name → file_exists other fs' = file_exists other fs).
Proof.
  intros Hmissing. simpl. split; [ apply file_exists_written | ].
  split; [ | split; [ done | ] ].
  - intros p content Hp. rewrite lookup_insert_ne; [ done | ].
    intros <-. apply file_exists_false_lookup in Hmissing. congruence.
  - intros other Hne. rewrite file_exists_other by done. by destruct fs.
Qed.

(** The file [prepare()] writes when it is missing. *)
Lemma prepare_config_file (c : Shipped.deployer_class)
    (config : pyval) (fs : FS) :
  (c = Shipped.Render → ∃ items, config = VDict items) →
  let outcome := Shipped.prepare c config WriteOk fs in
  outcome.1 = Ok true
  ∧ file_exists (Shipped.config_file c) outcome.2 = true
  ∧ (∀ p content, project fs !! p = Some content →
                  project outcome.2 !! p = Some content)
  ∧ history outcome.2 = history fs
  ∧ Shipped.validate c config outcome.2
    = match c with
      | Shipped.Render => Ok true
      | Shipped.Railway => RailwayDeployer._check_procfile config fs
      | Shipped.Vercel => Ok (file_exists "app.py" fs)
      | Shipped.Heroku => Ok (file_exists "requirements.txt" fs)
      end.
Proof.
  intros Hconfig.
  destruct c; simpl.
  - destruct (Hconfig eq_refl) as (items & ->).
    unfold RenderDeployer.prepare, RenderDeployer.validate,
      RenderDeployer._check_render_config.
    destruct (file_exists "render.yaml" fs) eqn:Hthere; simpl.
    + rewrite Hthere. simpl. by destruct fs.
    + rewrite file_exists_written. simpl.
      split; [ done | split; [ done | split; [ | done ] ] ].
      intros p content Hp. rewrite lookup_insert_ne; [ done | ].
      intros <-. apply file_exists_false_lookup in Hthere. congruence.
  - unfold RailwayDeployer.prepare, RailwayDeployer.validate,
      RailwayDeployer._check_railway_config, RailwayDeployer._check_procfile.
    destruct (file_exists "railway.json" fs) eqn:Hthere; simpl.
    + rewrite Hthere. simpl.
      split; [ done | split; [ done | split; [ done | split; [ done | ] ] ] ].
      by destruct (py_contains "start_command" config) as [[] | ];
        destruct (file_exists "Procfile" fs).
    + rewrite file_exists_written. simpl.
      rewrite (file_exists_other "railway.json" "Procfile") by done.
      split; [ done | split; [ done | split; [ | split; [ done | ] ] ] ].
      * intros p content Hp. rewrite lookup_insert_ne; [ done | ].
        intros <-. apply file_exists_false_lookup in Hthere. congruence.
      * replace {| project := project fs; history := history fs |}
          with fs by by destruct fs.
        by destruct (py_contains "start_command" config) as [[] | ];
          destruct (file_exists "Procfile" fs).
  - unfold VercelDeployer.prepare, VercelDeployer.validate,
      VercelDeployer._check_vercel_json, VercelDeployer._check_api_routes.
    destruct (file_exists "vercel.json" fs) eqn:Hthere; simpl.
    + rewrite Hthere. simpl.
      split; [ done | split; [ done | split; [ done | split; [ done | ] ] ] ].
      by destruct (file_exists "app.py" fs).
    + rewrite file_exists_written. simpl.
      rewrite (file_exists_other "vercel.json" "app.py") by done.
      split; [ done | split; [ done | split; [ | split; [ done | ] ] ] ].
      * intros p content Hp. rewrite lookup_insert_ne; [ done | ].
        intros <-. apply file_exists_false_lookup in Hthere. congruence.
      * replace {| project := project fs; history := history fs |}
          with fs by by destruct fs.
        by destruct (file_exists "app.py" fs).
  - unfold HerokuDeployer.prepare, HerokuDeployer.validate,
      HerokuDeployer._check_procfile, HerokuDeployer._check_requirements,
      HerokuDeployer._create_procfile.
    destruct (file_exists "Procfile" fs) eqn:Hthere; simpl.
    + rewrite Hthere. simpl.
      split; [ done | split; [ done | split; [ done | split; [ done | ] ] ] ].
      by destruct (file_exists "requirements.txt" fs).
    + rewrite file_exists_written. simpl.
      rewrite (file_exists_other "Procfile" "requirements.txt") by done.
      split; [ done | split; [ done | split; [ | split; [ done | ] ] ] ].
      * intros p content Hp. rewrite lookup_insert_ne; [ done | ].
        intros <-. apply file_exists_false_lookup in Hthere. congruence.
      * replace {| project := project fs; history := history fs |}
          with fs by by destruct fs.
        by destruct (file_exists "requirements.txt" fs).
Qed.

(** X20. [prepare()] of each of the four deployers, when the write works
    (for Render: with a dictionary as configuration): it returns [True];
    the configuration file of the platform exists afterwards; every file
    of the project tree keeps its content, so an existing configuration
    file is not overwritten; the history is untouched; and what
    [validate()] returns afterwards depends only on the other requirement
    of the platform (Render has none). *)
Theorem prepare_creates_missing_config_file (c : Shipped.deployer_class)
    (config : pyval) (fs : FS) :
  (c = Shipped.Render → ∃ items, config = VDict items) →
  let outcome := Shipped.prepare c config WriteOk fs in
  outcome.1 = Ok true
  ∧ file_exists (Shipped.config_file c) outcome.2 = true
  ∧ (∀ p content, project fs !! p = Some content →
                  project outcome.2 !! p = Some content)
  ∧ history outcome.2 = history fs
  ∧ Shipped.validate c config outcome.2
    = match c with
      | Shipped.Render => Ok true
      | Shipped.Railway => RailwayDeployer._check_procfile config fs
      | Shipped.Vercel => Ok (file_exists "app.py" fs)
      | Shipped.Heroku => Ok (file_exists "requirements.txt" fs)
      end.
Proof. apply prepare_config_file. Qed.

(** X21. A failed write is silent for Render, Railway and Vercel and is
    not for Heroku. [prepare()] of the first three returns [True]
    whatever the write did. What Render's [validate()] returns after a
    [prepare()] whose write of the missing [render.yaml] failed depends
    on what the failed write left: [True] when it left a file behind,
    cut short as it may be, [False] when it left nothing, or when the
    configuration is no dictionary and nothing was written at all.
    Heroku's [prepare()] raises [OSError] when the Procfile is missing
    and cannot be written. *)
Theorem prepare_write_failure (config : pyval) (w : write_outcome)
    (fs : FS) :
  (∀ c, c ≠ Shipped.Heroku → (Shipped.prepare c config w fs).1 = Ok true)
  ∧ (file_exists "render.yaml" fs = false →
     ∀ left_behind,
       Shipped.validate Shipped.Render config
         (Shipped.prepare Shipped.Render config (WriteFailed left_behind)
            fs).2
       = Ok match left_behind, config with
            | Some _, VDict _ => true
            | _, _ => false
            end)
  ∧ (file_exists "Procfile" fs = false →
     ∀ left_behind,
       (Shipped.prepare Shipped.Heroku config (WriteFailed left_behind) fs).1
       = Raise OSError).
Proof.
  split; [ | split ].
  - intros [] Hc; simpl; try done.
    + unfold RenderDeployer.prepare. by destruct (negb _).
    + unfold RailwayDeployer.prepare. by destruct (negb _).
    + unfold VercelDeployer.prepare. by destruct (negb _).
  - intros Hmissing left_behind. simpl.
    unfold RenderDeployer.prepare, RenderDeployer.validate,
      RenderDeployer._check_render_config. rewrite Hmissing. simpl.
    unfold generate_config_file.
    destruct config as [ | | | | | items | | | | ], left_behind as [partial | ];
      simpl; rewrite ?file_exists_written, ?Hmissing; done.
  - intros Hmissing left_behind. simpl.
    unfold HerokuDeployer.prepare. rewrite Hmissing. simpl.
    by destruct left_behind.
Qed.

End prepare.

End platforms.

Section shipped.
Import Main Platforms.
Context {str_ops : PyStr}.
Context (system : Deployer → list CheckResult)
        (framework : string → Deployer → list CheckResult)
        (migrator : Deployer → bool)
        (io : Deployer → Rollback.ckpt_io).

Local Instance shipped_capabilities : Capabilities :=
  Shipped.capabilities system framework migrator io.

Lemma deployer_class_of_available key :
  is_Some (Shipped.deployer_class_of key) ↔ key ∈ AVAILABLE_DEPLOYERS.
Proof.
  unfold Shipped.deployer_class_of, AVAILABLE_DEPLOYERS. split.
  - intros [c Hc].
    repeat case_bool_decide; subst; try discriminate;
      apply list_elem_of_In; simpl; tauto.
  - intros Hkey.
    repeat (apply elem_of_cons in Hkey as [-> | Hkey]; [ by eexists | ]).
    by apply elem_of_nil in Hkey.
Qed.

(** An accepted configuration is the configuration the deployers get. *)
Lemma accepted_config_is_deployer_config cfg errors :
  Validator.validate cfg = Ok (true, errors) →
  deployer_config cfg = cfg ∧ ∃ items, cfg = VDict items.
Proof.
  intros (_ & items & app_name & -> & _ & Happ & _)%validate_accepted.
  split; [ | by exists items ].
  unfold deployer_config. simpl. destruct items; [ discriminate | done ].
Qed.

Lemma shipped_validate_dict c items fs :
  ∃ b, Shipped.validate c (VDict items) fs = Ok b.
Proof.
  destruct c; simpl.
  - unfold RenderDeployer.validate. simpl. eauto.
  - unfold RailwayDeployer.validate, RailwayDeployer._check_procfile.
    simpl. eauto.
  - unfold VercelDeployer.validate. simpl. eauto.
  - unfold HerokuDeployer.validate. simpl. eauto.
Qed.

(** [deploy] with the capabilities of the four deployers. *)
Lemma deploy_shipped_iff (platform : string)
    (run_migrations : bool) (d : Deployer) :
  (deploy platform run_migrations d).1 = Ok true
  ↔ (∃ results,
       (_run_system_checks (at_call d [EvDeploy platform run_migrations])).1
       = Ok (true, results))
    ∧ (∃ errors, Validator.validate (config d) = Ok (true, errors))
    ∧ (∃ c, Shipped.deployer_class_of (str_lower platform) = Some c
            ∧ Shipped.validate c (config d) (rollback_manager d) = Ok true).
Proof.
  split.
  - intros Hd.
    destruct (deploy platform run_migrations d) as [r d'] eqn:Hdeploy.
    simpl in Hd. subst r.
    revert Hdeploy. run_monad. simpl. intros Hdeploy.
    destruct (forallb passed (system _)) eqn:Hgate; simpl in Hdeploy;
      [ | discriminate ].
    split.
    { eexists. reflexivity. }
    destruct (Validator.validate (config d)) as [[[] errors] | ] eqn:Hv;
      simpl in Hdeploy; try discriminate.
    split; [ by exists errors | ].
    destruct (accepted_config_is_deployer_config _ _ Hv) as [Hcfg _].
    destruct (bool_decide (str_lower platform ∈ AVAILABLE_DEPLOYERS));
      simpl in Hdeploy; [ | discriminate ].
    rewrite Hcfg in Hdeploy.
    destruct (Shipped.deployer_class_of (str_lower platform)) as [c | ];
      simpl in Hdeploy; [ | discriminate ].
    exists c. split; [ done | ].
    destruct (Shipped.validate c (config d) (rollback_manager d))
      as [[] | ]; simpl in Hdeploy; done.
  - intros ((results & Hgate) & (errors & Hv) & (c & Hc & Hvalid)).
    destruct (accepted_config_is_deployer_config _ _ Hv) as [Hcfg _].
    assert (Havail : str_lower platform ∈ AVAILABLE_DEPLOYERS).
    { apply deployer_class_of_available. by rewrite Hc. }
    assert (Hdeployc : Shipped.deploy c = true) by by destruct c.
    revert Hgate. run_monad. simpl. intros [= Hgate _].
    unfold at_call. simpl. rewrite Hgate. simpl. rewrite Hv. simpl.
    rewrite (bool_decide_eq_true_2 _ Havail). simpl.
    rewrite Hcfg, Hc, Hvalid. simpl.
    destruct run_migrations; simpl;
      rewrite (bool_decide_eq_true_2 _ (key_add_elem _ _)); simpl;
      rewrite Hc, Hdeployc; simpl; by case_match.
Qed.

(** X18. With the four deployers of the repository [deploy] returns [True]
    exactly when the system checks pass, [ConfigValidator.validate]
    accepts the configuration, the lower-cased platform is one of the
    four, and [validate()] of that deployer returns [True] on the project
    directory. Neither the migrations nor the platform's [deploy()] can
    make it fail. *)
Theorem deploy_with_shipped_deployers (platform : string)
    (run_migrations : bool) (d : Deployer) :
  (deploy platform run_migrations d).1 = Ok true
  ↔ (∃ results,
       (_run_system_checks (at_call d [EvDeploy platform run_migrations])).1
       = Ok (true, results))
    ∧ (∃ errors, Validator.validate (config d) = Ok (true, errors))
    ∧ (∃ c, Shipped.deployer_class_of (str_lower platform) = Some c
            ∧ Shipped.validate c (config d) (rollback_manager d) = Ok true).
Proof. apply deploy_shipped_iff. Qed.

Lemma rollback_without_restore (extract_stops : option nat) (d : Deployer) :
  (Rollback.rollback_to_previous None extract_stops (rollback_manager d)).1
  = false →
  (Recovery.rollback extract_stops d).1 = Ok false.
Proof.
  unfold Recovery.rollback, Recovery.rollback_to_previous_with,
    Rollback.rollback_to_previous.
  destruct (py_truthy (Rollback.get_previous_deployment (rollback_manager d)));
    cbn [negb]; [ | done ].
  by destruct (Rollback._restore_snapshot _ extract_stops (rollback_manager d))
    as [[[] | e] fs1].
Qed.

(** X19. With the four deployers of the repository, and only registered
    platforms as keys of [deployers], [Deployer.rollback] returns [True]
    exactly when the restore succeeds and the restored state records a
    non-empty platform string that, lower-cased, is a key of [deployers]
    or, lower-cased once more, a registered platform. *)
Theorem rollback_with_shipped_deployers (extract_stops : option nat)
    (d : Deployer) :
  (∀ key, key ∈ deployers d → key ∈ AVAILABLE_DEPLOYERS) →
  (Recovery.rollback extract_stops d).1 = Ok true
  ↔ (Rollback.rollback_to_previous None extract_stops (rollback_manager d)).1
    = true
    ∧ ∃ items p,
        Rollback.get_previous_deployment (rollback_manager d) = VDict items
        ∧ dict_get (KStr "platform") items = VStr p
        ∧ p ≠ ""
        ∧ (str_lower p ∈ deployers d
           ∨ str_lower (str_lower p) ∈ AVAILABLE_DEPLOYERS).
Proof.
  intros Hregistered.
  destruct (Rollback.rollback_to_previous None extract_stops
              (rollback_manager d)) as [[] fs1] eqn:Hrestore.
  2:{ pose proof (rollback_without_restore extract_stops d) as Hno.
      rewrite Hrestore in Hno. rewrite (Hno eq_refl).
      split; [ done | by intros [? _] ]. }
  rewrite (rollback_after_restore _ _ _ Hrestore).
  assert (Hdict : ∃ items,
            Rollback.get_previous_deployment (rollback_manager d)
            = VDict items).
  { revert Hrestore. unfold Rollback.rollback_to_previous.
    destruct (py_truthy _); cbn [negb]; [ | done ].
    destruct (Rollback._restore_snapshot _ _ _) as [[[] | ] fs0] eqn:Hr;
      try done.
    apply restore_snapshot_true in Hr as (items & _ & _ & -> & _). eauto. }
  destruct Hdict as (items & Hprev). rewrite Hprev.
  assert (Hdeployed : ∀ key,
            key ∈ AVAILABLE_DEPLOYERS →
            match Shipped.deployer_class_of key with
            | Some c => Shipped.deploy c
            | None => false
            end = true).
  { intros key Hkey.
    apply deployer_class_of_available in Hkey as [c ->]. by destruct c. }
  unfold Recovery._redeploy_previous.
  destruct (dict_get (KStr "platform") items)
    as [ | b | z | bits | p | xs | xs | xs | xs | r ] eqn:Hplatform;
    try (destruct (negb (py_truthy _)); simpl;
         (split; [ done | intros (_ & ? & ? & [= <-] & ? & _); congruence ])).
  simpl. destruct (decide (p = "")) as [-> | Hp].
  { simpl. split; [ done | ].
    intros (_ & ? & ? & [= <-] & ? & ? & _). congruence. }
  rewrite (bool_decide_eq_false_2 _ Hp). simpl.
  unfold Recovery.deployer_rollback, initialize_deployer, emit, set_deployer,
    gets, modify, lift, mbind, mret, M_bind, M_ret.
  simpl.
  destruct (decide (str_lower p ∈ deployers d)) as [Hin | Hout].
  - rewrite (bool_decide_eq_true_2 _ Hin). simpl.
    rewrite Hdeployed by (by apply Hregistered). simpl.
    split; [ | done ]. intros _. split; [ done | ].
    exists items, p. by repeat split; try left.
  - rewrite (bool_decide_eq_false_2 _ Hout). simpl.
    destruct (decide (str_lower (str_lower p) ∈ AVAILABLE_DEPLOYERS))
      as [Hav | Hav].
    + rewrite (bool_decide_eq_true_2 _ Hav). simpl.
      rewrite Hdeployed by done. simpl.
      split; [ | done ]. intros _. split; [ done | ].
      exists items, p. by repeat split; try right.
    + rewrite (bool_decide_eq_false_2 _ Hav). simpl.
      split; [ done | ].
      intros (_ & items' & p' & [= <-] & Hp' & _ & Hcase).
      rewrite Hplatform in Hp'. injection Hp' as <-. by destruct Hcase.
Qed.

End shipped.

Section prepare_deployment.
Import Main Platforms Preparation.
Context {str_ops : PyStr} {yaml : YamlDump}.
Context (system : Deployer → list CheckResult)
        (framework : string → Deployer → list CheckResult)
        (migrator : Deployer → bool)
        (io : Deployer → Rollback.ckpt_io)
        (world : Deployer → write_outcome).

Local Instance shipped_caps : Capabilities :=
  Shipped.capabilities system framework migrator io.

Local Instance shipped_prepare : PrepareCapability :=
  Preparation.shipped world.

(** X22. [prepare_deployment] followed by [deploy], with the deployers of
    the repository, an accepted configuration and a write that works:
    [prepare_deployment] returns [True], and the [deploy] that follows
    returns [True] exactly when the system checks pass and the other
    requirement of the platform holds (none for Render; a Procfile or a
    [start_command] for Railway; [app.py] for Vercel; [requirements.txt]
    for Heroku). *)
Theorem prepare_deployment_then_deploy (platform : string)
    (run_migrations : bool) (d : Deployer) (c : Shipped.deployer_class) :
  Shipped.deployer_class_of (str_lower platform) = Some c →
  (∀ s, world s = WriteOk) →
  (∃ errors, Validator.validate (config d) = Ok (true, errors)) →
  let prepared := prepare_deployment platform d in
  prepared.1 = Ok true
  ∧ ((deploy platform run_migrations prepared.2).1 = Ok true
     ↔ (∃ results,
          (_run_system_checks
             (at_call prepared.2 [EvDeploy platform run_migrations])).1
          = Ok (true, results))
       ∧ match c with
         | Shipped.Render => True
         | Shipped.Railway =>
             RailwayDeployer._check_procfile (config d) (rollback_manager d)
             = Ok true
         | Shipped.Vercel =>
             file_exists "app.py" (rollback_manager d) = true
         | Shipped.Heroku =>
             file_exists "requirements.txt" (rollback_manager d) = true
         end).
Proof.
  intros Hc Hworld (errors & Hv) prepared.
  destruct (accepted_config_is_deployer_config _ _ Hv)
    as [Hcfg (items & Hitems)].
  assert (Havail : str_lower platform ∈ AVAILABLE_DEPLOYERS).
  { apply deployer_class_of_available. by rewrite Hc. }
  destruct (prepare_config_file c (config d) (rollback_manager d))
    as (Hok & _ & _ & _ & Hvalid); [ by eauto | ].
  assert (Hprepared : prepared
    = (Ok true,
       Recovery.with_project_directory
         (Shipped.prepare c (config d) WriteOk (rollback_manager d)).2
         (set_deployer (str_lower platform) d).2)).
  { unfold prepared, prepare_deployment, run_prepare, initialize_deployer,
      set_deployer, gets, modify, mbind, mret, M_bind, M_ret.
    rewrite (bool_decide_eq_true_2 _ Havail). simpl.
    rewrite Hc, Hcfg, Hworld.
    destruct (Shipped.prepare c (config d) WriteOk (rollback_manager d))
      as [r fs'] eqn:Hp.
    simpl in Hok. subst r. reflexivity. }
  rewrite Hprepared. split; [ done | ]. cbn [snd].
  etransitivity;
    [ exact (deploy_shipped_iff system framework migrator io platform
               run_migrations _) | ].
  simpl. rewrite Hc.
  split.
  - intros (Hgate & _ & c' & [= <-] & Hvalid').
    split; [ done | ]. rewrite Hvalid in Hvalid'.
    destruct c; [ done | done | by injection Hvalid' | by injection Hvalid' ].
  - intros (Hgate & Hrest).
    split; [ done | split; [ by exists errors | ] ].
    exists c. split; [ done | ]. rewrite Hvalid.
    destruct c; [ done | done | by rewrite Hrest | by rewrite Hrest ].
Qed.

End prepare_deployment.

(** ** Utilities, health check and migrations *)

Section utils.
Context {str_ops : PyStr}.

(** X12. [validate_config] of [utils/validators.py] accepts exactly the
    dictionaries that have the keys [platform] and [app_name], whatever
    their values; every configuration [ConfigValidator.validate] accepts
    is accepted by it, with no error. *)
Theorem validate_config_is_weaker (config : pyval) :
  ((Utils.validate_config config).1 = true
   ↔ ∃ items, config = VDict items
              ∧ dict_mem (KStr "platform") items = true
              ∧ dict_mem (KStr "app_name") items = true)
  ∧ (∀ errors, Validator.validate config = Ok (true, errors) →
               Utils.validate_config config = (true, [])).
Proof.
  split.
  - unfold Utils.validate_config.
    destruct config as [ | | | | | items | | | | ];
      try (split; [ done | by intros (? & ? & _) ]).
    simpl.
    destruct (dict_mem (KStr "platform") items) eqn:Hp,
             (dict_mem (KStr "app_name") items) eqn:Ha; simpl;
      (split;
       [ intros Hv; try discriminate Hv; by exists items
       | intros (items' & [= <-] & Hp' & Ha'); congruence ]).
  - intros errors
      (_ & items & app_name & -> & Hplatform & Happ & _)%validate_accepted.
    unfold Utils.validate_config. simpl.
    rewrite (dict_get_mem (KStr "app_name")) by (by rewrite Happ).
    destruct Hplatform as [(p & Hp & _) | (xs & Hp & _)];
      rewrite (dict_get_mem (KStr "platform")) by (by rewrite Hp); done.
Qed.

End utils.

Section health.
Import HealthChecker.

Lemma attempts_up server max_retries remaining attempt :
  (attempts server max_retries remaining attempt).1 = true
  ↔ ∃ i, attempt ≤ i < attempt + remaining ∧ server i = Responded 200.
Proof.
  revert attempt. induction remaining as [ | remaining IH ]; intros attempt.
  - simpl. split; [ done | ]. intros (i & Hi & _). lia.
  - simpl. destruct (server attempt) as [status | ] eqn:Hs.
    + destruct (Z.eqb_spec status 200) as [-> | Hne].
      * split; [ | done ]. intros _. exists attempt. split; [ lia | done ].
      * specialize (IH (S attempt)).
        destruct (attempts server max_retries remaining (S attempt))
          as [up actions]. simpl in *. rewrite IH. split.
        -- intros (i & Hi & Hup). exists i. split; [ lia | done ].
        -- intros (i & Hi & Hup). exists i. split; [ | done ].
           destruct (decide (i = attempt)) as [-> | ]; [ | lia ].
           rewrite Hs in Hup. by injection Hup.
    + specialize (IH (S attempt)).
      destruct (attempts server max_retries remaining (S attempt))
        as [up actions]. simpl in *. rewrite IH. split.
      * intros (i & Hi & Hup). exists i. split; [ lia | done ].
      * intros (i & Hi & Hup). exists i. split; [ | done ].
        destruct (decide (i = attempt)) as [-> | ]; [ | lia ].
        by rewrite Hs in Hup.
Qed.

(** X23. [check_server_up] returns [True] exactly when one of the first
    [max_retries] requests is answered with status 200. *)
Theorem check_server_up_iff (server : nat → response) (max_retries : Z) :
  (check_server_up server max_retries).1 = true
  ↔ ∃ i, (Z.of_nat i < max_retries)%Z ∧ server i = Responded 200.
Proof.
  unfold check_server_up. rewrite attempts_up. split.
  - intros (i & Hi & Hup). exists i. split; [ lia | done ].
  - intros (i & Hi & Hup). exists i. split; [ lia | done ].
Qed.

Lemma slept_app a b : slept (a ++ b) = (slept a + slept b)%Z.
Proof.
  induction a as [ | [ | s] a IH ]; simpl; [ done | done | ].
  rewrite IH. lia.
Qed.

Lemma requests_app a b : requests (a ++ b) = requests a + requests b.
Proof.
  induction a as [ | [ | s] a IH ]; simpl; [ done | | done ].
  by rewrite IH.
Qed.

Lemma attempts_effort server max_retries remaining attempt :
  let actions := (attempts server max_retries remaining attempt).2 in
  requests actions ≤ remaining
  ∧ (0 ≤ slept actions)%Z
  ∧ (slept actions + 2 ^ Z.of_nat attempt
     ≤ 2 ^ Z.max (max_retries - 1) (Z.of_nat attempt))%Z.
Proof.
  revert attempt. induction remaining as [ | remaining IH ]; intros attempt.
  - simpl. split; [ done | split; [ done | ] ].
    apply Z.add_le_mono_l with (p := 0%Z).
    apply Z.pow_le_mono_r; lia.
  - simpl.
    assert (Hpow : (0 < 2 ^ Z.of_nat attempt)%Z) by (apply Z.pow_pos_nonneg; lia).
    assert (Hsucc : (2 ^ Z.of_nat (S attempt) = 2 * 2 ^ Z.of_nat attempt)%Z).
    { rewrite Nat2Z.inj_succ, Z.pow_succ_r; lia. }
    assert (Hmax : (2 ^ Z.of_nat attempt
                    ≤ 2 ^ Z.max (max_retries - 1) (Z.of_nat attempt))%Z).
    { apply Z.pow_le_mono_r; lia. }
    destruct (IH (S attempt)) as (Hreq & Hnonneg & Hbound).
    destruct (server attempt) as [status | ].
    + destruct (status =? 200)%Z.
      * simpl. split; [ lia | split; [ lia | lia ] ].
      * destruct (attempts server max_retries remaining (S attempt))
          as [up actions]. simpl in *.
        split; [ lia | split; [ done | ] ].
        destruct (Z.le_gt_cases (Z.of_nat (S attempt)) (max_retries - 1)).
        -- rewrite Z.max_l in Hbound by lia. rewrite Z.max_l by lia. lia.
        -- rewrite Z.max_r in Hbound by lia. lia.
    + destruct (attempts server max_retries remaining (S attempt))
        as [up actions]. simpl in *.
      rewrite requests_app, slept_app.
      destruct (Z.ltb_spec (Z.of_nat attempt) (max_retries - 1)); simpl.
      * split; [ lia | split; [ lia | ] ].
        rewrite Z.max_l in Hbound by lia. rewrite Z.max_l by lia. lia.
      * split; [ lia | split; [ lia | ] ].
        rewrite Z.max_r in Hbound by lia. lia.
Qed.

Lemma attempts_all_failed server max_retries remaining attempt :
  (∀ i, server i = Failed) →
  attempt + remaining = Z.to_nat max_retries →
  let actions := (attempts server max_retries remaining attempt).2 in
  requests actions = remaining
  ∧ (slept actions + 2 ^ Z.of_nat attempt
     = 2 ^ Z.max (max_retries - 1) (Z.of_nat attempt))%Z.
Proof.
  intros Hfailed. revert attempt.
  induction remaining as [ | remaining IH ]; intros attempt Hsum.
  - simpl. split; [ done | ]. rewrite Z.max_r by lia. lia.
  - simpl. rewrite Hfailed.
    assert (Hsucc : (2 ^ Z.of_nat (S attempt) = 2 * 2 ^ Z.of_nat attempt)%Z).
    { rewrite Nat2Z.inj_succ, Z.pow_succ_r; lia. }
    destruct (IH (S attempt)) as (Hreq & Hslept); [ lia | ].
    destruct (attempts server max_retries remaining (S attempt))
      as [up actions]. simpl in *.
    rewrite requests_app, slept_app.
    destruct (Z.ltb_spec (Z.of_nat attempt) (max_retries - 1)); simpl.
    + split; [ lia | ].
      rewrite Z.max_l in Hslept by lia. rewrite Z.max_l by lia. lia.
    + split; [ lia | ].
      rewrite Z.max_r in Hslept by lia. rewrite Z.max_r by lia. lia.
Qed.

(** X24. [check_server_up] makes at most [max_retries] requests and
    sleeps at most [2^(max_retries - 1) - 1] seconds in all (not at all
    for [max_retries <= 1]); against a server that fails every request it
    makes exactly [max_retries] requests and sleeps exactly that long, so
    there is no sleep after the last attempt. *)
Theorem check_server_up_effort (server : nat → response) (max_retries : Z) :
  let actions := (check_server_up server max_retries).2 in
  requests actions ≤ Z.to_nat max_retries
  ∧ (0 ≤ slept actions ≤ 2 ^ Z.max (max_retries - 1) 0 - 1)%Z
  ∧ ((∀ i, server i = Failed) →
     requests actions = Z.to_nat max_retries
     ∧ slept actions = (2 ^ Z.max (max_retries - 1) 0 - 1)%Z).
Proof.
  unfold check_server_up.
  destruct (attempts_effort server max_retries (Z.to_nat max_retries) 0)
    as (Hreq & Hnonneg & Hbound).
  simpl in *. split; [ done | split; [ lia | ] ].
  intros Hfailed.
  destruct (attempts_all_failed server max_retries (Z.to_nat max_retries) 0
              Hfailed eq_refl) as (Hreq' & Hslept).
  simpl in *. split; [ done | lia ].
Qed.

End health.

Section migrator.
Import Rollback Platforms Migrator.
Context {str_ops : PyStr}.

(** X25. [run_migrations]: with [manage.py] present the result is that of
    [python manage.py migrate], whatever the requirements say; without
    [manage.py] and with no Alembic detected it returns [True] and runs
    nothing; it never runs more than one command, and when it has run one
    it returns [True] exactly when that command exited with 0. *)
Theorem run_migrations_cases (w : world) (fs : FS) :
  let outcome := run_migrations w fs in
  (file_exists "manage.py" fs = true →
   outcome = run_django_migrations w)
  ∧ (file_exists "manage.py" fs = false →
     auto_detect_framework w fs ≠ Some "alembic" →
     outcome = (true, []))
  ∧ (outcome.2 = []
     ∨ ∃ command,
         outcome.2 = [command]
         ∧ (command = ["python"; "manage.py"; "migrate"]
            ∨ command = ["alembic"; "upgrade"; "head"])
         ∧ (outcome.1 = true ↔ run w command = Exited 0)).
Proof.
  unfold run_migrations, auto_detect_framework, run_django_migrations,
    run_alembic_migrations.
  destruct (file_exists "manage.py" fs); simpl.
  { split; [ done | split; [ done | ] ]. right.
    destruct (run w ["python"; "manage.py"; "migrate"]) as [code | ] eqn:Hrun;
      eexists; (split; [ reflexivity | split; [ by left | ] ]); simpl;
      rewrite Hrun.
    - rewrite bool_decide_eq_true. split; [ by intros -> | by intros [= ->] ].
    - done. }
  split; [ done | ].
  destruct (file_exists "requirements.txt" fs);
    [ | split; [ done | by left ] ].
  destruct (project fs !! ["requirements.txt"]) as [bytes | ];
    [ | split; [ done | by left ] ].
  destruct (read_text w bytes) as [content | ];
    [ | split; [ done | by left ] ].
  destruct (str_contains "alembic" (str_lower content)); simpl.
  2:{ repeat (destruct (str_contains _ _); simpl);
        (split; [ done | by left ]). }
  split; [ done | ].
  destruct (file_exists "migrations" fs); simpl; [ | by left ].
  right.
  destruct (run w ["alembic"; "upgrade"; "head"]) as [code | ] eqn:Hrun;
    eexists; (split; [ reflexivity | split; [ by right | ] ]); simpl;
    rewrite Hrun.
  - rewrite bool_decide_eq_true. split; [ by intros -> | by intros [= ->] ].
  - done.
Qed.

(** X26. [rollback_migrations] returns [True] only for a project detected
    as Alembic whose [alembic downgrade -1] exited with 0; for a project
    with [manage.py] it returns [False] and runs nothing. *)
Theorem rollback_migrations_only_alembic (w : world) (fs : FS) :
  let outcome := rollback_migrations w fs in
  (outcome.1 = true →
   auto_detect_framework w fs = Some "alembic"
   ∧ run w ["alembic"; "downgrade"; "-1"] = Exited 0
   ∧ outcome.2 = [["alembic"; "downgrade"; "-1"]])
  ∧ (file_exists "manage.py" fs = true → outcome = (false, [])).
Proof.
  unfold rollback_migrations.
  split.
  - destruct (auto_detect_framework w fs) as [framework | ]; [ | done ].
    case_bool_decide; [ done | ]. case_bool_decide; [ | done ]. subst.
    destruct (run w ["alembic"; "downgrade"; "-1"]) as [code | ] eqn:Hrun;
      simpl; [ | done ].
    intros ->%bool_decide_eq_true. done.
  - unfold auto_detect_framework. by intros ->.
Qed.

End migrator.

(** ** Witnesses of the further properties *)

Section store_witnesses.
Import Rollback History.

(** X9 on a history directory listed in no order, swept with [keep_count = 2]. *)
Lemma clean_old_deployments_idempotent_witness :
  clean_old_deployments 2 (clean_old_deployments 2 Scenario.untidy)
  = clean_old_deployments 2 Scenario.untidy.
Proof.
  apply (clean_old_deployments_idempotent 2 Scenario.untidy).
  - lia.
  - apply (bool_decide_unpack _). vm_compute. exact I.
Defined.

(** X8 on the same directory: two of the four sidecars stay, and the
    archive without a sidecar goes. *)
Lemma clean_old_deployments_retains_newest_witness :
  length (sidecars (history_or_empty
                      (clean_old_deployments 2 Scenario.untidy))) = 2
  ∧ (∀ stem,
       stem ∈ archive_stems (clean_old_deployments 2 Scenario.untidy) →
       stem ∈ sidecar_stems (clean_old_deployments 2 Scenario.untidy)).
Proof.
  destruct (clean_old_deployments_retains_newest 2 Scenario.untidy)
    as (_ & Hlength & _ & Harchives & _).
  - lia.
  - apply (bool_decide_unpack _). vm_compute. exact I.
  - split; [ exact Hlength | exact Harchives ].
Defined.

(** X2 on the deployed project: a second checkpoint, for Heroku, whose
    archive cannot be written, with a float in its metadata. *)
Lemma checkpoint_becomes_previous_witness :
  ∃ state,
    (create_checkpoint (str_ops := ascii_ops) "Heroku"
       (Some [(KStr "load", VFloat 0x3ff8000000000000)])
       (Sample.io_no_archive "20240101120500" 11) Sample.deployed).1
    = Some state
    ∧ get_previous_deployment
        (create_checkpoint (str_ops := ascii_ops) "Heroku"
           (Some [(KStr "load", VFloat 0x3ff8000000000000)])
           (Sample.io_no_archive "20240101120500" 11) Sample.deployed).2
      = _make_json_safe (VDict state).
Proof.
  apply (@checkpoint_becomes_previous ascii_ops "Heroku"
           (Some [(KStr "load", VFloat 0x3ff8000000000000)])
           (Sample.io_no_archive "20240101120500" 11) Sample.deployed).
  - vm_compute. reflexivity.
  - vm_compute. reflexivity.
  - apply (bool_decide_unpack _). vm_compute. exact I.
  - apply (bool_decide_unpack _). vm_compute. exact I.
  - reflexivity.
  - reflexivity.
Defined.

(** X4 on the deployed project and a second checkpoint. *)
Lemma create_checkpoint_bounds_history_witness :
  length (sidecar_stems
            (create_checkpoint (str_ops := ascii_ops) "Heroku" None
               (Sample.io_ok "20240101120500" 11) Sample.deployed).2) ≤ 5
  ∧ (∀ stem,
       stem ∈ archive_stems
                (create_checkpoint (str_ops := ascii_ops) "Heroku" None
                   (Sample.io_ok "20240101120500" 11) Sample.deployed).2 →
       stem ∈ sidecar_stems
                (create_checkpoint (str_ops := ascii_ops) "Heroku" None
                   (Sample.io_ok "20240101120500" 11) Sample.deployed).2).
Proof.
  destruct (@create_checkpoint_bounds_history ascii_ops "Heroku" None
              (Sample.io_ok "20240101120500" 11) Sample.deployed)
    as (Hlength & _ & _ & Harchives).
  - apply (bool_decide_unpack _). vm_compute. exact I.
  - reflexivity.
  - reflexivity.
  - split; [ exact Hlength | exact Harchives ].
Defined.

(** X1 on the sample project: checkpoint, edit of [app.py], rollback. *)
Lemma checkpoint_restore_round_trip_witness :
  ∃ restored,
    rollback_to_previous None None
      {| project := project Sample.broken;
         history :=
           history
             (create_checkpoint (str_ops := ascii_ops) "render"
                (Some [(KStr "notes", VStr "first")])
                (Sample.io_ok "20240101120000" 10) Sample.project_v1).2 |}
    = (true, restored)
    ∧ project restored !! ["app.py"] = Some "print('v1')"
    ∧ project restored !! [".git"; "HEAD"]
      = project Sample.broken !! [".git"; "HEAD"].
Proof.
  destruct (@checkpoint_restore_round_trip ascii_ops "render"
              (Some [(KStr "notes", VStr "first")])
              (Sample.io_ok "20240101120000" 10) Sample.project_v1
              (project Sample.broken))
    as (restored & Hrollback & Hfiles & Hrest & _).
  - vm_compute. reflexivity.
  - constructor.
  - constructor.
  - reflexivity.
  - reflexivity.
  - reflexivity.
  - reflexivity.
  - vm_compute. reflexivity.
  - exists restored. split; [ exact Hrollback | split ].
    + apply Hfiles; reflexivity.
    + apply Hrest. right. reflexivity.
Defined.




End store_witnesses.

Section validator_witnesses.

(** X11 on a platform list with a [null] in it. *)
Lemma validate_raises_only_on_platform_list_witness :
  Validator.validate (str_ops := ascii_ops) Scenario.config_platform_null
  = Raise AttributeError.
Proof.
  apply (@validate_raises_only_on_platform_list ascii_ops
           Scenario.config_platform_null AttributeError).
  - reflexivity.
  - split; [ reflexivity | ].
    exists [ (KStr "platform", VList [VStr "render"; VNone]);
             (KStr "app_name", VStr "shop") ], [VStr "render"; VNone].
    split; [ reflexivity | split; [ reflexivity | ] ].
    apply Exists_cons_tl, Exists_cons_hd. intros p. discriminate.
Defined.

End validator_witnesses.

Section orchestration_witnesses.
Import Rollback History.


(** X16 on the edited project, the Render deployer registered. *)
Lemma rollback_redeploys_recorded_platform_witness :
  Recovery.rollback (str_ops := ascii_ops)
    (caps := Sample.capabilities true true true true)
    None Scenario.after_edit
  = (Ok true,
     at_call (Recovery.with_project_directory Sample.restored
                Scenario.after_edit)
             [Main.EvPlatformDeploy "render"]).
Proof.
  apply (@rollback_redeploys_recorded_platform ascii_ops
           (Sample.capabilities true true true true)
           None Scenario.after_edit Sample.restored
           Scenario.deployed_record "render").
  - vm_compute. reflexivity.
  - vm_compute. reflexivity.
  - vm_compute. reflexivity.
  - discriminate.
Defined.

(** X17 on a deployment to Render followed by an edit of [app.py]. *)
Lemma deploy_then_rollback_witness :
  ∃ restored,
    (Recovery.rollback (str_ops := ascii_ops)
       (caps := Sample.capabilities true true true true) None
       (Recovery.with_project_directory
          {| project := project Sample.broken;
             history :=
               history
                 (Main.rollback_manager
                    (Main.deploy (str_ops := ascii_ops)
                       (caps := Sample.capabilities true true true true)
                       "Render" true
                       (Sample.deployer Sample.config_ok)).2) |}
          (Main.deploy (str_ops := ascii_ops)
             (caps := Sample.capabilities true true true true)
             "Render" true (Sample.deployer Sample.config_ok)).2)).1
    = Ok true
    ∧ project restored !! ["app.py"] = Some "print('v1')".
Proof.
  destruct (@deploy_then_rollback ascii_ops
              (Sample.capabilities true true true true)
              "Render" true (Sample.deployer Sample.config_ok)
              (Main.deploy (str_ops := ascii_ops)
                 (caps := Sample.capabilities true true true true)
                 "Render" true (Sample.deployer Sample.config_ok)).2
              (project Sample.broken) [(["app.py"], "print('v1')")])
    as (restored & Hrollback & Hfiles & _).
  - vm_compute. reflexivity.
  - constructor.
  - intros s.
    split; [ reflexivity | split; [ reflexivity | split; [ reflexivity | ] ] ].
    constructor.
  - reflexivity.
  - vm_compute. reflexivity.
  - vm_compute. reflexivity.
  - exists restored. split.
    + rewrite Hrollback. reflexivity.
    + apply Hfiles. left.
Defined.

End orchestration_witnesses.

Section platform_witnesses.
Import Rollback Platforms.

(** X20 for Render on the sample project, which has no [render.yaml]. *)
Lemma prepare_creates_missing_config_file_witness :
  file_exists "render.yaml"
    (Shipped.prepare (yaml := Scenario.yaml) Shipped.Render Sample.config_ok
       WriteOk Sample.project_v1).2 = true
  ∧ Shipped.validate Shipped.Render Sample.config_ok
      (Shipped.prepare (yaml := Scenario.yaml) Shipped.Render Sample.config_ok
         WriteOk Sample.project_v1).2
    = Ok true.
Proof.
  destruct (@prepare_creates_missing_config_file Scenario.yaml Shipped.Render
              Sample.config_ok Sample.project_v1)
    as (_ & Hexists & _ & _ & Hvalid).
  - intros _. eexists. reflexivity.
  - split; [ exact Hexists | exact Hvalid ].
Defined.

(** X19 on the edited project. *)
Lemma rollback_with_shipped_deployers_witness :
  (Recovery.rollback (str_ops := ascii_ops) (caps := Scenario.shipped)
     None Scenario.after_edit).1 = Ok true.
Proof.
  apply (@rollback_with_shipped_deployers ascii_ops
           (λ _, [Sample.check true]) (λ _ _, []) (λ _, true)
           (λ _, Sample.io_ok "20240101120000" 1) None Scenario.after_edit).
  - intros key Hkey. apply list_elem_of_singleton in Hkey. subst key.
    apply (bool_decide_unpack _). vm_compute. exact I.
  - split; [ vm_compute; reflexivity | ].
    exists Scenario.deployed_record, "render".
    split; [ vm_compute; reflexivity | ].
    split; [ vm_compute; reflexivity | ].
    split; [ discriminate | ].
    left. apply (bool_decide_unpack _). vm_compute. exact I.
Defined.

(** X22 for Render on the sample project. *)
Lemma prepare_deployment_then_deploy_witness :
  (Preparation.prepare_deployment (str_ops := ascii_ops)
     (preparing := Preparation.shipped (yaml := Scenario.yaml)
                     (λ _, WriteOk))
     "Render" (Sample.deployer Sample.config_ok)).1 = Ok true.
Proof.
  destruct (@prepare_deployment_then_deploy ascii_ops Scenario.yaml
              (λ _, [Sample.check true]) (λ _ _, []) (λ _, true)
              (λ _, Sample.io_ok "20240101120000" 1) (λ _, WriteOk)
              "Render" true (Sample.deployer Sample.config_ok)
              Shipped.Render)
    as (Hprepared & _).
  - reflexivity.
  - reflexivity.
  - exists []. reflexivity.
  - exact Hprepared.
Defined.

End platform_witnesses.
